(** * Sprite-sheet extractor: a shallow embedding of [extract_sprites.py]

    The script slices a 160x160 sheet into 20 face sprites and 20 portraits,
    names the outputs from an optional sidecar text file and optionally runs
    an external PNG optimiser.  The embedding keeps the script's own function
    names; the Python runtime (strings, paths, files, PIL, subprocess) is
    modelled first, the script itself after it. *)

From Stdlib Require Import ZArith NArith Lia Ascii String DecimalString Sorted.
From stdpp Require Import base option list gmap sets.

Local Open Scope N_scope.

(** ** Python strings

    A Python 3 [str] is a sequence of Unicode code points. *)

Definition char := N.
Abbreviation str := (list N).

(** A source-code literal made of ASCII characters. *)
Definition lit (s : string) : str := map N_of_ascii (list_ascii_of_string s).

(** [str(n)] for a non-negative integer. *)
Definition str_of_nat (n : nat) : str :=
  lit (NilEmpty.string_of_uint (Nat.to_uint n)).

Module PyStr.

(** [s.startswith(p)] *)
Fixpoint startswith (s p : str) {struct p} : bool :=
  match p, s with
  | [], _ => true
  | _ :: _, [] => false
  | a :: p', b :: s' => (a =? b) && startswith s' p'
  end.

(** [not s]: the empty string is the only falsy one. *)
Definition is_empty (s : str) : bool :=
  match s with [] => true | _ :: _ => false end.

(** [s.endswith(p)] *)
Definition endswith (s p : str) : bool := startswith (rev s) (rev p).

(** [s.replace(old, new)]: leftmost non-overlapping occurrences.  [skip]
    counts the characters of a match that are still to be passed over. *)
Fixpoint replace_from (old new : str) (skip : nat) (s : str) : str :=
  match s with
  | [] => []
  | c :: s' =>
      match skip with
      | S k => replace_from old new k s'
      | O =>
          if startswith s old
          then new ++ replace_from old new (length old - 1) s'
          else c :: replace_from old new 0 s'
      end
  end.

Definition replace (s old new : str) : str :=
  match old with
  | [] => new ++ flat_map (fun c => c :: new) s
  | _ :: _ => replace_from old new 0 s
  end.

(** [sep.join(parts)] *)
Fixpoint join (sep : str) (parts : list str) : str :=
  match parts with
  | [] => []
  | [p] => p
  | p :: ps => p ++ sep ++ join sep ps
  end.

(** [c.isalnum()] on the ASCII range: digits and both cases of letters. *)
Definition ascii_isalnum (c : char) : bool :=
  ((48 <=? c) && (c <=? 57)) || ((65 <=? c) && (c <=? 90))
  || ((97 <=? c) && (c <=? 122)).

(** [c.isspace()]: the code points CPython's [Py_UNICODE_ISSPACE] accepts. *)
Definition isspace (c : char) : bool :=
  ((9 <=? c) && (c <=? 13)) || ((28 <=? c) && (c <=? 32))
  || (c =? 133) || (c =? 160) || (c =? 5760)
  || ((8192 <=? c) && (c <=? 8202))
  || (c =? 8232) || (c =? 8233) || (c =? 8239) || (c =? 8287)
  || (c =? 12288).

Fixpoint lstrip (s : str) : str :=
  match s with
  | [] => []
  | c :: s' => if isspace c then lstrip s' else s
  end.

Definition rstrip (s : str) : str := rev (lstrip (rev s)).

(** [s.strip()] *)
Definition strip (s : str) : str := rstrip (lstrip s).

(** [s.lower()] on the ASCII range.  No character beyond it lowers to an
    ASCII letter other than [i] and [k], so for telling whether a lowered
    string is [.png] the range is enough. *)
Definition ascii_lower (c : char) : char :=
  if (65 <=? c) && (c <=? 90) then c + 32 else c.

(** [s.rfind(c)] for a one-character needle; [None] stands for [-1]. *)
Fixpoint rfind (s : str) (c : char) : option nat :=
  match s with
  | [] => None
  | a :: s' =>
      match rfind s' c with
      | Some i => Some (S i)
      | None => if a =? c then Some O else None
      end
  end.

(** Python's [<=] on strings: lexicographic on code points. *)
Fixpoint leb (a b : str) : bool :=
  match a, b with
  | [], _ => true
  | _ :: _, [] => false
  | x :: a', y :: b' => (x <? y) || ((x =? y) && leb a' b')
  end.

Fixpoint insert_sorted (x : str) (l : list str) : list str :=
  match l with
  | [] => [x]
  | y :: l' => if leb x y then x :: l else y :: insert_sorted x l'
  end.

(** [sorted(l)].  Equal strings are indistinguishable, so any sorting
    algorithm returns the list that Python's stable merge sort returns. *)
Definition sorted (l : list str) : list str := foldr insert_sorted [] l.

End PyStr.

Section Sanitizer.

(** [str.isalnum] beyond ASCII is a table of the Unicode database; the
    script only relies on the builtin, so the table is a parameter. *)
Variable unicode_isalnum : char -> bool.

Definition isalnum (c : char) : bool :=
  if c <? 128 then PyStr.ascii_isalnum c else unicode_isalnum c.

(** The generator's condition: [c.isalnum() or c in ('_', '-')]. *)
Definition keep_char (c : char) : bool :=
  isalnum c || ((c =? 95) || (c =? 45)).

(** [sanitize_filename], lines 51-65. *)
Definition sanitize_filename (name : str) : str :=
  let safe_name := PyStr.replace name (lit " ") (lit "_") in
  let safe_name :=
    PyStr.join (lit "") (map (fun c => [c]) (filter (fun c => keep_char c = true) safe_name)) in
  safe_name.

End Sanitizer.

(** ** [os.path] (POSIX flavour) *)

Module OsPath.

Definition sep : char := 47.
Definition dot : char := 46.

(** [os.path.basename(p)]: what follows the last slash. *)
Definition basename (p : str) : str :=
  match PyStr.rfind p sep with
  | Some i => drop (S i) p
  | None => p
  end.

(** [os.path.splitext(p)[0]]: cut at the last dot, provided that dot lies
    after the last slash and some character between the two is not a
    dot (leading dots of a file name do not start an extension). *)
Definition splitext_root (p : str) : str :=
  match PyStr.rfind p dot with
  | None => p
  | Some d =>
      let start := match PyStr.rfind p sep with Some i => S i | None => O end in
      if (start <=? d)%nat
         && existsb (fun c => negb (c =? dot)) (take (d - start) (drop start p))
      then take d p
      else p
  end.

(** [os.path.splitext(p)[1]]: what [splitext_root] leaves. *)
Definition splitext_ext (p : str) : str := drop (length (splitext_root p)) p.

(** [os.path.join(a, b)] *)
Definition join (a b : str) : str :=
  if PyStr.startswith b [sep] then b
  else if PyStr.is_empty a || PyStr.endswith a [sep] then a ++ b
  else a ++ [sep] ++ b.

(** The components of a path: what lies between its slashes.  [cur] holds
    the characters of the current component, last first. *)
Fixpoint components_from (cur : str) (p : str) : list str :=
  match p with
  | [] => [rev cur]
  | c :: p' =>
      if c =? sep then rev cur :: components_from [] p'
      else components_from (c :: cur) p'
  end.

Definition components (p : str) : list str := components_from [] p.

(** A relative path written in the one way that has no empty component (no
    leading, doubled or trailing slash) and no [.] or [..]: two such paths
    name the same file only when they are the same string. *)
Definition canonical (p : str) : bool :=
  forallb (fun c => negb (PyStr.is_empty c) && negb (bool_decide (c = [dot]))
                    && negb (bool_decide (c = [dot; dot])))
          (components p).

(** The directories above a path: what precedes each of its slashes, the
    empty prefix apart. *)
Fixpoint ancestors_from (pre : str) (p : str) : list str :=
  match p with
  | [] => []
  | c :: p' =>
      (if (c =? sep) && negb (PyStr.is_empty pre) then [rev pre] else [])
      ++ ancestors_from (c :: pre) p'
  end.

Definition ancestors (p : str) : list str := ancestors_from [] p.

(** The number of bytes of a string in UTF-8, the encoding of file names. *)
Definition utf8_bytes (c : char) : N :=
  if c <? 128 then 1 else if c <? 2048 then 2 else if c <? 65536 then 3 else 4.

Definition utf8_size (s : str) : N := foldr (fun c n => utf8_bytes c + n) 0 s.

(** The limits of Linux on a path handed to the kernel: [NAME_MAX] bytes
    for a component, fewer than [PATH_MAX] for the whole. *)
Definition name_max : N := 255.
Definition path_max : N := 4096.

Definition fits (p : str) : bool :=
  (utf8_size p <? path_max)
  && forallb (fun c => utf8_size c <=? name_max) (components p).

End OsPath.

(** ** Raster images (PIL)

    An image as PIL holds it: its size and mode, which the header of the
    file gives, and the colour of each pixel, a packed channel value.  PIL
    reads the pixels of an opened file only when they are first needed;
    [loadable] tells whether that read succeeds (it fails for a file cut
    short behind its header).  [pixel_at] reads zero outside the image,
    which is what [Image.crop] puts into the part of a box that leaves the
    source. *)

Definition pixel := N.

Inductive pil_mode :=
  | Mode_1 | Mode_L | Mode_LA | Mode_I | Mode_I16 | Mode_P | Mode_RGB | Mode_RGBA
  | Mode_CMYK | Mode_YCbCr | Mode_LAB | Mode_HSV | Mode_F.

(** The modes the PNG writer of PIL accepts. *)
Definition png_writable (m : pil_mode) : bool :=
  match m with
  | Mode_1 | Mode_L | Mode_LA | Mode_I | Mode_I16 | Mode_P | Mode_RGB | Mode_RGBA => true
  | Mode_CMYK | Mode_YCbCr | Mode_LAB | Mode_HSV | Mode_F => false
  end.

Record image := mkImage {
  width : nat;
  height : nat;
  mode : pil_mode;
  loadable : bool;
  data : nat -> nat -> pixel
}.

Definition pixel_at (im : image) (x y : nat) : pixel :=
  if (x <? width im)%nat && (y <? height im)%nat then data im x y else 0.

(** The result of [im.crop((left, upper, right, lower))] on pixels that
    are loaded: a new image of the same mode, held in memory. *)
Definition crop (im : image) (box : nat * nat * nat * nat) : image :=
  let '(x0, y0, x1, y1) := box in
  mkImage (x1 - x0) (y1 - y0) (mode im) true
          (fun i j => pixel_at im (x0 + i) (y0 + j)).

(** ** The world the script runs in

    A file holds an image or text, directories are a set, and [trace]
    records the calls that reach outside the process, in order.  Files and
    directories are keyed by their paths as strings, relative to the working
    directory: the model is that of a POSIX file system without symbolic
    links, on which two canonical paths name the same file only when they
    are equal.  Permissions and the space left on the device are not
    modelled. *)

Inductive content :=
  | Image (im : image)
  | Text (s : str).

Inductive event :=
  | EPrint (line : str)
  | EMkdir (path : str)
  | ESave (path : str) (im : image)
  | EExec (argv : list str) (code : Z).

Record world := mkWorld {
  files : gmap str content;
  dirs : gset str;
  trace : list event
}.

Definition emit (e : event) (w : world) : world :=
  mkWorld (files w) (dirs w) (trace w ++ [e]).

Inductive exn :=
  | FileNotFoundError
  | FileExistsError
  | IsADirectoryError
  | NotADirectoryError
  | OSError
  | ValueError
  | UnidentifiedImageError
  | UnicodeDecodeError
  | IndexError
  | CalledProcessError (code : Z).

Inductive outcome (A : Type) :=
  | Ok (a : A)
  | Raise (e : exn).
Arguments Ok {A} a.
Arguments Raise {A} e.

(** A computation reads and changes the world and returns or raises. *)
Definition M (A : Type) : Type := world -> outcome A * world.

Definition ret {A} (a : A) : M A := fun w => (Ok a, w).

Definition bind {A B} (m : M A) (k : A -> M B) : M B :=
  fun w =>
    match m w with
    | (Ok a, w') => k a w'
    | (Raise e, w') => (Raise e, w')
    end.

Definition raise {A} (e : exn) : M A := fun w => (Raise e, w).

(** [try: m except: handler], the handler deciding which exceptions it takes. *)
Definition try_except {A} (m : M A) (handler : exn -> option (M A)) : M A :=
  fun w =>
    match m w with
    | (Ok a, w') => (Ok a, w')
    | (Raise e, w') =>
        match handler e with
        | Some h => h w'
        | None => (Raise e, w')
        end
    end.

(** stdpp's monad notations: [x ← m; k] and [m;; k]. *)
#[global] Instance M_ret : MRet M := @ret.
#[global] Instance M_bind : MBind M := fun A B k m => bind m k.

(** [for x in xs: body], with the loop-carried locals as [s]. *)
Fixpoint for_each {A S} (xs : list A) (body : A -> S -> M S) (s : S) : M S :=
  match xs with
  | [] => ret s
  | x :: xs' => s' ← body x s; for_each xs' body s'
  end.

Definition print (line : str) : M unit :=
  fun w => (Ok tt, emit (EPrint line) w).

(** [os.path.exists(p)] *)
Definition os_path_exists (p : str) : M bool :=
  fun w => (Ok (bool_decide (is_Some (files w !! p) \/ p ∈ dirs w)), w).

(** Text mode turns [\r\n] and a lone [\r] into [\n]. *)
Fixpoint universal_newlines (s : str) : str :=
  match s with
  | [] => []
  | c :: s' =>
      if c =? 13
      then 10 :: match s' with
                 | d :: s'' => if d =? 10 then universal_newlines s'' else universal_newlines s'
                 | [] => []
                 end
      else c :: universal_newlines s'
  end.

(** Iterating a text file: the lines, each with its terminator. *)
Fixpoint lines_from (cur : str) (s : str) : list str :=
  match s with
  | [] => match cur with [] => [] | _ :: _ => [rev cur] end
  | c :: s' =>
      if c =? 10 then rev (c :: cur) :: lines_from [] s'
      else lines_from (c :: cur) s'
  end.

Definition file_lines (s : str) : list str := lines_from [] s.

(** [with open(p, 'r') as f]: the lines [f] iterates over. *)
Definition open_read_lines (p : str) : M (list str) :=
  fun w =>
    match files w !! p with
    | Some (Text s) => (Ok (file_lines (universal_newlines s)), w)
    | Some (Image _) => (Raise UnicodeDecodeError, w)
    | None =>
        if bool_decide (p ∈ dirs w) then (Raise IsADirectoryError, w)
        else (Raise FileNotFoundError, w)
    end.

(** [Image.open(p)]: PIL identifies the file by its header and reads no
    pixel yet, so a file whose pixel data are damaged opens all the same. *)
Definition Image_open (p : str) : M image :=
  fun w =>
    match files w !! p with
    | Some (Image im) => (Ok im, w)
    | Some (Text _) => (Raise UnidentifiedImageError, w)
    | None =>
        if bool_decide (p ∈ dirs w) then (Raise IsADirectoryError, w)
        else if negb (OsPath.fits p) then (Raise OSError, w)
        else (Raise FileNotFoundError, w)
    end.

(** [im.crop(box)] on an opened file: the first call loads the pixels and
    raises [OSError] when they cannot be read. *)
Definition Image_crop (im : image) (box : nat * nat * nat * nat) : M image :=
  if loadable im then ret (crop im box) else raise OSError.

(** The directories that [os.makedirs(p)] leaves in place. *)
Definition made_dirs (p : str) : gset str :=
  list_to_set (OsPath.ancestors p) ∪ {[p]}.

(** [os.makedirs(p, exist_ok=True)]: [p] and the directories above it that
    are missing are created.  A file at [p] gives [FileExistsError], a name
    beyond the limits of the file system [OSError], a file at a directory
    above [p] gives [NotADirectoryError]; where a file system holds a file
    only below directories, nothing has been created when one of them is
    raised. *)
Definition os_makedirs (p : str) : M unit :=
  fun w =>
    let w := emit (EMkdir p) w in
    if PyStr.is_empty p then (Raise FileNotFoundError, w)
    else if bool_decide (is_Some (files w !! p)) then (Raise FileExistsError, w)
    else if negb (OsPath.fits p) then (Raise OSError, w)
    else if existsb (fun a => bool_decide (is_Some (files w !! a))) (OsPath.ancestors p)
    then (Raise NotADirectoryError, w)
    else (Ok tt, mkWorld (files w) (made_dirs p ∪ dirs w) (trace w)).

(** Whether PIL takes the PNG writer for a path: it goes by the lowered
    extension.  The script saves under names that end in [.png] only, for
    which the extension is [.png] or, when nothing but dots precedes it in
    the last component, empty, and for the empty one PIL raises
    [ValueError]; the other formats PIL knows are not modelled. *)
Definition saves_as_png (p : str) : bool :=
  bool_decide (map PyStr.ascii_lower (OsPath.splitext_ext p) = lit ".png").

(** [im.save(p, optimize=True)] for an image held in memory: the file at
    [p] now holds [im].  The format is settled before the file is opened;
    opening fails on a directory and on a name beyond the limits of the file
    system; the PNG writer refuses some modes once the file is open, and
    PIL (in its recent versions) then removes the file if the call created
    it, and leaves it emptied otherwise.  The directory of [p] is taken to
    exist: the script saves only below the directory it has made. *)
Definition Image_save (im : image) (p : str) : M unit :=
  fun w =>
    if negb (saves_as_png p) then (Raise ValueError, w)
    else if bool_decide (p ∈ dirs w) then (Raise IsADirectoryError, w)
    else if negb (OsPath.fits p) then (Raise OSError, w)
    else if negb (png_writable (mode im)) then
      (Raise OSError,
       match files w !! p with
       | Some _ => mkWorld (<[p := Text []]> (files w)) (dirs w) (trace w)
       | None => w
       end)
    else (Ok tt, emit (ESave p im) (mkWorld (<[p := Image im]> (files w)) (dirs w) (trace w))).

(** [names[i]] *)
Definition getitem {A} (l : list A) (i : nat) : M A :=
  match l !! i with
  | Some a => ret a
  | None => raise IndexError
  end.

(** The entries of the working directory: the paths without a slash. *)
Definition cwd_entries (w : world) : list str :=
  filter (fun p => PyStr.rfind p OsPath.sep = None)
         (elements (dom (files w) ∪ dirs w)).

(** [os.listdir(".")] *)
Definition os_listdir_cwd : M (list str) :=
  fun w => (Ok (cwd_entries w), w).

(** ** The script *)

Section Script.

Variable unicode_isalnum : char -> bool.

(** The machine outside the interpreter: whether an [optipng] binary is on
    the search path, and what running it does to the files and which
    exit status it reports. *)
Variable optipng_installed : bool.
Variable optipng : list str -> gmap str content -> Z * gmap str content.

(** [shutil.which('optipng')] *)
Definition shutil_which_optipng : M (option str) :=
  ret (if optipng_installed then Some (lit "/usr/bin/optipng") else None).

(** [subprocess.run(argv, check=True, capture_output=True)] *)
Definition subprocess_run_checked (argv : list str) : M Z :=
  fun w =>
    if optipng_installed then
      let '(code, fs) := optipng argv (files w) in
      let w' := emit (EExec argv code) (mkWorld fs (dirs w) (trace w)) in
      if (code =? 0)%Z then (Ok code, w') else (Raise (CalledProcessError code), w')
    else (Raise FileNotFoundError, w).

(** The comprehension of line 42:
    [[line.strip() for line in f if line.strip()]]. *)
Definition read_names (f : list str) : list str :=
  map PyStr.strip (filter (fun line => PyStr.is_empty (PyStr.strip line) = false) f).

(** [load_character_names], lines 25-48. *)
Definition load_character_names (sheet_path : str) : M (option (list str)) :=
  let base_name := OsPath.splitext_root sheet_path in
  let names_file := base_name ++ lit ".txt" in
  present ← os_path_exists names_file;
  if negb present then ret None
  else
    f ← open_read_lines names_file;
    let names := read_names f in
    (if negb (length names =? 20)%nat then
       print (lit "Warning: Expected 20 names in " ++ names_file
              ++ lit ", found " ++ str_of_nat (length names));;
       print (lit "Names should be provided for all 20 characters (5 rows "
              ++ [215] ++ lit " 4 sprites)")
     else ret tt);;
    ret (Some names).

(** [check_optipng_available], lines 68-75. *)
Definition check_optipng_available : M bool :=
  found ← shutil_which_optipng;
  ret (match found with Some _ => true | None => false end).

(** [optimize_png_with_optipng], lines 78-95. *)
Definition optimize_png_with_optipng (file_path : str) : M unit :=
  try_except
    (subprocess_run_checked [lit "optipng"; lit "-o2"; lit "-quiet"; file_path];;
     ret tt)
    (fun e => match e with
              | CalledProcessError _ => Some (ret tt)
              | _ => None
              end).

(** Truth value of [character_names]: [None] and the empty list are falsy. *)
Definition truthy (character_names : option (list str)) : bool :=
  match character_names with
  | Some (_ :: _) => true
  | _ => false
  end.

(** [len(character_names)], reached only behind [character_names and ...]. *)
Definition len_names (character_names : option (list str)) : nat :=
  match character_names with
  | Some names => length names
  | None => 0
  end.

(** [character_names[character_index]] *)
Definition names_getitem (character_names : option (list str)) (i : nat) : M str :=
  match character_names with
  | Some names => getitem names i
  | None => raise IndexError
  end.

(** The table of lines 143-148. *)
Definition sprite_positions : list (nat * nat * str) :=
  [ (0, 0, lit "1"); (16, 0, lit "2"); (0, 16, lit "3"); (16, 16, lit "4") ]%nat.

(** Lines 150-174: one face sprite.  The loop carries
    [(character_index, files_to_optimize)]. *)
Definition face_body (sheet : image) (base_name output_dir : str)
    (character_names : option (list str)) (use_optipng : bool)
    (row base_x base_y : nat) (pos : nat * nat * str)
    (st : nat * list str) : M (nat * list str) :=
  let '(offset_x, offset_y, sprite_num) := pos in
  let '(character_index, files_to_optimize) := st in
  let x := (base_x + offset_x)%nat in
  let y := (base_y + offset_y)%nat in
  sprite ← Image_crop sheet (x, y, x + 16, y + 16)%nat;
  sprite_name ←
    (if truthy character_names && (character_index <? len_names character_names)%nat
     then
       name ← names_getitem character_names character_index;
       let char_name := sanitize_filename unicode_isalnum name in
       ret (char_name ++ lit "face.png")
     else
       ret (base_name ++ lit "_row" ++ str_of_nat row ++ lit "_sprite"
            ++ sprite_num ++ lit ".png"));
  let sprite_path := OsPath.join output_dir sprite_name in
  Image_save sprite sprite_path;;
  print (lit "  Saved: " ++ sprite_name);;
  let files_to_optimize :=
    if use_optipng then files_to_optimize ++ [sprite_path] else files_to_optimize in
  ret (character_index + 1, files_to_optimize)%nat.

(** Lines 183-210: one portrait. *)
Definition portrait_body (sheet : image) (base_name output_dir : str)
    (character_names : option (list str)) (use_optipng : bool)
    (row col : nat) (st : nat * list str) : M (nat * list str) :=
  let '(character_index, files_to_optimize) := st in
  let x := (col * 32)%nat in
  let y := (row * 32)%nat in
  portrait ← Image_crop sheet (x, y, x + 32, y + 32)%nat;
  let sprite_index := ((col - 1) + 1)%nat in
  portrait_name ←
    (if truthy character_names && (character_index <? len_names character_names)%nat
     then
       name ← names_getitem character_names character_index;
       let char_name := sanitize_filename unicode_isalnum name in
       ret (char_name ++ lit ".png")
     else
       ret (base_name ++ lit "_row" ++ str_of_nat row ++ lit "_sprite"
            ++ str_of_nat sprite_index ++ lit "_portrait.png"));
  let portrait_path := OsPath.join output_dir portrait_name in
  Image_save portrait portrait_path;;
  print (lit "  Saved: " ++ portrait_name);;
  let files_to_optimize :=
    if use_optipng then files_to_optimize ++ [portrait_path] else files_to_optimize in
  ret (character_index + 1, files_to_optimize)%nat.

(** Lines 137-174: the loop over the first column. *)
Definition face_loop (sheet : image) (base_name output_dir : str)
    (character_names : option (list str)) (use_optipng : bool)
    (st : nat * list str) : M (nat * list str) :=
  for_each (seq 0 5)
    (fun row st =>
       let base_y := (row * 32)%nat in
       let base_x := 0%nat in
       for_each sprite_positions
         (face_body sheet base_name output_dir character_names use_optipng
                    row base_x base_y) st)
    st.

(** Lines 181-210: the loop over columns 1 to 4. *)
Definition portrait_loop (sheet : image) (base_name output_dir : str)
    (character_names : option (list str)) (use_optipng : bool)
    (st : nat * list str) : M (nat * list str) :=
  for_each (seq 0 5)
    (fun row st =>
       for_each (seq 1 4)
         (portrait_body sheet base_name output_dir character_names use_optipng row)
         st)
    st.

(** Lines 213-217: the optimiser pass. *)
Definition optimize_pass (use_optipng : bool) (files_to_optimize : list str) : M unit :=
  if use_optipng && negb (match files_to_optimize with [] => true | _ :: _ => false end)
  then
    print (lit "Optimizing " ++ str_of_nat (length files_to_optimize)
           ++ lit " files with optipng...");;
    for_each files_to_optimize
      (fun file_path (_ : unit) => optimize_png_with_optipng file_path) tt;;
    print (lit "Optimization complete!")
  else ret tt.

(** [extract_sprites_from_sheet], lines 98-219. *)
Definition extract_sprites_from_sheet
    (sheet_path output_dir : str) (use_optipng : bool) : M unit :=
  sheet ← Image_open sheet_path;
  (if negb ((width sheet =? 160)%nat && (height sheet =? 160)%nat) then
     print (lit "Warning: Expected 160x160 pixels, got (" ++ str_of_nat (width sheet)
            ++ lit ", " ++ str_of_nat (height sheet) ++ lit ")")
   else ret tt);;
  let base_name := OsPath.splitext_root (OsPath.basename sheet_path) in
  character_names ← load_character_names sheet_path;
  (if truthy character_names then
     print (lit "Loaded " ++ str_of_nat (len_names character_names)
            ++ lit " character names from " ++ base_name ++ lit ".txt")
   else
     print (lit "No character names file found (" ++ base_name ++ lit ".txt)");;
     print (lit "Using default naming (row/sprite numbers)"));;
  os_makedirs output_dir;;
  let files_to_optimize := [] in
  print (lit "Processing " ++ sheet_path ++ lit "...");;
  print (lit "Extracting 16x16 sprites from first column...");;
  let character_index := 0%nat in
  '(_, files_to_optimize) ←
    face_loop sheet base_name output_dir character_names use_optipng
              (character_index, files_to_optimize);
  print (lit "Extracting 32x32 portraits from remaining columns...");;
  let character_index := 0%nat in
  '(_, files_to_optimize) ←
    portrait_loop sheet base_name output_dir character_names use_optipng
                  (character_index, files_to_optimize);
  optimize_pass use_optipng files_to_optimize;;
  print (lit "Extraction complete for " ++ sheet_path ++ lit "!").

(** The end of [extract_sprites_from_sheet], lines 213-219, on its own. *)
Definition finish (sheet_path : str) (use_optipng : bool)
    (files_to_optimize : list str) : M unit :=
  optimize_pass use_optipng files_to_optimize;;
  print (lit "Extraction complete for " ++ sheet_path ++ lit "!").

(** The filter of lines 228-229. *)
Definition is_sheet_name (f : str) : bool :=
  PyStr.startswith f (lit "npc-sprites-")
  && (PyStr.endswith f (lit ".png") || PyStr.endswith f (lit ".webp")
      || PyStr.endswith f (lit ".jpg")).

(** [main], lines 222-259; [argv] is [sys.argv]. *)
Definition main (argv : list str) : M unit :=
  let output_dir := lit "extracted_sprites" in
  listing ← os_listdir_cwd;
  let sprite_sheets := filter (fun f => is_sheet_name f = true) listing in
  match sprite_sheets with
  | [] =>
      print (lit "No sprite sheets found matching pattern 'npc-sprites-*'");;
      print (lit "Usage: python extract_sprites.py [output_directory]")
  | _ :: _ =>
      output_dir ←
        (if (1 <? length argv)%nat then getitem argv 1 else ret output_dir);
      use_optipng ← check_optipng_available;
      (if use_optipng then
         print ([10003] ++ lit " optipng detected - will use for additional optimization")
       else
         print ([9888] ++ lit " optipng not found - using basic PNG optimization only");;
         print (lit "  Install optipng for better compression:");;
         print (lit "    macOS:   brew install optipng");;
         print (lit "    Linux:   apt-get install optipng  (or yum/pacman)");;
         print (lit "    Windows: choco install optipng  (or download from http://optipng.sourceforge.net/)"));;
      print (lit "Found " ++ str_of_nat (length sprite_sheets) ++ lit " sprite sheet(s)");;
      print (lit "Output directory: " ++ output_dir ++ [10]);;
      for_each (PyStr.sorted sprite_sheets)
        (fun sheet_path (_ : unit) =>
           extract_sprites_from_sheet sheet_path output_dir use_optipng;;
           print [])
        tt;;
      print (lit "All done! Extracted sprites saved to '" ++ output_dir ++ lit "/' directory")
  end.

End Script.

(** ** What the statements speak of *)

(** The saves of a trace, in order, and those made between two worlds of
    one run. *)
Definition saves (t : list event) : list (str * image) :=
  omap (fun e => match e with ESave p im => Some (p, im) | _ => None end) t.

Definition saved_since (w w' : world) : list (str * image) :=
  drop (length (saves (trace w))) (saves (trace w')).

(** The world after [im.save(p)] and the line that reports it. *)
Definition after_save (p : str) (im : image) (name : str) (w : world) : world :=
  emit (EPrint (lit "  Saved: " ++ name))
       (emit (ESave p im) (mkWorld (<[p := Image im]> (files w)) (dirs w) (trace w))).

(** The files after a list of saves, the later ones overwriting. *)
Definition write_all (outs : list (str * image)) (fs : gmap str content) : gmap str content :=
  foldl (fun fs o => <[o.1 := Image o.2]> fs) fs outs.

Section Layout.

Variable unicode_isalnum : char -> bool.

(** Section 4.3 of the specification, in closed form.  The name of
    character [i], when the list has one: *)
Definition name_of (character_names : option (list str)) (i : nat) : option str :=
  match character_names with
  | Some names => names !! i
  | None => None
  end.

(** Face sprite [p] (0..3, raster order) of row [row]. *)
Definition face_filename (base : str) (character_names : option (list str))
    (row p : nat) : str :=
  match name_of character_names (row * 4 + p) with
  | Some name => sanitize_filename unicode_isalnum name ++ lit "face.png"
  | None => base ++ lit "_row" ++ str_of_nat row ++ lit "_sprite"
            ++ str_of_nat (p + 1) ++ lit ".png"
  end.

Definition face_box (row p : nat) : nat * nat * nat * nat :=
  let x := (16 * (p mod 2))%nat in
  let y := (row * 32 + 16 * (p / 2))%nat in
  (x, y, x + 16, y + 16)%nat.

(** The portrait of row [row], column [col] (1..4). *)
Definition portrait_filename (base : str) (character_names : option (list str))
    (row col : nat) : str :=
  match name_of character_names (row * 4 + (col - 1)) with
  | Some name => sanitize_filename unicode_isalnum name ++ lit ".png"
  | None => base ++ lit "_row" ++ str_of_nat row ++ lit "_sprite"
            ++ str_of_nat col ++ lit "_portrait.png"
  end.

Definition portrait_box (row col : nat) : nat * nat * nat * nat :=
  (col * 32, row * 32, col * 32 + 32, row * 32 + 32)%nat.

Definition face_item (sheet : image) (base : str)
    (character_names : option (list str)) (i : nat) : str * image :=
  (face_filename base character_names (i / 4) (i mod 4),
   crop sheet (face_box (i / 4) (i mod 4))).

Definition portrait_item (sheet : image) (base : str)
    (character_names : option (list str)) (i : nat) : str * image :=
  (portrait_filename base character_names (i / 4) (i mod 4 + 1),
   crop sheet (portrait_box (i / 4) (i mod 4 + 1))).

(** The forty outputs of one sheet as (file name, image): faces first,
    then portraits; and as (path, image) under the output directory. *)
Definition planned_items (sheet : image) (base : str)
    (character_names : option (list str)) : list (str * image) :=
  map (face_item sheet base character_names) (seq 0 20)
  ++ map (portrait_item sheet base character_names) (seq 0 20).

Definition in_dir (out : str) (item : str * image) : str * image :=
  (OsPath.join out item.1, item.2).

Definition planned_outputs (sheet : image) (base out : str)
    (character_names : option (list str)) : list (str * image) :=
  map (in_dir out) (planned_items sheet base character_names).

(** The world after saving a list of items under [out]. *)
Definition after_items (out : str) (items : list (str * image)) (w : world) : world :=
  foldl (fun w item => after_save (OsPath.join out item.1) item.2 item.1 w) w items.

(** One iteration of each loop as a function of the loop state and the
    world, for the iterations that do not raise. *)
Definition face_step (sheet : image) (base out : str)
    (character_names : option (list str)) (use_optipng : bool) (row : nat)
    (pos : nat * nat * str) (sw : nat * list str * world) : nat * list str * world :=
  let '(offset_x, offset_y, sprite_num) := pos in
  let '(character_index, files_to_optimize, w) := sw in
  let name :=
    match name_of character_names character_index with
    | Some name => sanitize_filename unicode_isalnum name ++ lit "face.png"
    | None => base ++ lit "_row" ++ str_of_nat row ++ lit "_sprite"
              ++ sprite_num ++ lit ".png"
    end in
  let x := (0 + offset_x)%nat in
  let y := (row * 32 + offset_y)%nat in
  let path := OsPath.join out name in
  (character_index + 1,
   if use_optipng then files_to_optimize ++ [path] else files_to_optimize,
   after_save path (crop sheet (x, y, x + 16, y + 16)) name w)%nat.

Definition portrait_step (sheet : image) (base out : str)
    (character_names : option (list str)) (use_optipng : bool) (row col : nat)
    (sw : nat * list str * world) : nat * list str * world :=
  let '(character_index, files_to_optimize, w) := sw in
  let name :=
    match name_of character_names character_index with
    | Some name => sanitize_filename unicode_isalnum name ++ lit ".png"
    | None => base ++ lit "_row" ++ str_of_nat row ++ lit "_sprite"
              ++ str_of_nat (col - 1 + 1) ++ lit "_portrait.png"
    end in
  let x := (col * 32)%nat in
  let y := (row * 32)%nat in
  let path := OsPath.join out name in
  (character_index + 1,
   if use_optipng then files_to_optimize ++ [path] else files_to_optimize,
   after_save path (crop sheet (x, y, x + 32, y + 32)) name w)%nat.

(** The name lists a run can make file names of: each of the first twenty
    names sanitizes to a string that is not empty, so that no portrait is
    to be called [.png], which has no extension, and short enough to be a
    file name once [face.png] is appended. *)
Definition usable (character_names : option (list str)) : bool :=
  forallb (fun name =>
             let s := sanitize_filename unicode_isalnum name in
             negb (PyStr.is_empty s)
             && (OsPath.utf8_size s + 8 <=? OsPath.name_max))
          (take 20 (default [] character_names)).

(** Section 4.2 in the specification's words: spaces become underscores,
    then only letters, digits, underscores and hyphens stay. *)
Definition space_to_underscore (c : char) : char := if c =? 32 then 95 else c.

Definition allowed (c : char) : bool :=
  isalnum unicode_isalnum c || (c =? 95) || (c =? 45).

Definition sanitize_spec (name : str) : str :=
  filter (fun c => allowed c = true) (map space_to_underscore name).

End Layout.

(** ** Preconditions of a run

    No directory lies directly or further below the output directory, so
    that no save meets a directory where it wants to write a file. *)
Definition no_subdir (out : str) (w : world) : Prop :=
  forall name, out ++ OsPath.sep :: name ∉ dirs w.

(** The sidecar file of a sheet, and the world after the two lines that
    warn about a count of names other than 20. *)
Definition names_file (sheet_path : str) : str :=
  OsPath.splitext_root sheet_path ++ lit ".txt".

Definition count_warning_line (sheet_path : str) (n : nat) : str :=
  lit "Warning: Expected 20 names in " ++ names_file sheet_path
  ++ lit ", found " ++ str_of_nat n.

Definition count_warning (sheet_path : str) (n : nat) (w : world) : world :=
  emit (EPrint (lit "Names should be provided for all 20 characters (5 rows "
                ++ [215] ++ lit " 4 sprites)"))
    (emit (EPrint (count_warning_line sheet_path n)) w).

(** Section 4.1 in the specification's words: the non-empty trimmed lines,
    in file order. *)
Definition nonempty_trimmed_lines (txt : str) : list str :=
  filter (fun line => line ≠ []) (map PyStr.strip (file_lines (universal_newlines txt))).

(** Worlds that differ only by what was printed in between. *)
Definition same_disk (w w' : world) : Prop :=
  files w' = files w /\ dirs w' = dirs w /\ saves (trace w') = saves (trace w).

(** A computation step that saves nothing and leaves the directories. *)
Definition quiet (w w' : world) : Prop :=
  saves (trace w') = saves (trace w) /\ dirs w' = dirs w.

(** [im] is exactly the [n] by [n] region of [sheet] whose top-left corner
    is [(x, y)]. *)
Definition is_region (sheet im : image) (x y n : nat) : Prop :=
  width im = n /\ height im = n
  /\ forall i j, (i < n)%nat -> (j < n)%nat ->
       pixel_at im i j = pixel_at sheet (x + i) (y + j).

(** The files a run has written: the paths of its saves, as a set. *)
Definition output_files (w w' : world) : gset str :=
  list_to_set (map fst (saved_since w w')).

(** The command line of line 89. *)
Definition optipng_argv (file_path : str) : list str :=
  [lit "optipng"; lit "-o2"; lit "-quiet"; file_path].

(** What a run of [extract_sprites_from_sheet] needs of the sheet and of
    the file system in order not to raise: the file at [sheet_path] opens as
    [sheet], its pixels load and its mode is one PNG can store; the name
    loader returns [character_names]; the positional file names made from
    the name of the sheet are within the limit on file names; the output
    directory is given by a canonical path within the limits, with room for
    a file name after it, no file is in its place or in the place of a
    directory above it, and nothing below it is a directory. *)
Record ready (sheet_path out : str) (sheet : image)
    (character_names : option (list str)) (w : world) : Prop := {
  ready_sheet : files w !! sheet_path = Some (Image sheet);
  ready_pixels : loadable sheet = true;
  ready_mode : png_writable (mode sheet) = true;
  ready_names : (load_character_names sheet_path w).1 = Ok character_names;
  ready_base :
    OsPath.utf8_size (OsPath.splitext_root (OsPath.basename sheet_path)) + 26
    <= OsPath.name_max;
  ready_out : OsPath.canonical out = true;
  ready_fits : OsPath.fits out = true;
  ready_room : OsPath.utf8_size out + 1 + OsPath.name_max < OsPath.path_max;
  ready_free : files w !! out = None;
  ready_parents : Forall (fun a => files w !! a = None) (OsPath.ancestors out);
  ready_dirs : no_subdir out w
}.

(** What positional naming appends to the base name of the sheet, for the
    forty outputs in order. *)
Definition positional_suffixes : list str :=
  map (fun i => lit "_row" ++ str_of_nat (i / 4) ++ lit "_sprite"
                ++ str_of_nat (i mod 4 + 1) ++ lit ".png") (seq 0 20)
  ++ map (fun i => lit "_row" ++ str_of_nat (i / 4) ++ lit "_sprite"
                   ++ str_of_nat (i mod 4 + 1) ++ lit "_portrait.png") (seq 0 20).

(** ** Sample data

    A sheet whose pixel at [(x, y)] holds [160 * y + x], name files of
    several lengths, a Unicode table with no letter or digit beyond ASCII
    and an [optipng] that always fails without touching a file. *)

Definition ascii_only (c : char) : bool := false.

Definition failing_optipng (argv : list str) (fs : gmap str content)
  : Z * gmap str content := (1%Z, fs).

Definition marker_sheet : image :=
  mkImage 160 160 Mode_RGBA true (fun x y => N.of_nat (160 * y + x)).

Definition page1 : str := lit "npc-sprites-page-1.png".

Definition text_of (names : list str) : str := flat_map (fun n => n ++ [10]) names.

Definition world_with (names_text : option str) : world :=
  mkWorld
    (match names_text with
     | Some t => <[lit "npc-sprites-page-1.txt" := Text t]> {[page1 := Image marker_sheet]}
     | None => {[page1 := Image marker_sheet]}
     end) ∅ [].

(** A run on the sample sheet into the directory [out], [optipng] being
    installed. *)
Definition sample_run (names_text : option str) (use_optipng : bool)
  : outcome unit * world :=
  extract_sprites_from_sheet ascii_only true failing_optipng
    page1 (lit "out") use_optipng (world_with names_text).

(** What that run saved. *)
Definition sample_outputs (names_text : option str) (use_optipng : bool)
  : list (str * image) :=
  saved_since (world_with names_text) (sample_run names_text use_optipng).2.

Definition twenty_names : list str :=
  map lit [ "Ada"; "Bob O'Brien (2)"; "Cy"; "Dee"; "Eve"; "Fay"; "Gus"; "Hal";
            "Ivy"; "Jo"; "Kai"; "Lee"; "Max"; "Ned"; "Oz"; "Pam"; "Quin"; "Rae";
            "Sam"; "Tess" ]%string.

Definition three_names : list str := map lit [ "Ada"; "Bob"; "Cy" ]%string.

Definition twin_names : list str := map lit [ "Guard"; "Guard" ]%string.

Definition blank_text : str := lit "  " ++ [10; 9; 10; 13; 10].

(** A sheet in a mode PNG cannot store, as a CMYK JPEG opens to; a sheet
    whose pixel data are cut short behind its header; and the working
    directory with nothing but a given sheet. *)
Definition cmyk_sheet : image :=
  mkImage 160 160 Mode_CMYK true (fun x y => N.of_nat (160 * y + x)).

Definition damaged_sheet : image :=
  mkImage 160 160 Mode_RGBA false (fun _ _ => 0).

Definition world_of (sheet : image) : world :=
  mkWorld {[page1 := Image sheet]} ∅ [].

(** The same with a sidecar file of names. *)
Definition world_named (sheet : image) (names : list str) : world :=
  mkWorld (<[lit "npc-sprites-page-1.txt" := Text (text_of names)]>
             {[page1 := Image sheet]}) ∅ [].

(** Name lists with a name that sanitizes to the empty string. *)
Definition nameless_twenty : list str := <[1%nat := lit "???"]> twenty_names.

Definition nameless_three : list str := map lit [ "Ada"; "???"; "Cy" ]%string.

Definition world_without_sheets : world :=
  mkWorld {[lit "readme.txt" := Text (lit "nothing here")]} ∅ [].

(** ** The events of a run, in order *)

Section Transcript.

Variable unicode_isalnum : char -> bool.
Variable optipng : list str -> gmap str content -> Z * gmap str content.

(** Line 112, printed when the sheet is not 160 by 160. *)
Definition size_warning (sheet : image) : list event :=
  if negb ((width sheet =? 160)%nat && (height sheet =? 160)%nat)
  then [EPrint (lit "Warning: Expected 160x160 pixels, got (" ++ str_of_nat (width sheet)
                ++ lit ", " ++ str_of_nat (height sheet) ++ lit ")")]
  else [].

(** What [load_character_names] prints in a world. *)
Definition load_events (sheet_path : str) (w : world) : list event :=
  drop (length (trace w)) (trace (load_character_names sheet_path w).2).

(** Lines 119-123. *)
Definition names_report (base : str) (character_names : option (list str)) : list event :=
  if truthy character_names
  then [EPrint (lit "Loaded " ++ str_of_nat (len_names character_names)
                ++ lit " character names from " ++ base ++ lit ".txt")]
  else [EPrint (lit "No character names file found (" ++ base ++ lit ".txt)");
        EPrint (lit "Using default naming (row/sprite numbers)")].

(** Each output is saved and then reported. *)
Definition item_events (out : str) (items : list (str * image)) : list event :=
  flat_map (fun item => [ESave (OsPath.join out item.1) item.2;
                         EPrint (lit "  Saved: " ++ item.1)]) items.

(** The events of lines 108-210. *)
Definition save_events (sheet_path out : str) (sheet : image)
    (character_names : option (list str)) (w : world) : list event :=
  let base := OsPath.splitext_root (OsPath.basename sheet_path) in
  size_warning sheet ++ load_events sheet_path w ++ names_report base character_names
  ++ [EMkdir out;
      EPrint (lit "Processing " ++ sheet_path ++ lit "...");
      EPrint (lit "Extracting 16x16 sprites from first column...")]
  ++ item_events out (map (face_item unicode_isalnum sheet base character_names) (seq 0 20))
  ++ [EPrint (lit "Extracting 32x32 portraits from remaining columns...")]
  ++ item_events out (map (portrait_item unicode_isalnum sheet base character_names)
                          (seq 0 20)).

(** The invocations of [optipng] on a list of paths, each on the files the
    one before left, and the files after the last. *)
Fixpoint exec_events (paths : list str) (fs : gmap str content) : list event :=
  match paths with
  | [] => []
  | p :: ps =>
      EExec (optipng_argv p) (optipng (optipng_argv p) fs).1
      :: exec_events ps (optipng (optipng_argv p) fs).2
  end.

Definition exec_files (paths : list str) (fs : gmap str content) : gmap str content :=
  foldl (fun fs p => (optipng (optipng_argv p) fs).2) fs paths.

End Transcript.

(** The output directory [main] chooses (lines 225, 237-238). *)
Definition main_output_dir (argv : list str) : str :=
  match argv with
  | _ :: out :: _ => out
  | _ => lit "extracted_sprites"
  end.

Definition twentyone_names : list str := twenty_names ++ [lit "Zed"].

(** Worlds in which a run raises: a directory where the sidecar file would
    be, and a file where the output directory should go. *)
Definition world_sidecar_dir : world :=
  mkWorld {[page1 := Image marker_sheet]} {[lit "npc-sprites-page-1.txt"]} [].

Definition world_out_is_file : world :=
  mkWorld (<[lit "out" := Text (lit "in the way")]> {[page1 := Image marker_sheet]}) ∅ [].

(** A file where a directory above the output directory [notes.txt/out]
    would have to be. *)
Definition world_parent_is_file : world :=
  mkWorld (<[lit "notes.txt" := Text (lit "to do")]> {[page1 := Image marker_sheet]}) ∅ [].

(** Working directories for [main]: two sheets and a stray file; and a
    text file under a sheet's name before a real sheet. *)
Definition world_two_sheets : world :=
  mkWorld (<[lit "npc-sprites-b.jpg" := Image marker_sheet]>
            (<[lit "notes.txt" := Text (lit "to do")]>
              {[lit "npc-sprites-a.png" := Image marker_sheet]})) ∅ [].

Definition world_bad_first : world :=
  mkWorld (<[lit "npc-sprites-a.png" := Text (lit "not an image")]>
            {[lit "npc-sprites-b.png" := Image marker_sheet]}) ∅ [].

Definition batch_argv : list str := [lit "extract_sprites.py"; lit "out"].

(** * Properties *)

(** ** Running computations *)

Lemma bind_ok {A B} (m : M A) (k : A -> M B) w a w' :
  m w = (Ok a, w') -> (m ≫= k) w = k a w'.
Proof. intros H. unfold mbind, M_bind, bind. by rewrite H. Qed.

Lemma bind_raise {A B} (m : M A) (k : A -> M B) w e w' :
  m w = (Raise e, w') -> (m ≫= k) w = (Raise e, w').
Proof. intros H. unfold mbind, M_bind, bind. by rewrite H. Qed.

Lemma bind_ret {A B} (a : A) (k : A -> M B) : ret a ≫= k = k a.
Proof. reflexivity. Qed.

Lemma bind_print {B} line (k : unit -> M B) w :
  (print line ≫= k) w = k tt (emit (EPrint line) w).
Proof. reflexivity. Qed.

(** ** The string primitives *)

Lemma replace_from_char (a b : char) s :
  PyStr.replace_from [a] [b] 0 s = map (fun c => if c =? a then b else c) s.
Proof.
  induction s as [|c s IH]; [done|].
  cbn [PyStr.replace_from PyStr.startswith length map].
  rewrite andb_true_r, (N.eqb_sym a c).
  change (1 - 1)%nat with 0%nat. rewrite IH.
  destruct (c =? a); reflexivity.
Qed.

Lemma join_singletons (s : str) : PyStr.join [] (map (fun c => [c]) s) = s.
Proof.
  induction s as [|c s IH]; [done|].
  cbn [map PyStr.join]. destruct s as [|d s]; [done|].
  cbn [map] in *. by rewrite IH.
Qed.

Section SanitizerFacts.

Variable unicode_isalnum : char -> bool.
Local Abbreviation sanitize := (sanitize_filename unicode_isalnum).
Local Abbreviation keep := (keep_char unicode_isalnum).

Lemma keep_char_allowed c : keep c = allowed unicode_isalnum c.
Proof. unfold keep_char, allowed. by rewrite orb_assoc. Qed.

Lemma sanitize_unfold name :
  sanitize name
  = filter (fun c => keep c = true) (map space_to_underscore name).
Proof.
  unfold sanitize_filename. rewrite join_singletons.
  change (PyStr.replace name (lit " ") (lit "_"))
    with (PyStr.replace_from [32] [95] 0 name).
  by rewrite replace_from_char.
Qed.

Lemma sanitize_chars name c : c ∈ sanitize name -> keep c = true.
Proof. rewrite sanitize_unfold. intros H. by apply list_elem_of_filter in H as [? _]. Qed.

Lemma keep_not_space c : keep c = true -> space_to_underscore c = c.
Proof.
  unfold space_to_underscore. destruct (N.eqb_spec c 32) as [->|]; [|done].
  by vm_compute.
Qed.

Lemma keep_not_sep c : keep c = true -> c ≠ OsPath.sep.
Proof. intros H ->. by vm_compute in H. Qed.

Lemma sanitize_fixed s :
  Forall (fun c => keep c = true) s -> sanitize s = s.
Proof.
  rewrite sanitize_unfold. induction 1 as [|c s Hc Hs IH]; [done|].
  cbn [map]. rewrite (keep_not_space c Hc), filter_cons_True by done.
  by rewrite IH.
Qed.

End SanitizerFacts.

(** ** Paths *)

Lemma rfind_None s c : PyStr.rfind s c = None -> c ∉ s.
Proof.
  induction s as [|a s IH]; cbn; [intros _; apply not_elem_of_nil|].
  destruct (PyStr.rfind s c); [done|].
  destruct (N.eqb_spec a c); [done|].
  intros _. apply not_elem_of_cons. split; [congruence | by apply IH].
Qed.

Lemma rfind_Some_drop s c i :
  PyStr.rfind s c = Some i -> PyStr.rfind (drop (S i) s) c = None.
Proof.
  revert i. induction s as [|a s IH]; intros i; cbn; [done|].
  destruct (PyStr.rfind s c) as [j|] eqn:E.
  - intros [= <-]. by apply IH.
  - destruct (a =? c); [|done]. intros [= <-]. by rewrite drop_0.
Qed.

Lemma basename_no_sep p : OsPath.sep ∉ OsPath.basename p.
Proof.
  unfold OsPath.basename. destruct (PyStr.rfind p OsPath.sep) as [i|] eqn:E.
  - by apply rfind_None, rfind_Some_drop.
  - by apply rfind_None.
Qed.

Lemma splitext_root_chars q c : c ∈ OsPath.splitext_root q -> c ∈ q.
Proof.
  unfold OsPath.splitext_root. destruct (PyStr.rfind q OsPath.dot); [|done].
  match goal with |- context [if ?b then _ else _] => destruct b end; [|done].
  apply subseteq_take.
Qed.

Lemma base_name_no_sep sheet_path :
  OsPath.sep ∉ OsPath.splitext_root (OsPath.basename sheet_path).
Proof. intros H. by apply splitext_root_chars, basename_no_sep in H. Qed.

Lemma rfind_absent (s : str) (c : N) : c ∉ s -> PyStr.rfind s c = None.
Proof.
  induction s as [|a s IH]; [done|]. intros [Hne Hs]%not_elem_of_cons.
  cbn [PyStr.rfind]. rewrite (IH Hs).
  destruct (N.eqb_spec a c); [congruence|done].
Qed.

Lemma rfind_last (a b : str) (c : N) :
  c ∉ b -> PyStr.rfind (a ++ c :: b) c = Some (length a).
Proof.
  intros Hb. induction a as [|x a IH]; cbn [app PyStr.rfind length].
  - by rewrite (rfind_absent b c Hb), N.eqb_refl.
  - by rewrite IH.
Qed.

Lemma startswith_split (s p : str) :
  PyStr.startswith s p = true -> exists r, s = p ++ r.
Proof.
  revert s. induction p as [|a p IH]; intros s; [by exists s|].
  destruct s as [|b s]; [done|]. cbn [PyStr.startswith].
  intros [->%N.eqb_eq Hs]%andb_true_iff.
  destruct (IH s Hs) as [r ->]. by exists r.
Qed.

Lemma endswith_split (s p : str) :
  PyStr.endswith s p = true -> exists r, s = r ++ p.
Proof.
  unfold PyStr.endswith. intros [r Hr]%startswith_split.
  exists (rev r). by rewrite <- (rev_involutive s), Hr, rev_app_distr, rev_involutive.
Qed.

Lemma startswith_head (l : str) (c : N) : PyStr.startswith l [c] = true -> c ∈ l.
Proof.
  destruct l as [|d t]; [done|]. cbn [PyStr.startswith].
  intros [->%N.eqb_eq _]%andb_true_iff. left.
Qed.

Lemma endswith_sep (a : str) : PyStr.endswith a [OsPath.sep] = true -> OsPath.sep ∈ a.
Proof.
  unfold PyStr.endswith. intros H%startswith_head.
  by apply list_elem_of_In, in_rev, list_elem_of_In.
Qed.

(** *** Canonical paths, limits and extensions *)

Lemma components_from_app cur (a b : str) :
  OsPath.components_from cur (a ++ OsPath.sep :: b)
  = OsPath.components_from cur a ++ OsPath.components_from [] b.
Proof.
  revert cur. induction a as [|c a IH]; intros cur; cbn [app OsPath.components_from].
  - by rewrite N.eqb_refl.
  - destruct (c =? OsPath.sep); [|apply IH]. by rewrite IH.
Qed.

Lemma components_from_plain cur (b : str) :
  OsPath.sep ∉ b -> OsPath.components_from cur b = [rev cur ++ b].
Proof.
  revert cur. induction b as [|c b IH]; intros cur Hb; cbn [OsPath.components_from].
  - by rewrite app_nil_r.
  - apply not_elem_of_cons in Hb as [Hc Hb].
    rewrite (proj2 (N.eqb_neq c OsPath.sep)) by congruence.
    rewrite (IH _ Hb). cbn [rev]. by rewrite <- app_assoc.
Qed.

Lemma components_child (out name : str) :
  OsPath.sep ∉ name ->
  OsPath.components (out ++ OsPath.sep :: name) = OsPath.components out ++ [name].
Proof.
  intros Hn. unfold OsPath.components.
  by rewrite components_from_app, (components_from_plain [] name Hn).
Qed.

Lemma canonical_nonempty out : OsPath.canonical out = true -> out ≠ [].
Proof. by intros H ->. Qed.

Lemma canonical_no_trailing out :
  OsPath.canonical out = true -> PyStr.endswith out [OsPath.sep] = false.
Proof.
  intros Hc. destruct (PyStr.endswith out [OsPath.sep]) eqn:E; [|done].
  apply endswith_split in E as [r ->].
  unfold OsPath.canonical, OsPath.components in Hc.
  rewrite components_from_app, forallb_app in Hc.
  by apply andb_true_iff in Hc as [_ Hc].
Qed.

(** Below a canonical directory [os.path.join] puts a slash and the name. *)
Lemma join_canonical out name :
  OsPath.canonical out = true -> PyStr.startswith name [OsPath.sep] = false ->
  OsPath.join out name = out ++ OsPath.sep :: name.
Proof.
  intros Hc Hn. unfold OsPath.join. rewrite Hn, (canonical_no_trailing out Hc).
  by destruct out.
Qed.

Lemma no_sep_startswith (name : str) :
  OsPath.sep ∉ name -> PyStr.startswith name [OsPath.sep] = false.
Proof.
  intros Hn. destruct (PyStr.startswith name [OsPath.sep]) eqn:E; [|done].
  by apply startswith_head in E.
Qed.

Lemma ancestors_from_prefix pre (p a : str) :
  a ∈ OsPath.ancestors_from pre p ->
  exists q r, p = q ++ r /\ r ≠ [] /\ a = rev pre ++ q.
Proof.
  revert pre. induction p as [|c p IH]; intros pre; cbn [OsPath.ancestors_from].
  - by intros ?%elem_of_nil.
  - intros [Hin|Hin]%elem_of_app.
    + destruct (_ && _); [|by apply elem_of_nil in Hin].
      apply list_elem_of_singleton in Hin as ->.
      exists [], (c :: p). by rewrite app_nil_r.
    + destruct (IH _ Hin) as (q & r & -> & Hr & ->).
      exists (c :: q), r. split; [done|]. split; [done|].
      cbn [rev]. by rewrite <- app_assoc.
Qed.

(** A directory above a path is a proper prefix of it. *)
Lemma ancestors_prefix (p a : str) :
  a ∈ OsPath.ancestors p -> exists r, r ≠ [] /\ p = a ++ r.
Proof.
  intros (q & r & -> & Hr & ->)%ancestors_from_prefix. by exists r.
Qed.

Lemma utf8_size_app (a b : str) :
  OsPath.utf8_size (a ++ b) = OsPath.utf8_size a + OsPath.utf8_size b.
Proof.
  induction a as [|c a IH]; [done|]. cbn [app].
  change (OsPath.utf8_size (c :: a ++ b))
    with (OsPath.utf8_bytes c + OsPath.utf8_size (a ++ b)).
  change (OsPath.utf8_size (c :: a)) with (OsPath.utf8_bytes c + OsPath.utf8_size a).
  rewrite IH. lia.
Qed.

(** A short name below a directory that has room for one is within the
    limits. *)
Lemma fits_child (out name : str) :
  OsPath.fits out = true ->
  OsPath.utf8_size out + 1 + OsPath.name_max < OsPath.path_max ->
  OsPath.sep ∉ name -> OsPath.utf8_size name <= OsPath.name_max ->
  OsPath.fits (out ++ OsPath.sep :: name) = true.
Proof.
  unfold OsPath.fits. intros [_ Hc]%andb_true_iff Hroom Hsep Hname.
  apply andb_true_iff. split.
  - apply N.ltb_lt. rewrite utf8_size_app.
    change (OsPath.sep :: name) with ([OsPath.sep] ++ name).
    rewrite utf8_size_app. change (OsPath.utf8_size [OsPath.sep]) with 1. lia.
  - rewrite (components_child out name Hsep), forallb_app, Hc.
    cbn [forallb andb]. rewrite andb_true_r. by apply N.leb_le.
Qed.

(** The extension PIL sees in [dir/stem.ext]. *)
Lemma splitext_ext_child (dir stem ext : str) :
  OsPath.sep ∉ stem -> OsPath.sep ∉ ext -> OsPath.dot ∉ ext ->
  (exists c, c ∈ stem /\ c ≠ OsPath.dot) ->
  OsPath.splitext_ext (dir ++ OsPath.sep :: stem ++ OsPath.dot :: ext)
  = OsPath.dot :: ext.
Proof.
  intros Hs He Hd (c & Hc & Hcd).
  assert (dir ++ OsPath.sep :: stem ++ OsPath.dot :: ext
          = (dir ++ OsPath.sep :: stem) ++ OsPath.dot :: ext) as Hsplit
    by (by rewrite <- app_assoc).
  assert (PyStr.rfind (dir ++ OsPath.sep :: stem ++ OsPath.dot :: ext) OsPath.dot
          = Some (length (dir ++ OsPath.sep :: stem))) as Hdot.
  { rewrite Hsplit. apply (rfind_last _ ext OsPath.dot Hd). }
  assert (PyStr.rfind (dir ++ OsPath.sep :: stem ++ OsPath.dot :: ext) OsPath.sep
          = Some (length dir)) as Hsep.
  { apply (rfind_last dir (stem ++ OsPath.dot :: ext) OsPath.sep).
    rewrite elem_of_app, elem_of_cons. intros [?|[?|?]]; [done|discriminate|done]. }
  assert (drop (S (length dir)) (dir ++ OsPath.sep :: stem ++ OsPath.dot :: ext)
          = stem ++ OsPath.dot :: ext) as Hdrop.
  { replace (dir ++ OsPath.sep :: stem ++ OsPath.dot :: ext)
      with ((dir ++ [OsPath.sep]) ++ stem ++ OsPath.dot :: ext)
      by (by rewrite <- app_assoc).
    replace (S (length dir)) with (length (dir ++ [OsPath.sep]))
      by (rewrite length_app; cbn; lia).
    by rewrite drop_app_length. }
  assert (existsb (fun c0 => negb (c0 =? OsPath.dot)) stem = true) as Hex.
  { apply existsb_exists. exists c. split; [by apply list_elem_of_In|].
    apply negb_true_iff, N.eqb_neq, Hcd. }
  assert (OsPath.splitext_root (dir ++ OsPath.sep :: stem ++ OsPath.dot :: ext)
          = dir ++ OsPath.sep :: stem) as Hroot.
  { assert (length (dir ++ OsPath.sep :: stem) = S (length dir + length stem)) as Hlen
      by (rewrite length_app; cbn; lia).
    unfold OsPath.splitext_root. unfold char in *. rewrite Hdot, Hsep, Hdrop.
    rewrite Hsplit at 1. rewrite take_app_length, Hlen.
    replace (S (length dir) <=? S (length dir + length stem))%nat with true
      by (symmetry; apply Nat.leb_le; lia).
    replace (S (length dir + length stem) - S (length dir))%nat with (length stem) by lia.
    by rewrite take_app_length, Hex. }
  unfold OsPath.splitext_ext. rewrite Hroot. rewrite Hsplit at 1.
  by rewrite drop_app_length.
Qed.

Lemma startswith_sep_app (a b : str) :
  OsPath.sep ∉ a -> b ≠ [] -> PyStr.startswith b [OsPath.sep] = false ->
  a ++ b ≠ [] /\ PyStr.startswith (a ++ b) [OsPath.sep] = false.
Proof.
  intros Ha Hb Hs. destruct a as [|c a]; [done|]. split; [done|].
  cbn [app PyStr.startswith]. rewrite andb_true_r.
  apply N.eqb_neq. intros <-. apply Ha. left.
Qed.

(** ** Saving *)

Lemma Image_save_ok im p w :
  saves_as_png p = true -> p ∉ dirs w -> OsPath.fits p = true ->
  png_writable (mode im) = true ->
  Image_save im p w
  = (Ok tt, emit (ESave p im) (mkWorld (<[p := Image im]> (files w)) (dirs w) (trace w))).
Proof.
  intros Hext Hdir Hfits Hmode. unfold Image_save.
  by rewrite Hext, Hfits, Hmode, bool_decide_eq_false_2.
Qed.

(** A save below a canonical directory under a name [stem.png] whose stem
    is more than dots, of an image whose mode PNG can store. *)
Lemma save_below out stem im w :
  OsPath.canonical out = true -> OsPath.fits out = true ->
  OsPath.utf8_size out + 1 + OsPath.name_max < OsPath.path_max ->
  OsPath.sep ∉ stem -> (exists c, c ∈ stem /\ c ≠ OsPath.dot) ->
  OsPath.utf8_size stem + 4 <= OsPath.name_max ->
  png_writable (mode im) = true -> no_subdir out w ->
  Image_save im (OsPath.join out (stem ++ lit ".png")) w
  = (Ok tt,
     emit (ESave (OsPath.join out (stem ++ lit ".png")) im)
          (mkWorld (<[OsPath.join out (stem ++ lit ".png") := Image im]> (files w))
                   (dirs w) (trace w))).
Proof.
  intros Hcan Hfits Hroom Hsep Hdots Hsize Hmode Hdirs.
  assert (OsPath.sep ∉ stem ++ lit ".png") as Hname.
  { intros [Hin|Hin]%elem_of_app; [done|].
    apply list_elem_of_In in Hin. vm_compute in Hin. intuition discriminate. }
  assert (OsPath.join out (stem ++ lit ".png") = out ++ OsPath.sep :: stem ++ lit ".png")
    as Hjoin by (by apply join_canonical, no_sep_startswith).
  apply Image_save_ok; [| | |done].
  - unfold saves_as_png. rewrite Hjoin.
    change (lit ".png") with (OsPath.dot :: lit "png").
    rewrite splitext_ext_child; [by vm_compute|done| | |done];
      intros Hin%list_elem_of_In; vm_compute in Hin; intuition discriminate.
  - rewrite Hjoin. apply Hdirs.
  - rewrite Hjoin. apply fits_child; [done..|].
    rewrite utf8_size_app. change (OsPath.utf8_size (lit ".png")) with 4. lia.
Qed.

Lemma saves_app t1 t2 : saves (t1 ++ t2) = saves t1 ++ saves t2.
Proof. apply omap_app. Qed.

Lemma emit_files e w : files (emit e w) = files w.
Proof. reflexivity. Qed.

Lemma emit_dirs e w : dirs (emit e w) = dirs w.
Proof. reflexivity. Qed.

Lemma emit_print_saves line w : saves (trace (emit (EPrint line) w)) = saves (trace w).
Proof. cbn. by rewrite saves_app, app_nil_r. Qed.

Lemma after_save_files p im name w :
  files (after_save p im name w) = <[p := Image im]> (files w).
Proof. reflexivity. Qed.

Lemma after_save_dirs p im name w : dirs (after_save p im name w) = dirs w.
Proof. reflexivity. Qed.

Lemma after_save_saves p im name w :
  saves (trace (after_save p im name w)) = saves (trace w) ++ [(p, im)].
Proof. cbn. by rewrite !saves_app, <- app_assoc. Qed.

(** What positional naming appends to the base name, before [.png]. *)
Lemma face_suffix_facts row (pos : nat * nat * str) :
  (row < 5)%nat -> pos ∈ sprite_positions ->
  (OsPath.sep ∉ lit "_row" ++ str_of_nat row ++ lit "_sprite" ++ pos.2)
  /\ (95 ∈ lit "_row" ++ str_of_nat row ++ lit "_sprite" ++ pos.2)
  /\ OsPath.utf8_size (lit "_row" ++ str_of_nat row ++ lit "_sprite" ++ pos.2) = 13.
Proof.
  intros Hrow Hpos.
  assert (row ∈ seq 0 5) as Hr by (apply elem_of_seq; lia). clear Hrow.
  unfold sprite_positions in Hpos. cbn [seq] in Hr.
  repeat (apply elem_of_cons in Hr as [->|Hr]);
    [..|by apply elem_of_nil in Hr];
    repeat (apply elem_of_cons in Hpos as [->|Hpos]);
    try (by apply elem_of_nil in Hpos);
    (split; [|split]; [apply (bool_decide_unpack _)..|]; by vm_compute).
Qed.

Lemma portrait_suffix_facts row col :
  (row < 5)%nat -> (1 <= col <= 4)%nat ->
  (OsPath.sep ∉ lit "_row" ++ str_of_nat row ++ lit "_sprite"
                 ++ str_of_nat (col - 1 + 1) ++ lit "_portrait")
  /\ (95 ∈ lit "_row" ++ str_of_nat row ++ lit "_sprite"
           ++ str_of_nat (col - 1 + 1) ++ lit "_portrait")
  /\ OsPath.utf8_size (lit "_row" ++ str_of_nat row ++ lit "_sprite"
                       ++ str_of_nat (col - 1 + 1) ++ lit "_portrait") = 22.
Proof.
  intros Hrow Hcol.
  assert (row ∈ seq 0 5) as Hr by (apply elem_of_seq; lia).
  assert (col ∈ seq 1 4) as Hc by (apply elem_of_seq; lia). clear Hrow Hcol.
  cbn [seq] in Hr, Hc.
  repeat (apply elem_of_cons in Hr as [->|Hr]);
    [..|by apply elem_of_nil in Hr];
    repeat (apply elem_of_cons in Hc as [->|Hc]);
    try (by apply elem_of_nil in Hc);
    (split; [|split]; [apply (bool_decide_unpack _)..|]; by vm_compute).
Qed.

Section Loops.

Variable unicode_isalnum : char -> bool.

Local Abbreviation sanitize := (sanitize_filename unicode_isalnum).

Lemma sanitize_no_sep name : OsPath.sep ∉ sanitize name.
Proof. intros Hin. by apply sanitize_chars, keep_not_sep in Hin. Qed.

Lemma keep_not_dot (c : N) : keep_char unicode_isalnum c = true -> c ≠ OsPath.dot.
Proof. intros H ->. by vm_compute in H. Qed.

Lemma named_startswith name (suffix : str) :
  suffix ≠ [] -> PyStr.startswith suffix [OsPath.sep] = false ->
  sanitize name ++ suffix ≠ []
  /\ PyStr.startswith (sanitize name ++ suffix) [OsPath.sep] = false.
Proof.
  intros. apply startswith_sep_app; [|done..]. apply sanitize_no_sep.
Qed.

(** What [usable] says of the name of a character. *)
Lemma usable_at character_names i name :
  usable unicode_isalnum character_names = true -> (i < 20)%nat ->
  name_of character_names i = Some name ->
  sanitize name ≠ [] /\ OsPath.utf8_size (sanitize name) + 8 <= OsPath.name_max.
Proof.
  unfold usable. intros Hall Hi Hname.
  destruct character_names as [names|]; [|done]. cbn [name_of default] in *.
  assert (name ∈ take 20 names) as Hin.
  { apply (list_elem_of_lookup_2 _ i). by rewrite lookup_take_lt. }
  apply list_elem_of_In in Hin.
  apply (proj1 (forallb_forall _ _) Hall) in Hin.
  apply andb_true_iff in Hin as [Hne Hsize]. split.
  - by destruct (sanitize name).
  - by apply N.leb_le.
Qed.

Lemma name_choice_true character_names i :
  truthy character_names && (i <? len_names character_names)%nat = true ->
  exists name, name_of character_names i = Some name
               /\ names_getitem character_names i = ret name.
Proof.
  destruct character_names as [names|]; [|done]. cbn [len_names name_of names_getitem].
  intros [_ Hlt%Nat.ltb_lt]%andb_true_iff.
  destruct (lookup_lt_is_Some_2 names i Hlt) as [name Hn].
  exists name. split; [done|]. unfold getitem. by rewrite Hn.
Qed.

Lemma name_choice_false character_names i :
  truthy character_names && (i <? len_names character_names)%nat = false ->
  name_of character_names i = None.
Proof.
  destruct character_names as [[|n names]|]; [done| |done].
  cbn [truthy len_names name_of andb].
  intros Hlt%Nat.ltb_ge. by apply lookup_ge_None_2.
Qed.

Lemma Image_crop_ok im box : loadable im = true -> Image_crop im box = ret (crop im box).
Proof. intros H. unfold Image_crop. by rewrite H. Qed.

(** The save of an iteration, once its stem is known to be a good one. *)
Ltac save_step Hready H1 H2 H3 Hdirs :=
  match goal with
  | |- context [Image_save ?im (OsPath.join ?out (?stem ++ _))] =>
      rewrite (bind_ok _ _ _ _ _ (save_below out stem im _
                 (ready_out _ _ _ _ _ Hready) (ready_fits _ _ _ _ _ Hready)
                 (ready_room _ _ _ _ _ Hready) H1 H2 H3
                 (ready_mode _ _ _ _ _ Hready : png_writable (mode im) = true) Hdirs))
  end.

Lemma face_body_step sheet_path out sheet character_names w0 use_optipng row pos i opt w :
  ready sheet_path out sheet character_names w0 ->
  usable unicode_isalnum character_names = true ->
  (row < 5)%nat -> pos ∈ sprite_positions -> (i < 20)%nat -> no_subdir out w ->
  face_body unicode_isalnum sheet (OsPath.splitext_root (OsPath.basename sheet_path))
            out character_names use_optipng row 0 (row * 32) pos (i, opt) w
  = let r := face_step unicode_isalnum sheet
               (OsPath.splitext_root (OsPath.basename sheet_path)) out character_names
               use_optipng row pos (i, opt, w) in
    (Ok r.1, r.2).
Proof.
  intros Hready Huse Hrow Hpos Hi Hdirs.
  destruct (face_suffix_facts row pos Hrow Hpos) as (Hsep & Hus & Hsize).
  destruct pos as [[offset_x offset_y] sprite_num]. cbn [snd] in Hsep, Hus, Hsize.
  pose proof (ready_base _ _ _ _ _ Hready) as Hbase.
  set (base := OsPath.splitext_root (OsPath.basename sheet_path)) in *.
  unfold face_body, face_step.
  rewrite (Image_crop_ok _ _ (ready_pixels _ _ _ _ _ Hready)), bind_ret.
  destruct (truthy character_names && (i <? len_names character_names)%nat) eqn:E.
  - apply name_choice_true in E as (name & Hname & ->). rewrite Hname.
    destruct (usable_at _ _ _ Huse Hi Hname) as [Hne Hshort].
    rewrite !bind_ret.
    replace (sanitize name ++ lit "face.png")
      with ((sanitize name ++ lit "face") ++ lit ".png") by (by rewrite <- app_assoc).
    set (stem := sanitize name ++ lit "face").
    assert (OsPath.sep ∉ stem) as H1.
    { intros [Hin|Hin]%elem_of_app; [by apply sanitize_no_sep in Hin|].
      apply list_elem_of_In in Hin. vm_compute in Hin. intuition discriminate. }
    assert (exists c, c ∈ stem /\ c ≠ OsPath.dot) as H2.
    { exists 102. split; [|discriminate]. apply elem_of_app. right.
      apply list_elem_of_In. vm_compute. auto. }
    assert (OsPath.utf8_size stem + 4 <= OsPath.name_max) as H3.
    { subst stem. rewrite utf8_size_app. change (OsPath.utf8_size (lit "face")) with 4.
      unfold OsPath.name_max in *. lia. }
    by save_step Hready H1 H2 H3 Hdirs.
  - apply name_choice_false in E as ->.
    rewrite !bind_ret.
    replace (base ++ lit "_row" ++ str_of_nat row ++ lit "_sprite" ++ sprite_num ++ lit ".png")
      with ((base ++ lit "_row" ++ str_of_nat row ++ lit "_sprite" ++ sprite_num)
            ++ lit ".png") by (by rewrite <- !app_assoc).
    set (stem := base ++ lit "_row" ++ str_of_nat row ++ lit "_sprite" ++ sprite_num).
    assert (OsPath.sep ∉ stem) as H1.
    { intros [Hin|Hin]%elem_of_app; [by apply base_name_no_sep in Hin | by apply Hsep]. }
    assert (exists c, c ∈ stem /\ c ≠ OsPath.dot) as H2.
    { exists 95. split; [|discriminate]. apply elem_of_app. by right. }
    assert (OsPath.utf8_size stem + 4 <= OsPath.name_max) as H3.
    { subst stem. rewrite utf8_size_app, Hsize. unfold OsPath.name_max in *. lia. }
    by save_step Hready H1 H2 H3 Hdirs.
Qed.

Lemma portrait_body_step sheet_path out sheet character_names w0 use_optipng
    row col i opt w :
  ready sheet_path out sheet character_names w0 ->
  usable unicode_isalnum character_names = true ->
  (row < 5)%nat -> (1 <= col <= 4)%nat -> (i < 20)%nat -> no_subdir out w ->
  portrait_body unicode_isalnum sheet (OsPath.splitext_root (OsPath.basename sheet_path))
                out character_names use_optipng row col (i, opt) w
  = let r := portrait_step unicode_isalnum sheet
               (OsPath.splitext_root (OsPath.basename sheet_path)) out character_names
               use_optipng row col (i, opt, w) in
    (Ok r.1, r.2).
Proof.
  intros Hready Huse Hrow Hcol Hi Hdirs.
  destruct (portrait_suffix_facts row col Hrow Hcol) as (Hsep & Hus & Hsize).
  pose proof (ready_base _ _ _ _ _ Hready) as Hbase.
  set (base := OsPath.splitext_root (OsPath.basename sheet_path)) in *.
  unfold portrait_body, portrait_step.
  rewrite (Image_crop_ok _ _ (ready_pixels _ _ _ _ _ Hready)), bind_ret.
  destruct (truthy character_names && (i <? len_names character_names)%nat) eqn:E.
  - apply name_choice_true in E as (name & Hname & ->). rewrite Hname.
    destruct (usable_at _ _ _ Huse Hi Hname) as [Hne Hshort].
    rewrite !bind_ret.
    assert (exists c, c ∈ sanitize name /\ c ≠ OsPath.dot) as H2.
    { pose proof (sanitize_chars unicode_isalnum name) as Hkeep.
      destruct (sanitize name) as [|c t]; [done|].
      exists c. split; [left|]. apply keep_not_dot, Hkeep. left. }
    assert (OsPath.utf8_size (sanitize name) + 4 <= OsPath.name_max) as H3
      by (unfold OsPath.name_max in *; lia).
    by save_step Hready (sanitize_no_sep name) H2 H3 Hdirs.
  - apply name_choice_false in E as ->.
    rewrite !bind_ret.
    replace (base ++ lit "_row" ++ str_of_nat row ++ lit "_sprite"
             ++ str_of_nat (col - 1 + 1) ++ lit "_portrait.png")
      with ((base ++ lit "_row" ++ str_of_nat row ++ lit "_sprite"
             ++ str_of_nat (col - 1 + 1) ++ lit "_portrait") ++ lit ".png")
      by (by rewrite <- !app_assoc).
    set (stem := base ++ lit "_row" ++ str_of_nat row ++ lit "_sprite"
                 ++ str_of_nat (col - 1 + 1) ++ lit "_portrait").
    assert (OsPath.sep ∉ stem) as H1.
    { intros [Hin|Hin]%elem_of_app; [by apply base_name_no_sep in Hin | by apply Hsep]. }
    assert (exists c, c ∈ stem /\ c ≠ OsPath.dot) as H2.
    { exists 95. split; [|discriminate]. apply elem_of_app. by right. }
    assert (OsPath.utf8_size stem + 4 <= OsPath.name_max) as H3.
    { subst stem. rewrite utf8_size_app, Hsize. unfold OsPath.name_max in *. lia. }
    by save_step Hready H1 H2 H3 Hdirs.
Qed.

(** A loop whose iterations all return is the fold of its steps; the
    invariant may speak of the number of iterations made. *)
Lemma for_each_fold {A St} (I : nat -> St -> world -> Prop) (body : A -> St -> M St)
    (step : A -> St * world -> St * world) (xs : list A) :
  (forall k x s w, xs !! k = Some x -> I k s w ->
     body x s w = (Ok (step x (s, w)).1, (step x (s, w)).2)
     /\ I (S k) (step x (s, w)).1 (step x (s, w)).2) ->
  forall s w, I 0%nat s w ->
    let r := foldl (fun sw x => step x sw) (s, w) xs in
    for_each xs body s w = (Ok r.1, r.2) /\ I (length xs) r.1 r.2.
Proof.
  revert I. induction xs as [|x xs IH]; intros I Hstep s w HI; cbn [for_each foldl].
  - done.
  - destruct (Hstep 0%nat x s w eq_refl HI) as [Hx HI'].
    rewrite (bind_ok _ _ _ _ _ Hx).
    destruct (step x (s, w)) as [s' w'] eqn:E.
    apply (IH (fun k => I (S k))); [|done].
    intros k y s0 w0 Hy. by apply (Hstep (S k)).
Qed.

Lemma face_step_dirs sheet base out names use row pos sw :
  dirs (face_step unicode_isalnum sheet base out names use row pos sw).2 = dirs sw.2.
Proof. by destruct pos as [[? ?] ?], sw as [[? ?] ?]. Qed.

Lemma portrait_step_dirs sheet base out names use row col sw :
  dirs (portrait_step unicode_isalnum sheet base out names use row col sw).2 = dirs sw.2.
Proof. by destruct sw as [[? ?] ?]. Qed.

Lemma face_step_index sheet base out names use row pos i opt w :
  (face_step unicode_isalnum sheet base out names use row pos (i, opt, w)).1.1
  = (i + 1)%nat.
Proof. by destruct pos as [[? ?] ?]. Qed.

Lemma face_loop_fold sheet_path out sheet names w0 use opt w :
  ready sheet_path out sheet names w0 ->
  usable unicode_isalnum names = true -> no_subdir out w ->
  let base := OsPath.splitext_root (OsPath.basename sheet_path) in
  let r := foldl (fun sw row =>
                    foldl (fun sw pos =>
                             face_step unicode_isalnum sheet base out names use row pos sw)
                          sw sprite_positions)
                 ((0%nat, opt), w) (seq 0 5) in
  face_loop unicode_isalnum sheet base out names use (0%nat, opt) w = (Ok r.1, r.2).
Proof.
  intros Hready Huse Hdirs base. unfold face_loop.
  apply (for_each_fold
           (fun k st w' => st.1 = (4 * k)%nat /\ no_subdir out w')
           (fun row st => for_each sprite_positions
              (face_body unicode_isalnum sheet base out names use row 0 (row * 32)) st)
           (fun row sw => foldl (fun sw pos =>
              face_step unicode_isalnum sheet base out names use row pos sw)
              sw sprite_positions)); [|done].
  intros k row s w' [-> Hk]%lookup_seq [Hs Hw'].
  destruct (for_each_fold
           (fun c st w'' => st.1 = (4 * k + c)%nat /\ no_subdir out w'')
           (face_body unicode_isalnum sheet base out names use (0 + k) 0 ((0 + k) * 32))
           (fun pos sw => face_step unicode_isalnum sheet base out names use (0 + k) pos sw)
           sprite_positions) with (s := s) (w := w') as [Hrun [Hix Hsub]].
  - intros c pos [i opt'] w'' Hpos [Hi Hw'']. cbn [fst] in Hi. subst i.
    pose proof (lookup_lt_Some _ _ _ Hpos) as Hc. cbn [length sprite_positions] in Hc.
    split.
    + apply (face_body_step sheet_path out sheet names w0); [done..|lia| |lia|done].
      by apply (list_elem_of_lookup_2 _ c).
    + split; [rewrite face_step_index; lia|].
      unfold no_subdir. by rewrite face_step_dirs.
  - split; [lia|done].
  - split; [exact Hrun|]. split; [|exact Hsub].
    rewrite Hix. cbn [length sprite_positions]. lia.
Qed.

Lemma portrait_loop_fold sheet_path out sheet names w0 use opt w :
  ready sheet_path out sheet names w0 ->
  usable unicode_isalnum names = true -> no_subdir out w ->
  let base := OsPath.splitext_root (OsPath.basename sheet_path) in
  let r := foldl (fun sw row =>
                    foldl (fun sw col =>
                             portrait_step unicode_isalnum sheet base out names use row col sw)
                          sw (seq 1 4))
                 ((0%nat, opt), w) (seq 0 5) in
  portrait_loop unicode_isalnum sheet base out names use (0%nat, opt) w = (Ok r.1, r.2).
Proof.
  intros Hready Huse Hdirs base. unfold portrait_loop.
  apply (for_each_fold
           (fun k st w' => st.1 = (4 * k)%nat /\ no_subdir out w')
           (fun row st => for_each (seq 1 4)
              (portrait_body unicode_isalnum sheet base out names use row) st)
           (fun row sw => foldl (fun sw col =>
              portrait_step unicode_isalnum sheet base out names use row col sw)
              sw (seq 1 4))); [|done].
  intros k row s w' [-> Hk]%lookup_seq [Hs Hw'].
  destruct (for_each_fold
           (fun c st w'' => st.1 = (4 * k + c)%nat /\ no_subdir out w'')
           (portrait_body unicode_isalnum sheet base out names use (0 + k))
           (fun col sw => portrait_step unicode_isalnum sheet base out names use (0 + k) col sw)
           (seq 1 4)) with (s := s) (w := w') as [Hrun [Hix Hsub]].
  - intros c col [i opt'] w'' [-> Hc]%lookup_seq [Hi Hw'']. cbn [fst] in Hi. subst i.
    split.
    + apply (portrait_body_step sheet_path out sheet names w0); [done..|lia|lia|lia|done].
    + split; [cbn [portrait_step fst]; lia|].
      unfold no_subdir. by rewrite portrait_step_dirs.
  - split; [lia|done].
  - split; [exact Hrun|]. split; [|exact Hsub].
    rewrite Hix. rewrite length_seq. lia.
Qed.

(** The folds of the two loops, in the closed form of section 4.3. *)
Lemma face_fold_closed sheet base out names use opt w :
  foldl (fun sw row =>
           foldl (fun sw pos =>
                    face_step unicode_isalnum sheet base out names use row pos sw)
                 sw sprite_positions)
        ((0, opt), w)%nat (seq 0 5)
  = ((20%nat,
      if use
      then opt ++ map (fun item => OsPath.join out item.1)
                      (map (face_item unicode_isalnum sheet base names) (seq 0 20))
      else opt),
     after_items out (map (face_item unicode_isalnum sheet base names) (seq 0 20)) w).
Proof.
  destruct use.
  - cbn [foldl seq sprite_positions face_step Nat.add]. rewrite <- !app_assoc.
    reflexivity.
  - reflexivity.
Qed.

Lemma portrait_fold_closed sheet base out names use opt w :
  foldl (fun sw row =>
           foldl (fun sw col =>
                    portrait_step unicode_isalnum sheet base out names use row col sw)
                 sw (seq 1 4))
        ((0, opt), w)%nat (seq 0 5)
  = ((20%nat,
      if use
      then opt ++ map (fun item => OsPath.join out item.1)
                      (map (portrait_item unicode_isalnum sheet base names) (seq 0 20))
      else opt),
     after_items out (map (portrait_item unicode_isalnum sheet base names) (seq 0 20)) w).
Proof.
  destruct use.
  - cbn [foldl seq portrait_step Nat.add]. rewrite <- !app_assoc.
    reflexivity.
  - reflexivity.
Qed.

Lemma face_loop_run sheet_path out sheet names w0 use opt w :
  ready sheet_path out sheet names w0 ->
  usable unicode_isalnum names = true -> no_subdir out w ->
  let base := OsPath.splitext_root (OsPath.basename sheet_path) in
  face_loop unicode_isalnum sheet base out names use (0%nat, opt) w
  = (Ok (20%nat,
         if use
         then opt ++ map (fun item => OsPath.join out item.1)
                         (map (face_item unicode_isalnum sheet base names) (seq 0 20))
         else opt),
     after_items out (map (face_item unicode_isalnum sheet base names) (seq 0 20)) w).
Proof.
  intros Hready Huse Hdirs base. subst base.
  pose proof (face_loop_fold sheet_path out sheet names w0 use opt w Hready Huse Hdirs)
    as Hrun.
  cbv zeta in Hrun. rewrite Hrun. by rewrite face_fold_closed.
Qed.

Lemma portrait_loop_run sheet_path out sheet names w0 use opt w :
  ready sheet_path out sheet names w0 ->
  usable unicode_isalnum names = true -> no_subdir out w ->
  let base := OsPath.splitext_root (OsPath.basename sheet_path) in
  portrait_loop unicode_isalnum sheet base out names use (0%nat, opt) w
  = (Ok (20%nat,
         if use
         then opt ++ map (fun item => OsPath.join out item.1)
                         (map (portrait_item unicode_isalnum sheet base names) (seq 0 20))
         else opt),
     after_items out (map (portrait_item unicode_isalnum sheet base names) (seq 0 20)) w).
Proof.
  intros Hready Huse Hdirs base. subst base.
  pose proof (portrait_loop_fold sheet_path out sheet names w0 use opt w Hready Huse Hdirs)
    as Hrun.
  cbv zeta in Hrun. rewrite Hrun. by rewrite portrait_fold_closed.
Qed.

Lemma after_items_files out items w :
  files (after_items out items w) = write_all (map (in_dir out) items) (files w).
Proof.
  revert w. induction items as [|item items IH]; intros w; [done|].
  unfold after_items, write_all in *. cbn [foldl map]. by rewrite IH.
Qed.

Lemma after_items_dirs out items w : dirs (after_items out items w) = dirs w.
Proof.
  revert w. induction items as [|item items IH]; intros w; [done|].
  unfold after_items in *. cbn [foldl]. by rewrite IH.
Qed.

Lemma after_items_saves out items w :
  saves (trace (after_items out items w)) = saves (trace w) ++ map (in_dir out) items.
Proof.
  revert w. induction items as [|item items IH]; intros w.
  - by rewrite app_nil_r.
  - unfold after_items in *. cbn [foldl map].
    by rewrite IH, after_save_saves, <- app_assoc.
Qed.

Lemma after_items_app out items1 items2 w :
  after_items out (items1 ++ items2) w
  = after_items out items2 (after_items out items1 w).
Proof. apply foldl_app. Qed.

End Loops.

(** ** The name loader *)

Lemma load_absent sheet_path w :
  files w !! names_file sheet_path = None ->
  names_file sheet_path ∉ dirs w ->
  load_character_names sheet_path w = (Ok None, w).
Proof.
  intros Hf Hd. unfold load_character_names. fold (names_file sheet_path).
  unfold mbind, M_bind, bind, os_path_exists.
  rewrite bool_decide_eq_false_2; [done|].
  rewrite Hf. intros [[? [=]]|?]; done.
Qed.

Lemma load_present sheet_path txt w :
  files w !! names_file sheet_path = Some (Text txt) ->
  let names := read_names (file_lines (universal_newlines txt)) in
  load_character_names sheet_path w
  = (Ok (Some names),
     if (length names =? 20)%nat then w
     else count_warning sheet_path (length names) w).
Proof.
  intros Hf names. unfold load_character_names. fold (names_file sheet_path).
  unfold mbind, M_bind, bind, os_path_exists, open_read_lines.
  rewrite bool_decide_eq_true_2 by (left; by rewrite Hf).
  cbn [negb]. rewrite Hf. fold names.
  by destruct (length names =? 20)%nat.
Qed.

Lemma load_keeps_disk sheet_path w :
  let w' := (load_character_names sheet_path w).2 in
  files w' = files w /\ dirs w' = dirs w /\ saves (trace w') = saves (trace w)
  /\ exists t, trace w' = trace w ++ t.
Proof.
  unfold load_character_names. fold (names_file sheet_path).
  unfold mbind, M_bind, bind, os_path_exists, open_read_lines.
  destruct (bool_decide _); cbn [negb].
  - destruct (files w !! names_file sheet_path) as [[im|txt]|];
      try (repeat split; try done; by exists []; rewrite app_nil_r).
    + destruct (length _ =? 20)%nat; cbn.
      * repeat split; try done. by exists []; rewrite app_nil_r.
      * repeat split; try done.
        -- by rewrite !saves_app, !app_nil_r.
        -- eexists. by rewrite <- app_assoc.
    + destruct (bool_decide _); repeat split; try done; by exists []; rewrite app_nil_r.
  - repeat split; try done. by exists []; rewrite app_nil_r.
Qed.

Lemma same_disk_refl w : same_disk w w.
Proof. done. Qed.

Lemma same_disk_print line w w' : same_disk w w' -> same_disk w (emit (EPrint line) w').
Proof.
  intros (Hf & Hd & Ht). repeat split; [done..|].
  cbn. by rewrite saves_app, app_nil_r.
Qed.

Lemma load_result_disk sheet_path w w' :
  same_disk w w' ->
  (load_character_names sheet_path w').1 = (load_character_names sheet_path w).1
  /\ same_disk w (load_character_names sheet_path w').2.
Proof.
  intros (Hf & Hd & Ht). split.
  - unfold load_character_names, mbind, M_bind, bind, os_path_exists, open_read_lines.
    destruct w as [fs ds t], w' as [fs' ds' t']. cbn [files dirs] in Hf, Hd. subst fs' ds'.
    cbn [files dirs]. destruct (bool_decide _); cbn [negb files dirs]; [|reflexivity].
    destruct (fs !! _) as [[im|txt]|];
      [reflexivity| |destruct (bool_decide _); reflexivity].
    destruct (negb _); reflexivity.
  - destruct (load_keeps_disk sheet_path w') as (Hf' & Hd' & Ht' & _).
    repeat split; congruence.
Qed.

Lemma Image_open_ok p im w :
  files w !! p = Some (Image im) -> Image_open p w = (Ok im, w).
Proof. intros H. unfold Image_open. by rewrite H. Qed.

Lemma os_makedirs_ok p w :
  OsPath.canonical p = true -> OsPath.fits p = true -> files w !! p = None ->
  Forall (fun a => files w !! a = None) (OsPath.ancestors p) ->
  os_makedirs p w
  = (Ok tt, mkWorld (files w) (made_dirs p ∪ dirs w) (trace w ++ [EMkdir p])).
Proof.
  intros Hp Hfits Hf Hup. unfold os_makedirs.
  apply canonical_nonempty in Hp. destruct p as [|c p]; [done|].
  cbn [PyStr.is_empty]. rewrite emit_files, Hf, Hfits.
  rewrite bool_decide_eq_false_2 by (by intros [? [=]]). cbn [negb].
  replace (existsb _ _) with false; [done|].
  symmetry. apply not_true_is_false. intros (a & Ha & Hfile)%existsb_exists.
  apply list_elem_of_In in Ha.
  rewrite (proj1 (Forall_forall _ _) Hup a Ha) in Hfile.
  apply bool_decide_eq_true_1 in Hfile. by destruct Hfile.
Qed.

(** Making the output directory puts no directory below it. *)
Lemma no_subdir_made out w w' :
  no_subdir out w -> dirs w' = made_dirs out ∪ dirs w -> no_subdir out w'.
Proof.
  intros Hdirs Hw' name. rewrite Hw'. unfold made_dirs.
  rewrite !elem_of_union, elem_of_list_to_set, elem_of_singleton.
  intros [[Hin|Heq]|Hin].
  - apply ancestors_prefix in Hin as (r & _ & Hr).
    apply (f_equal length) in Hr. rewrite !length_app in Hr. cbn [length] in Hr. lia.
  - apply (f_equal length) in Heq. rewrite length_app in Heq. cbn [length] in Heq. lia.
  - by apply (Hdirs name).
Qed.

Lemma load_events_same sheet_path w w0 :
  files w0 = files w -> dirs w0 = dirs w ->
  trace (load_character_names sheet_path w0).2 = trace w0 ++ load_events sheet_path w.
Proof.
  intros Hf Hd. unfold load_events.
  destruct w as [fs ds t], w0 as [fs0 ds0 t0]. cbn [files dirs] in Hf, Hd. subst fs0 ds0.
  unfold load_character_names, mbind, M_bind, bind, os_path_exists, open_read_lines.
  cbn [files dirs trace].
  destruct (bool_decide _); cbn [negb files dirs trace snd];
    [|by rewrite drop_all, app_nil_r].
  destruct (fs !! _) as [[im|txt]|]; cbn [snd trace].
  - by rewrite drop_all, app_nil_r.
  - destruct (negb _); cbn [snd trace print emit ret].
    + rewrite <- !app_assoc. by rewrite drop_app_length.
    + by rewrite drop_all, app_nil_r.
  - destruct (bool_decide _); cbn [snd trace]; by rewrite drop_all, app_nil_r.
Qed.

Lemma after_items_trace out items w :
  trace (after_items out items w) = trace w ++ item_events out items.
Proof.
  revert w. induction items as [|item items IH]; intros w.
  - by rewrite app_nil_r.
  - unfold after_items in *. cbn [foldl]. rewrite IH.
    unfold after_save, emit. cbn [trace item_events flat_map].
    by rewrite <- !app_assoc.
Qed.

Section Run.

Variable unicode_isalnum : char -> bool.
Variable optipng_installed : bool.
Variable optipng : list str -> gmap str content -> Z * gmap str content.

Local Abbreviation extract :=
  (extract_sprites_from_sheet unicode_isalnum optipng_installed optipng).

(** A run up to the optimiser pass: the forty saves of section 4.3. *)
Lemma extract_saves sheet_path out sheet names use w :
  ready sheet_path out sheet names w ->
  usable unicode_isalnum names = true ->
  let base := OsPath.splitext_root (OsPath.basename sheet_path) in
  let items := planned_items unicode_isalnum sheet base names in
  exists w2,
    extract sheet_path out use w
    = finish optipng_installed optipng sheet_path use
        (if use then map (fun item => OsPath.join out item.1) items else []) w2
    /\ files w2 = write_all (map (in_dir out) items) (files w)
    /\ dirs w2 = made_dirs out ∪ dirs w
    /\ saves (trace w2) = saves (trace w) ++ map (in_dir out) items.
Proof.
  intros Hready Huse base items.
  pose proof (ready_sheet _ _ _ _ _ Hready) as Hsheet.
  pose proof (ready_names _ _ _ _ _ Hready) as Hnames.
  pose proof (ready_free _ _ _ _ _ Hready) as Hfree.
  pose proof (ready_parents _ _ _ _ _ Hready) as Hup.
  pose proof (ready_dirs _ _ _ _ _ Hready) as Hdirs.
  unfold extract_sprites_from_sheet. fold base.
  rewrite (bind_ok _ _ _ _ _ (Image_open_ok _ _ _ Hsheet)).
  (* the size warning *)
  assert (exists w0, same_disk w w0 /\
    ((if negb ((width sheet =? 160)%nat && (height sheet =? 160)%nat)
      then print (lit "Warning: Expected 160x160 pixels, got ("
                  ++ str_of_nat (width sheet) ++ lit ", "
                  ++ str_of_nat (height sheet) ++ lit ")")
      else ret tt) w = (Ok tt, w0))) as (w0 & Hw0 & Hwarn).
  { destruct (negb _); eexists; (split; [|reflexivity]).
    - apply same_disk_print, same_disk_refl.
    - apply same_disk_refl. }
  rewrite (bind_ok _ _ _ _ _ Hwarn).
  (* the names *)
  destruct (load_result_disk sheet_path w w0 Hw0) as [Hres Hw1].
  destruct (load_character_names sheet_path w0) as [res w1] eqn:Hload.
  cbn [fst snd] in Hres, Hw1. rewrite Hnames in Hres. subst res.
  rewrite (bind_ok _ _ _ _ _ Hload).
  assert (exists w3, same_disk w w3 /\
    ((if truthy names
      then print (lit "Loaded " ++ str_of_nat (len_names names)
                  ++ lit " character names from " ++ base ++ lit ".txt")
      else print (lit "No character names file found (" ++ base ++ lit ".txt)");;
           print (lit "Using default naming (row/sprite numbers)")) w1
     = (Ok tt, w3))) as (w3 & (Hf3 & Hd3 & Ht3) & Hmsg).
  { destruct (truthy names); eexists; (split; [|reflexivity]).
    - by apply same_disk_print.
    - by do 2 apply same_disk_print. }
  rewrite (bind_ok _ _ _ _ _ Hmsg).
  assert (files w3 !! out = None) as Hfree3 by (by rewrite Hf3).
  assert (Forall (fun a => files w3 !! a = None) (OsPath.ancestors out)) as Hup3
    by (by rewrite Hf3).
  rewrite (bind_ok _ _ _ _ _ (os_makedirs_ok out w3 (ready_out _ _ _ _ _ Hready)
                                (ready_fits _ _ _ _ _ Hready) Hfree3 Hup3)).
  rewrite !bind_print.
  set (wm := mkWorld (files w3) (made_dirs out ∪ dirs w3) (trace w3 ++ [EMkdir out])).
  assert (files wm = files w /\ dirs wm = made_dirs out ∪ dirs w
          /\ saves (trace wm) = saves (trace w)) as (Hfm & Hdm & Htm).
  { subst wm. cbn [files dirs trace]. rewrite Hf3, Hd3, saves_app, Ht3.
    repeat split. apply app_nil_r. }
  clearbody wm.
  pose proof (fun w' => no_subdir_made out w w' Hdirs) as Hsub.
  erewrite bind_ok; cycle 1.
  { apply (face_loop_run unicode_isalnum sheet_path out sheet names w); [done..|].
    apply Hsub. by rewrite !emit_dirs. }
  cbv beta iota. rewrite bind_print.
  erewrite bind_ok; cycle 1.
  { apply (portrait_loop_run unicode_isalnum sheet_path out sheet names w); [done..|].
    apply Hsub. by rewrite emit_dirs, after_items_dirs, !emit_dirs. }
  cbv beta iota.
  match goal with |- context [after_items out ?ps ?w'] =>
    match ps with context [portrait_item] => exists (after_items out ps w') end
  end.
  split.
  - unfold finish. destruct use; [|reflexivity].
    unfold items, planned_items. rewrite map_app. reflexivity.
  - unfold items, planned_items. rewrite map_app.
    repeat split.
    + rewrite after_items_files, emit_files, after_items_files, !emit_files, Hfm.
      unfold write_all. by rewrite foldl_app.
    + by rewrite after_items_dirs, emit_dirs, after_items_dirs, !emit_dirs.
    + rewrite after_items_saves, emit_print_saves, after_items_saves,
        !emit_print_saves, Htm.
      by rewrite <- app_assoc.
Qed.

(** A run up to the optimiser pass, with its whole trace. *)
Lemma extract_trace sheet_path out sheet names use w :
  ready sheet_path out sheet names w ->
  usable unicode_isalnum names = true ->
  let base := OsPath.splitext_root (OsPath.basename sheet_path) in
  let items := planned_items unicode_isalnum sheet base names in
  exists w2,
    extract sheet_path out use w
    = finish optipng_installed optipng sheet_path use
        (if use then map (fun item => OsPath.join out item.1) items else []) w2
    /\ trace w2 = trace w ++ save_events unicode_isalnum sheet_path out sheet names w
    /\ files w2 = write_all (map (in_dir out) items) (files w)
    /\ dirs w2 = made_dirs out ∪ dirs w.
Proof.
  intros Hready Huse base items.
  pose proof (ready_sheet _ _ _ _ _ Hready) as Hsheet.
  pose proof (ready_names _ _ _ _ _ Hready) as Hnames.
  pose proof (ready_free _ _ _ _ _ Hready) as Hfree.
  pose proof (ready_parents _ _ _ _ _ Hready) as Hup.
  pose proof (ready_dirs _ _ _ _ _ Hready) as Hdirs.
  unfold extract_sprites_from_sheet. fold base.
  rewrite (bind_ok _ _ _ _ _ (Image_open_ok _ _ _ Hsheet)).
  assert (exists w0, (files w0 = files w /\ dirs w0 = dirs w
                      /\ trace w0 = trace w ++ size_warning sheet) /\
    ((if negb ((width sheet =? 160)%nat && (height sheet =? 160)%nat)
      then print (lit "Warning: Expected 160x160 pixels, got ("
                  ++ str_of_nat (width sheet) ++ lit ", "
                  ++ str_of_nat (height sheet) ++ lit ")")
      else ret tt) w = (Ok tt, w0))) as (w0 & (Hf0 & Hd0 & Ht0) & Hwarn).
  { unfold size_warning. destruct (negb _); eexists; (split; [|reflexivity]).
    - done.
    - by rewrite app_nil_r. }
  rewrite (bind_ok _ _ _ _ _ Hwarn).
  assert (same_disk w w0) as Hw0.
  { assert (saves (size_warning sheet) = []) as Hs
      by (unfold size_warning; by destruct (negb _)).
    repeat split; [done..|]. by rewrite Ht0, saves_app, Hs, app_nil_r. }
  destruct (load_result_disk sheet_path w w0 Hw0) as [Hres (Hf1 & Hd1 & _)].
  pose proof (load_events_same sheet_path w w0 Hf0 Hd0) as Ht1.
  destruct (load_character_names sheet_path w0) as [res w1] eqn:Hload.
  cbn [fst snd] in Hres, Hf1, Hd1, Ht1. rewrite Hnames in Hres. subst res.
  rewrite (bind_ok _ _ _ _ _ Hload).
  assert (exists w3, (files w3 = files w /\ dirs w3 = dirs w
                      /\ trace w3 = trace w1 ++ names_report base names) /\
    ((if truthy names
      then print (lit "Loaded " ++ str_of_nat (len_names names)
                  ++ lit " character names from " ++ base ++ lit ".txt")
      else print (lit "No character names file found (" ++ base ++ lit ".txt)");;
           print (lit "Using default naming (row/sprite numbers)")) w1
     = (Ok tt, w3))) as (w3 & (Hf3 & Hd3 & Ht3) & Hmsg).
  { unfold names_report. destruct (truthy names); eexists; (split; [|reflexivity]).
    - done.
    - repeat split; [done..|]. cbn. by rewrite <- app_assoc. }
  rewrite (bind_ok _ _ _ _ _ Hmsg).
  assert (files w3 !! out = None) as Hfree3 by (by rewrite Hf3).
  assert (Forall (fun a => files w3 !! a = None) (OsPath.ancestors out)) as Hup3
    by (by rewrite Hf3).
  rewrite (bind_ok _ _ _ _ _ (os_makedirs_ok out w3 (ready_out _ _ _ _ _ Hready)
                                (ready_fits _ _ _ _ _ Hready) Hfree3 Hup3)).
  rewrite !bind_print.
  set (wm := emit _ (emit _ (mkWorld (files w3) (made_dirs out ∪ dirs w3)
                                     (trace w3 ++ [EMkdir out])))).
  assert (files wm = files w /\ dirs wm = made_dirs out ∪ dirs w
          /\ trace wm = trace w3 ++ [EMkdir out;
               EPrint (lit "Processing " ++ sheet_path ++ lit "...");
               EPrint (lit "Extracting 16x16 sprites from first column...")])
    as (Hfm & Hdm & Htm).
  { subst wm. unfold emit. cbn [files dirs trace]. rewrite Hf3, Hd3.
    repeat split. by rewrite <- !app_assoc. }
  clearbody wm.
  pose proof (fun w' => no_subdir_made out w w' Hdirs) as Hsub.
  erewrite bind_ok; cycle 1.
  { apply (face_loop_run unicode_isalnum sheet_path out sheet names w); [done..|].
    by apply Hsub. }
  cbv beta iota. rewrite bind_print.
  erewrite bind_ok; cycle 1.
  { apply (portrait_loop_run unicode_isalnum sheet_path out sheet names w); [done..|].
    apply Hsub. by rewrite emit_dirs, after_items_dirs. }
  cbv beta iota.
  match goal with |- context [after_items out ?ps ?w'] =>
    match ps with context [portrait_item] => exists (after_items out ps w') end
  end.
  split; [|split; [|split]].
  - unfold finish. destruct use; [|reflexivity].
    unfold items, planned_items. rewrite map_app. reflexivity.
  - rewrite after_items_trace. unfold emit at 1. cbn [trace].
    rewrite after_items_trace, Htm, Ht3, Ht1, Ht0.
    unfold save_events. fold base. by rewrite <- !app_assoc.
  - unfold items, planned_items. rewrite map_app.
    rewrite after_items_files, emit_files, after_items_files, Hfm.
    unfold write_all. by rewrite foldl_app.
  - by rewrite after_items_dirs, emit_dirs, after_items_dirs.
Qed.

End Run.

(** ** The optimiser pass *)

Section Optimizer.

Variable unicode_isalnum : char -> bool.
Variable optipng_installed : bool.
Variable optipng : list str -> gmap str content -> Z * gmap str content.

Local Abbreviation optimize := (optimize_png_with_optipng optipng_installed optipng).
Local Abbreviation extract :=
  (extract_sprites_from_sheet unicode_isalnum optipng_installed optipng).

(** With the binary installed, [optimize_png_with_optipng] returns
    whatever the exit status is. *)
Lemma optimize_installed file_path w :
  optipng_installed = true ->
  optimize file_path w
  = (Ok tt,
     emit (EExec (optipng_argv file_path) (optipng (optipng_argv file_path) (files w)).1)
          (mkWorld (optipng (optipng_argv file_path) (files w)).2 (dirs w) (trace w))).
Proof.
  intros Hinst.
  unfold optimize_png_with_optipng, try_except, mbind, M_bind, bind,
    subprocess_run_checked.
  fold (optipng_argv file_path). rewrite Hinst.
  destruct (optipng (optipng_argv file_path) (files w)) as [code fs].
  cbn [fst snd]. by destruct (code =? 0)%Z.
Qed.

(** Whatever happens, it saves nothing and leaves the directories. *)
Lemma quiet_bind {A B} (m : M A) (k : A -> M B) :
  (forall w, quiet w (m w).2) -> (forall a w, quiet w (k a w).2) ->
  forall w, quiet w ((m ≫= k) w).2.
Proof.
  intros Hm Hk w. unfold mbind, M_bind, bind.
  destruct (Hm w) as [Hs Hd]. destruct (m w) as [[a|e] w1]; cbn [snd] in *.
  - destruct (Hk a w1) as [Hs' Hd']. split; congruence.
  - done.
Qed.

Lemma quiet_print line w : quiet w (print line w).2.
Proof. split; [apply emit_print_saves | apply emit_dirs]. Qed.

Lemma quiet_for_each {A S} (xs : list A) (body : A -> S -> M S) :
  (forall x s w, quiet w (body x s w).2) ->
  forall s w, quiet w (for_each xs body s w).2.
Proof.
  intros Hbody. induction xs as [|x xs IH]; intros s w; [done|].
  cbn [for_each]. apply quiet_bind; [apply Hbody | intros; apply IH].
Qed.

Lemma optimize_keeps file_path w : quiet w (optimize file_path w).2.
Proof.
  unfold optimize_png_with_optipng, try_except, mbind, M_bind, bind,
    subprocess_run_checked.
  destruct optipng_installed; [|done].
  destruct (optipng _ (files w)) as [code fs].
  assert (quiet w (emit (EExec [lit "optipng"; lit "-o2"; lit "-quiet"; file_path] code)
                        (mkWorld fs (dirs w) (trace w)))) as Hq.
  { split; [|done]. cbn. by rewrite saves_app, app_nil_r. }
  by destruct (code =? 0)%Z.
Qed.

Lemma optimize_loop_ok l w :
  optipng_installed = true ->
  (for_each l (fun file_path (_ : unit) => optimize file_path) tt w).1 = Ok tt.
Proof.
  intros Hinst. revert w. induction l as [|p l IH]; intros w; [done|].
  cbn [for_each]. by rewrite (bind_ok _ _ _ _ _ (optimize_installed p w Hinst)).
Qed.

(** A tool that leaves the files leaves them all. *)
Lemma optimize_loop_files l w :
  optipng_installed = true ->
  (forall argv fs, (optipng argv fs).2 = fs) ->
  files (for_each l (fun file_path (_ : unit) => optimize file_path) tt w).2 = files w.
Proof.
  intros Hinst Hkeep. revert w. induction l as [|p l IH]; intros w; [done|].
  cbn [for_each]. rewrite (bind_ok _ _ _ _ _ (optimize_installed p w Hinst)).
  rewrite IH, emit_files. cbn [files]. apply Hkeep.
Qed.

Local Abbreviation fin := (finish optipng_installed optipng).

Lemma finish_keeps sheet_path use l w : quiet w (fin sheet_path use l w).2.
Proof.
  unfold finish, optimize_pass.
  apply quiet_bind; [|intros; apply quiet_print].
  intros w0. destruct (use && _); [|done].
  apply quiet_bind; [intros; apply quiet_print|]. intros _ w1.
  apply quiet_bind; [|intros; apply quiet_print].
  apply quiet_for_each. intros. apply optimize_keeps.
Qed.

(** The end of a run only adds to the trace. *)
Lemma extends_bind {A B} (m : M A) (k : A -> M B) w :
  (exists t, trace (m w).2 = trace w ++ t) ->
  (forall a w', exists t, trace (k a w').2 = trace w' ++ t) ->
  exists t, trace ((m ≫= k) w).2 = trace w ++ t.
Proof.
  unfold mbind, M_bind, bind. destruct (m w) as [[a|e] w1]; cbn [snd].
  - intros [t1 H1] Hk. destruct (Hk a w1) as [t2 H2].
    exists (t1 ++ t2). by rewrite H2, H1, app_assoc.
  - intros [t1 H1] _. by exists t1.
Qed.

Lemma optimize_extends file_path w :
  exists t, trace (optimize file_path w).2 = trace w ++ t.
Proof.
  unfold optimize_png_with_optipng, try_except, mbind, M_bind, bind,
    subprocess_run_checked.
  destruct optipng_installed; [|exists []; by rewrite app_nil_r].
  destruct (optipng _ (files w)) as [code fs].
  destruct (code =? 0)%Z; by eexists.
Qed.

Lemma finish_extends sheet_path use l w :
  exists t, trace (fin sheet_path use l w).2 = trace w ++ t.
Proof.
  unfold finish, optimize_pass.
  apply extends_bind; [|intros; by eexists].
  destruct (use && _); [|exists []; by rewrite app_nil_r].
  apply extends_bind; [by eexists|]. intros _ w1.
  apply extends_bind; [|intros; by eexists].
  revert w1. induction l as [|p l IH]; intros w1; cbn [for_each].
  - exists []. by rewrite app_nil_r.
  - apply extends_bind; [apply optimize_extends|]. intros [] w2. apply IH.
Qed.

Lemma finish_plain sheet_path l w :
  fin sheet_path false l w
  = (Ok tt, emit (EPrint (lit "Extraction complete for " ++ sheet_path ++ lit "!")) w).
Proof. reflexivity. Qed.

Lemma finish_ok sheet_path use l w :
  optipng_installed = true -> (fin sheet_path use l w).1 = Ok tt.
Proof.
  intros Hinst. unfold finish, optimize_pass.
  destruct (use && _); [|done].
  unfold mbind, M_bind, bind. unfold print at 1. cbv beta iota.
  pose proof (optimize_loop_ok l (emit (EPrint (lit "Optimizing "
      ++ str_of_nat (length l) ++ lit " files with optipng...")) w) Hinst) as Hok.
  destruct (for_each l _ tt _) as [[[]|e] w1]; cbn [fst] in Hok; [done|congruence].
Qed.

Lemma finish_files sheet_path use l w :
  optipng_installed = true ->
  (forall argv fs, (optipng argv fs).2 = fs) ->
  files (fin sheet_path use l w).2 = files w.
Proof.
  intros Hinst Hkeep. unfold finish, optimize_pass.
  destruct (use && _); [|done].
  unfold mbind, M_bind, bind. unfold print at 1. cbv beta iota.
  pose proof (optimize_loop_ok l (emit (EPrint (lit "Optimizing "
      ++ str_of_nat (length l) ++ lit " files with optipng...")) w) Hinst) as Hok.
  pose proof (optimize_loop_files l (emit (EPrint (lit "Optimizing "
      ++ str_of_nat (length l) ++ lit " files with optipng...")) w) Hinst Hkeep) as Hfs.
  destruct (for_each l _ tt _) as [[[]|e] w1]; cbn [fst snd] in *; [|congruence].
  unfold print. cbv beta iota. cbn [snd]. by rewrite !emit_files, Hfs.
Qed.

End Optimizer.

(** ** Runs that stop early

    Whatever the world, an iteration either makes its step or raises with
    nothing saved; so what a run has saved when it stops is an initial
    segment of what it had to save. *)

Lemma Image_save_cases im p w :
  Image_save im p w
  = (Ok tt, emit (ESave p im) (mkWorld (<[p := Image im]> (files w)) (dirs w) (trace w)))
  \/ exists e w', Image_save im p w = (Raise e, w') /\ trace w' = trace w.
Proof.
  unfold Image_save.
  destruct (saves_as_png p); cbn [negb]; [|right; by eexists _, _].
  destruct (bool_decide _); [right; by eexists _, _|].
  destruct (OsPath.fits p); cbn [negb]; [|right; by eexists _, _].
  destruct (png_writable (mode im)); cbn [negb]; [by left|].
  right. destruct (files w !! p); by eexists _, _.
Qed.

Lemma os_makedirs_cases p w :
  os_makedirs p w
  = (Ok tt, mkWorld (files w) (made_dirs p ∪ dirs w) (trace w ++ [EMkdir p]))
  \/ exists e, os_makedirs p w = (Raise e, emit (EMkdir p) w).
Proof.
  unfold os_makedirs.
  destruct (PyStr.is_empty p); [right; by eexists|].
  destruct (bool_decide _); [right; by eexists|].
  destruct (OsPath.fits p); cbn [negb]; [|right; by eexists].
  destruct (existsb _ _); [right; by eexists|]. by left.
Qed.

(** A loop whose iterations make their step or raise in the midst of it. *)
Lemma for_each_partial {A St} (body : A -> St -> M St)
    (step : A -> St * world -> St * world) (xs : list A) :
  (forall x s w, saves (trace w) `prefix_of` saves (trace (step x (s, w)).2)) ->
  (forall x s w,
     body x s w = (Ok (step x (s, w)).1, (step x (s, w)).2)
     \/ exists e, (body x s w).1 = Raise e
          /\ saves (trace w) `prefix_of` saves (trace (body x s w).2)
          /\ saves (trace (body x s w).2) `prefix_of` saves (trace (step x (s, w)).2)) ->
  forall s w,
    let full := foldl (fun sw x => step x sw) (s, w) xs in
    saves (trace w) `prefix_of` saves (trace full.2)
    /\ (for_each xs body s w = (Ok full.1, full.2)
        \/ exists e, (for_each xs body s w).1 = Raise e
             /\ saves (trace w) `prefix_of` saves (trace (for_each xs body s w).2)
             /\ saves (trace (for_each xs body s w).2) `prefix_of` saves (trace full.2)).
Proof.
  intros Hmono Hbody. induction xs as [|x xs IH]; intros s w; cbn [for_each foldl].
  - split; [done|]. by left.
  - pose proof (Hmono x s w) as Hx.
    destruct (step x (s, w)) as [s' w'] eqn:E. cbn [fst snd] in *.
    destruct (IH s' w') as [Hrest Hcases].
    split; [by etrans|].
    destruct (Hbody x s w) as [Hok|(e & He & Hlo & Hhi)]; rewrite E in *; cbn [fst snd] in *.
    + rewrite (bind_ok _ _ _ _ _ Hok).
      destruct Hcases as [Hall|(e & He & Hlo & Hhi)]; [by left|].
      right. exists e. split; [done|]. split; [by etrans|done].
    + destruct (body x s w) as [[a|e'] w''] eqn:Eb; cbn [fst snd] in *; [done|].
      injection He as ->.
      rewrite (bind_raise _ _ _ _ _ Eb). cbn [fst snd].
      right. exists e. split; [done|]. split; [done|by etrans].
Qed.

Section Partial.

Variable unicode_isalnum : char -> bool.

Lemma face_step_saves sheet base out names use row pos s w :
  saves (trace w)
  `prefix_of` saves (trace (face_step unicode_isalnum sheet base out names use row pos
                                      (s, w)).2).
Proof.
  destruct pos as [[? ?] ?], s as [i opt]. unfold face_step. cbn [snd].
  rewrite after_save_saves. by apply prefix_app_r.
Qed.

Lemma portrait_step_saves sheet base out names use row col s w :
  saves (trace w)
  `prefix_of` saves (trace (portrait_step unicode_isalnum sheet base out names use row col
                                          (s, w)).2).
Proof.
  destruct s as [i opt]. unfold portrait_step. cbn [snd].
  rewrite after_save_saves. by apply prefix_app_r.
Qed.

Lemma face_body_cases sheet base out names use row pos s w :
  let r := face_body unicode_isalnum sheet base out names use row 0 (row * 32) pos s w in
  let t := face_step unicode_isalnum sheet base out names use row pos (s, w) in
  r = (Ok t.1, t.2)
  \/ exists e, r.1 = Raise e
       /\ saves (trace w) `prefix_of` saves (trace r.2)
       /\ saves (trace r.2) `prefix_of` saves (trace t.2).
Proof.
  intros r t.
  assert (r = (Ok t.1, t.2) \/ exists e w', r = (Raise e, w') /\ trace w' = trace w)
    as [Hok|(e & w' & Hr & Ht)].
  { subst r t. destruct pos as [[offset_x offset_y] sprite_num], s as [i opt].
    unfold face_body, face_step, Image_crop.
    destruct (loadable sheet); [|right; by eexists _, _].
    rewrite bind_ret.
    destruct (truthy names && (i <? len_names names)%nat) eqn:E.
    - apply name_choice_true in E as (name & -> & ->). rewrite !bind_ret.
      match goal with |- context [Image_save ?im ?p] =>
        destruct (Image_save_cases im p w) as [Hs|(e & w' & Hs & Ht)] end.
      + left. by rewrite (bind_ok _ _ _ _ _ Hs).
      + right. exists e, w'. by rewrite (bind_raise _ _ _ _ _ Hs).
    - apply name_choice_false in E as ->. rewrite !bind_ret.
      match goal with |- context [Image_save ?im ?p] =>
        destruct (Image_save_cases im p w) as [Hs|(e & w' & Hs & Ht)] end.
      + left. by rewrite (bind_ok _ _ _ _ _ Hs).
      + right. exists e, w'. by rewrite (bind_raise _ _ _ _ _ Hs). }
  - by left.
  - right. exists e. rewrite Hr. cbn [fst snd]. rewrite Ht.
    split; [done|]. split; [done|]. subst t. apply face_step_saves.
Qed.

Lemma portrait_body_cases sheet base out names use row col s w :
  let r := portrait_body unicode_isalnum sheet base out names use row col s w in
  let t := portrait_step unicode_isalnum sheet base out names use row col (s, w) in
  r = (Ok t.1, t.2)
  \/ exists e, r.1 = Raise e
       /\ saves (trace w) `prefix_of` saves (trace r.2)
       /\ saves (trace r.2) `prefix_of` saves (trace t.2).
Proof.
  intros r t.
  assert (r = (Ok t.1, t.2) \/ exists e w', r = (Raise e, w') /\ trace w' = trace w)
    as [Hok|(e & w' & Hr & Ht)].
  { subst r t. destruct s as [i opt].
    unfold portrait_body, portrait_step, Image_crop.
    destruct (loadable sheet); [|right; by eexists _, _].
    rewrite bind_ret.
    destruct (truthy names && (i <? len_names names)%nat) eqn:E.
    - apply name_choice_true in E as (name & -> & ->). rewrite !bind_ret.
      match goal with |- context [Image_save ?im ?p] =>
        destruct (Image_save_cases im p w) as [Hs|(e & w' & Hs & Ht)] end.
      + left. by rewrite (bind_ok _ _ _ _ _ Hs).
      + right. exists e, w'. by rewrite (bind_raise _ _ _ _ _ Hs).
    - apply name_choice_false in E as ->. rewrite !bind_ret.
      match goal with |- context [Image_save ?im ?p] =>
        destruct (Image_save_cases im p w) as [Hs|(e & w' & Hs & Ht)] end.
      + left. by rewrite (bind_ok _ _ _ _ _ Hs).
      + right. exists e, w'. by rewrite (bind_raise _ _ _ _ _ Hs). }
  - by left.
  - right. exists e. rewrite Hr. cbn [fst snd]. rewrite Ht.
    split; [done|]. split; [done|]. subst t. apply portrait_step_saves.
Qed.

(** The two loops: all twenty saves, or an exception and the first few. *)
Lemma face_loop_partial sheet base out names use opt w :
  let r := face_loop unicode_isalnum sheet base out names use (0%nat, opt) w in
  let faces := map (face_item unicode_isalnum sheet base names) (seq 0 20) in
  r = (Ok (20%nat,
           if use then opt ++ map (fun item => OsPath.join out item.1) faces else opt),
       after_items out faces w)
  \/ exists e l, r.1 = Raise e
       /\ saves (trace r.2) = saves (trace w) ++ l
       /\ l `prefix_of` map (in_dir out) faces.
Proof.
  intros r faces.
  destruct (for_each_partial
    (fun row st => for_each sprite_positions
       (face_body unicode_isalnum sheet base out names use row 0 (row * 32)) st)
    (fun row sw => foldl (fun sw pos =>
       face_step unicode_isalnum sheet base out names use row pos sw) sw sprite_positions)
    (seq 0 5)
    (fun row s w' => proj1 (for_each_partial _ _ sprite_positions
       (face_step_saves sheet base out names use row)
       (face_body_cases sheet base out names use row) s w'))
    (fun row s w' => proj2 (for_each_partial _ _ sprite_positions
       (face_step_saves sheet base out names use row)
       (face_body_cases sheet base out names use row) s w'))
    (0%nat, opt) w) as [_ Hcases].
  rewrite face_fold_closed in Hcases. cbn [fst snd] in Hcases. fold faces in Hcases.
  destruct Hcases as [Hok|(e & He & [l Hl] & Hhi)]; [by left|].
  right. exists e, l. split; [exact He|]. split; [exact Hl|].
  unfold face_loop in Hl. rewrite Hl, after_items_saves in Hhi.
  by apply prefix_app_inv in Hhi.
Qed.

Lemma portrait_loop_partial sheet base out names use opt w :
  let r := portrait_loop unicode_isalnum sheet base out names use (0%nat, opt) w in
  let portraits := map (portrait_item unicode_isalnum sheet base names) (seq 0 20) in
  r = (Ok (20%nat,
           if use then opt ++ map (fun item => OsPath.join out item.1) portraits else opt),
       after_items out portraits w)
  \/ exists e l, r.1 = Raise e
       /\ saves (trace r.2) = saves (trace w) ++ l
       /\ l `prefix_of` map (in_dir out) portraits.
Proof.
  intros r portraits.
  destruct (for_each_partial
    (fun row st => for_each (seq 1 4)
       (portrait_body unicode_isalnum sheet base out names use row) st)
    (fun row sw => foldl (fun sw col =>
       portrait_step unicode_isalnum sheet base out names use row col sw) sw (seq 1 4))
    (seq 0 5)
    (fun row s w' => proj1 (for_each_partial _ _ (seq 1 4)
       (portrait_step_saves sheet base out names use row)
       (portrait_body_cases sheet base out names use row) s w'))
    (fun row s w' => proj2 (for_each_partial _ _ (seq 1 4)
       (portrait_step_saves sheet base out names use row)
       (portrait_body_cases sheet base out names use row) s w'))
    (0%nat, opt) w) as [_ Hcases].
  rewrite portrait_fold_closed in Hcases. cbn [fst snd] in Hcases.
  fold portraits in Hcases.
  destruct Hcases as [Hok|(e & He & [l Hl] & Hhi)]; [by left|].
  right. exists e, l. split; [exact He|]. split; [exact Hl|].
  unfold portrait_loop in Hl. rewrite Hl, after_items_saves in Hhi.
  by apply prefix_app_inv in Hhi.
Qed.

End Partial.

(** ** The first steps of a run *)

Lemma size_warning_step sheet w :
  exists w0, same_disk w w0 /\
    (if negb ((width sheet =? 160)%nat && (height sheet =? 160)%nat)
     then print (lit "Warning: Expected 160x160 pixels, got ("
                 ++ str_of_nat (width sheet) ++ lit ", "
                 ++ str_of_nat (height sheet) ++ lit ")")
     else ret tt) w = (Ok tt, w0).
Proof.
  destruct (negb _); eexists; (split; [|reflexivity]).
  - apply same_disk_print, same_disk_refl.
  - apply same_disk_refl.
Qed.

Lemma names_report_step (base : str) names w w1 :
  same_disk w w1 ->
  exists w3, same_disk w w3 /\
    (if truthy names
     then print (lit "Loaded " ++ str_of_nat (len_names names)
                 ++ lit " character names from " ++ base ++ lit ".txt")
     else print (lit "No character names file found (" ++ base ++ lit ".txt)");;
          print (lit "Using default naming (row/sprite numbers)")) w1
    = (Ok tt, w3).
Proof.
  intros Hw1. destruct (truthy names); eexists; (split; [|reflexivity]).
  - by apply same_disk_print.
  - by do 2 apply same_disk_print.
Qed.

Lemma load_directory sheet_path w :
  files w !! names_file sheet_path = None -> names_file sheet_path ∈ dirs w ->
  load_character_names sheet_path w = (Raise IsADirectoryError, w).
Proof.
  intros Hf Hd. unfold load_character_names. fold (names_file sheet_path).
  unfold mbind, M_bind, bind, os_path_exists, open_read_lines.
  rewrite bool_decide_eq_true_2 by (by right). cbn [negb].
  by rewrite Hf, bool_decide_eq_true_2.
Qed.

Lemma Image_open_fails p w :
  (forall im, files w !! p ≠ Some (Image im)) ->
  exists e, Image_open p w = (Raise e, w)
            /\ (files w !! p = None -> p ∉ dirs w -> OsPath.fits p = true ->
                e = FileNotFoundError).
Proof.
  intros Hno. unfold Image_open. destruct (files w !! p) as [[im|txt]|] eqn:E.
  - by destruct (Hno im).
  - by eexists.
  - destruct (bool_decide _) eqn:Ed.
    + eexists. split; [done|]. intros _ Hnd.
      by apply bool_decide_eq_true_1 in Ed.
    + destruct (OsPath.fits p); cbn [negb]; by eexists.
Qed.

(** ** The outputs of a run *)

Lemma crop_is_region sheet x y n :
  is_region sheet (crop sheet (x, y, x + n, y + n)%nat) x y n.
Proof.
  unfold is_region, crop. cbn [width height].
  split; [lia|]. split; [lia|].
  intros i j Hi Hj. unfold pixel_at at 1. cbn [width height data].
  replace (x + n - x)%nat with n by lia. replace (y + n - y)%nat with n by lia.
  apply Nat.ltb_lt in Hi, Hj. by rewrite Hi, Hj.
Qed.

Lemma slot_div r p : (p < 4)%nat -> ((4 * r + p) / 4 = r)%nat.
Proof. intros. symmetry. apply (Nat.div_unique _ 4 r p); lia. Qed.

Lemma slot_mod r p : (p < 4)%nat -> ((4 * r + p) mod 4 = p)%nat.
Proof. intros. symmetry. apply (Nat.mod_unique _ 4 r p); lia. Qed.

Section Outputs.

Variable unicode_isalnum : char -> bool.
Variable optipng_installed : bool.
Variable optipng : list str -> gmap str content -> Z * gmap str content.

Local Abbreviation extract :=
  (extract_sprites_from_sheet unicode_isalnum optipng_installed optipng).
Local Abbreviation sanitize := (sanitize_filename unicode_isalnum).
Local Abbreviation planned := (planned_outputs unicode_isalnum).

(** Whatever the world, what a run that has opened its sheet and read its
    names has saved is an initial segment of the forty planned outputs. *)
Lemma extract_prefix sheet_path out sheet names use w :
  files w !! sheet_path = Some (Image sheet) ->
  (load_character_names sheet_path w).1 = Ok names ->
  saved_since w (extract sheet_path out use w).2
  `prefix_of` planned sheet (OsPath.splitext_root (OsPath.basename sheet_path)) out names.
Proof.
  intros Hsheet Hnames. set (base := OsPath.splitext_root (OsPath.basename sheet_path)).
  unfold extract_sprites_from_sheet. fold base.
  rewrite (bind_ok _ _ _ _ _ (Image_open_ok _ _ _ Hsheet)).
  destruct (size_warning_step sheet w) as (w0 & Hw0 & Hwarn).
  rewrite (bind_ok _ _ _ _ _ Hwarn).
  destruct (load_result_disk sheet_path w w0 Hw0) as [Hres Hw1].
  destruct (load_character_names sheet_path w0) as [res w1] eqn:Hl.
  cbn [fst snd] in *. rewrite Hnames in Hres. subst res.
  rewrite (bind_ok _ _ _ _ _ Hl).
  destruct (names_report_step base names w w1 Hw1) as (w3 & (Hf3 & Hd3 & Ht3) & Hmsg).
  rewrite (bind_ok _ _ _ _ _ Hmsg).
  unfold saved_since.
  destruct (os_makedirs_cases out w3) as [Hmk|[e Hmk]].
  2: { rewrite (bind_raise _ _ _ _ _ Hmk). cbn [snd].
       assert (saves (trace (emit (EMkdir out) w3)) = saves (trace w)) as ->
         by (cbn; by rewrite saves_app, app_nil_r).
       rewrite drop_all. apply prefix_nil. }
  rewrite (bind_ok _ _ _ _ _ Hmk), !bind_print.
  set (wm := emit _ (emit _ (mkWorld (files w3) (made_dirs out ∪ dirs w3)
                                     (trace w3 ++ [EMkdir out])))).
  assert (saves (trace wm) = saves (trace w)) as Htm.
  { subst wm. rewrite !emit_print_saves. cbn [trace].
    by rewrite saves_app, Ht3, app_nil_r. }
  clearbody wm.
  unfold planned_outputs, planned_items. rewrite map_app.
  destruct (face_loop_partial unicode_isalnum sheet base out names use [] wm)
    as [Hfaces|(e & l & He & Hsv & Hpre)].
  2: { destruct (face_loop _ _ _ _ _ _ _ wm) as [[a|e'] wr] eqn:Er; cbn [fst snd] in *;
         [done|].
       rewrite (bind_raise _ _ _ _ _ Er). cbn [snd].
       rewrite Hsv, Htm, drop_app_length. by apply prefix_app_r. }
  rewrite (bind_ok _ _ _ _ _ Hfaces). cbv beta iota. rewrite bind_print.
  match goal with |- context [(portrait_loop _ _ _ _ _ _ (_, ?opt) ≫= _) ?wf] =>
    destruct (portrait_loop_partial unicode_isalnum sheet base out names use opt wf)
      as [Hportraits|(e & l & He & Hsv & Hpre)];
    [|destruct (portrait_loop unicode_isalnum sheet base out names use
                  (0%nat, opt) wf) as [[a|e'] wr] eqn:Er; cbn [fst snd] in *; [done|]]
  end.
  2: { rewrite (bind_raise _ _ _ _ _ Er). cbn [snd].
       rewrite Hsv, emit_print_saves, after_items_saves, Htm, <- app_assoc, drop_app_length.
       by apply prefix_app. }
  rewrite (bind_ok _ _ _ _ _ Hportraits). cbv beta iota.
  match goal with |- context [(optimize_pass ?a ?b ?c ?l ≫= ?k) ?wp] =>
    destruct (finish_keeps optipng_installed optipng sheet_path c l wp) as [Hq _];
    unfold finish in Hq; rewrite Hq
  end.
  rewrite after_items_saves, emit_print_saves, after_items_saves, Htm.
  by rewrite <- app_assoc, drop_app_length.
Qed.

(** When the name loader raises, so does the run, before it saves. *)
Lemma extract_load_raises sheet_path out sheet use e w :
  files w !! sheet_path = Some (Image sheet) ->
  (load_character_names sheet_path w).1 = Raise e ->
  (extract sheet_path out use w).1 = Raise e
  /\ saved_since w (extract sheet_path out use w).2 = [].
Proof.
  intros Hsheet Hload. unfold extract_sprites_from_sheet.
  rewrite (bind_ok _ _ _ _ _ (Image_open_ok _ _ _ Hsheet)).
  destruct (size_warning_step sheet w) as (w0 & Hw0 & Hwarn).
  rewrite (bind_ok _ _ _ _ _ Hwarn).
  destruct (load_result_disk sheet_path w w0 Hw0) as [Hres (_ & _ & Hs1)].
  destruct (load_character_names sheet_path w0) as [res w1] eqn:Hl.
  cbn [fst snd] in *. rewrite Hload in Hres. subst res.
  rewrite (bind_raise _ _ _ _ _ Hl). cbn [fst snd]. split; [done|].
  unfold saved_since. by rewrite Hs1, drop_all.
Qed.

(** Whatever the optimiser setting, the saves of a run that is ready are
    the forty planned outputs, in order. *)
Lemma extract_outputs sheet_path out sheet names use w :
  ready sheet_path out sheet names w ->
  usable unicode_isalnum names = true ->
  saved_since w (extract sheet_path out use w).2
  = planned sheet (OsPath.splitext_root (OsPath.basename sheet_path)) out names.
Proof.
  intros Hready Huse.
  destruct (extract_saves unicode_isalnum optipng_installed optipng
              sheet_path out sheet names use w Hready Huse) as (w2 & Heq & _ & _ & Hs).
  rewrite Heq.
  destruct (finish_keeps optipng_installed optipng sheet_path use
              (if use
               then map (fun item => OsPath.join out item.1)
                     (planned_items unicode_isalnum sheet
                        (OsPath.splitext_root (OsPath.basename sheet_path)) names)
               else []) w2) as [Hq _].
  unfold saved_since. rewrite Hq, Hs.
  by rewrite drop_app_length.
Qed.

(** Without the optimiser the run returns, and its files are the old ones
    overwritten by the planned outputs. *)
Lemma extract_plain sheet_path out sheet names w :
  ready sheet_path out sheet names w ->
  usable unicode_isalnum names = true ->
  let r := extract sheet_path out false w in
  r.1 = Ok tt
  /\ files r.2
     = write_all (planned sheet (OsPath.splitext_root (OsPath.basename sheet_path)) out names)
                 (files w)
  /\ dirs r.2 = made_dirs out ∪ dirs w.
Proof.
  intros Hready Huse.
  destruct (extract_saves unicode_isalnum optipng_installed optipng
              sheet_path out sheet names false w Hready Huse) as (w2 & Heq & Hf & Hd & _).
  cbv zeta. rewrite Heq.
  rewrite (finish_plain optipng_installed optipng sheet_path [] w2).
  cbn [fst snd]. by rewrite emit_files, emit_dirs.
Qed.

Lemma planned_length sheet base out names : length (planned sheet base out names) = 40%nat.
Proof. reflexivity. Qed.

Lemma planned_face sheet base out names r p :
  (r < 5)%nat -> (p < 4)%nat ->
  planned sheet base out names !! (4 * r + p)%nat
  = Some (OsPath.join out (face_filename unicode_isalnum base names r p),
          crop sheet (face_box r p)).
Proof.
  intros Hr Hp. unfold planned_outputs, planned_items.
  rewrite list_lookup_fmap, lookup_app_l by (rewrite length_map, length_seq; lia).
  rewrite list_lookup_fmap, lookup_seq_lt by lia.
  cbn [fmap option_fmap option_map Nat.add]. unfold in_dir, face_item. cbn [fst snd].
  by rewrite slot_div, slot_mod.
Qed.

Lemma planned_portrait sheet base out names r p :
  (r < 5)%nat -> (p < 4)%nat ->
  planned sheet base out names !! (20 + (4 * r + p))%nat
  = Some (OsPath.join out (portrait_filename unicode_isalnum base names r (p + 1)),
          crop sheet (portrait_box r (p + 1))).
Proof.
  intros Hr Hp. unfold planned_outputs, planned_items.
  rewrite list_lookup_fmap, lookup_app_r by (rewrite length_map, length_seq; lia).
  rewrite length_map, length_seq.
  replace (20 + (4 * r + p) - 20)%nat with (4 * r + p)%nat by lia.
  rewrite list_lookup_fmap, lookup_seq_lt by lia.
  cbn [fmap option_fmap option_map Nat.add]. unfold in_dir, portrait_item. cbn [fst snd].
  by rewrite slot_div, slot_mod.
Qed.

End Outputs.

(** * The claims *)

Section SanitizerClaims.

Variable unicode_isalnum : char -> bool.
Local Abbreviation sanitize := (sanitize_filename unicode_isalnum).

(** C4: on every input, [sanitize_filename] replaces each space with an
    underscore and then drops every character that is not alphanumeric,
    an underscore or a hyphen; and it maps "Bob O'Brien (2)" to
    "Bob_OBrien_2". *)
Theorem sanitize_filename_spec name :
  sanitize name = sanitize_spec unicode_isalnum name
  /\ sanitize (lit "Bob O'Brien (2)") = lit "Bob_OBrien_2".
Proof.
  split.
  - rewrite sanitize_unfold. unfold sanitize_spec.
    apply list_filter_iff. intros c. by rewrite keep_char_allowed.
  - vm_compute. reflexivity.
Qed.

(** C10: [sanitize_filename] is idempotent, because every character of
    its output is alphanumeric, an underscore or a hyphen, and strings
    made of such characters are fixed points. *)
Theorem sanitize_filename_idempotent s :
  sanitize (sanitize s) = sanitize s
  /\ Forall (fun c => allowed unicode_isalnum c = true) (sanitize s)
  /\ forall t, Forall (fun c => allowed unicode_isalnum c = true) t -> sanitize t = t.
Proof.
  assert (forall t, Forall (fun c => allowed unicode_isalnum c = true) t -> sanitize t = t)
    as Hfix.
  { intros t Ht. apply sanitize_fixed.
    eapply Forall_impl; [exact Ht|]. intros c. by rewrite keep_char_allowed. }
  assert (Forall (fun c => allowed unicode_isalnum c = true) (sanitize s)) as Hout.
  { apply Forall_forall. intros c Hc%sanitize_chars. by rewrite <- keep_char_allowed. }
  auto.
Qed.

End SanitizerClaims.

Lemma is_empty_false (s : str) : PyStr.is_empty s = false <-> s ≠ [].
Proof. by destruct s. Qed.

Lemma read_names_trimmed (f : list str) :
  read_names f = filter (fun line => line ≠ []) (map PyStr.strip f).
Proof.
  unfold read_names. induction f as [|line f IH]; [done|].
  cbn [map]. destruct (PyStr.is_empty (PyStr.strip line)) eqn:E.
  - rewrite filter_cons_False by (by rewrite E).
    rewrite filter_cons_False; [done|].
    intros H. apply is_empty_false in H. congruence.
  - rewrite filter_cons_True by done. cbn [map].
    rewrite filter_cons_True by (by apply is_empty_false). by rewrite IH.
Qed.

(** C7: [load_character_names] returns [None] when the sidecar file is
    absent; when it is present it returns the non-empty trimmed lines in
    file order, warning (and nothing else) when their number is not 20, and
    returns them as read, neither padded nor truncated. *)
Theorem load_character_names_spec sheet_path w :
  (files w !! names_file sheet_path = None -> names_file sheet_path ∉ dirs w ->
   load_character_names sheet_path w = (Ok None, w))
  /\ (forall txt, files w !! names_file sheet_path = Some (Text txt) ->
      let names := nonempty_trimmed_lines txt in
      load_character_names sheet_path w
      = (Ok (Some names),
         if (length names =? 20)%nat then w
         else count_warning sheet_path (length names) w)).
Proof.
  split.
  - apply load_absent.
  - intros txt Htxt. unfold nonempty_trimmed_lines.
    rewrite <- read_names_trimmed. by apply load_present.
Qed.

Lemma load_character_names_spec_witness :
  load_character_names page1 (world_with None) = (Ok None, world_with None)
  /\ load_character_names page1 (world_with (Some (text_of three_names)))
     = (Ok (Some three_names),
        count_warning page1 3 (world_with (Some (text_of three_names)))).
Proof.
  split.
  - apply (proj1 (load_character_names_spec page1 (world_with None)));
      [reflexivity | apply not_elem_of_empty].
  - apply (proj2 (load_character_names_spec page1 (world_with (Some (text_of three_names))))
             (text_of three_names)).
    reflexivity.
Defined.

Section DriverClaims.

Variable unicode_isalnum : char -> bool.
Variable optipng_installed : bool.
Variable optipng : list str -> gmap str content -> Z * gmap str content.

(** C6: when no entry of the working directory matches the sheet pattern
    (prefix [npc-sprites-] and extension [.png], [.webp] or [.jpg]),
    [main] prints its two informational lines and returns; it creates no
    directory and writes no file. *)
Theorem main_without_sheets argv w :
  Forall (fun f => is_sheet_name f = false) (cwd_entries w) ->
  main unicode_isalnum optipng_installed optipng argv w
  = (Ok tt,
     mkWorld (files w) (dirs w)
       (trace w
        ++ [EPrint (lit "No sprite sheets found matching pattern 'npc-sprites-*'");
            EPrint (lit "Usage: python extract_sprites.py [output_directory]")])).
Proof.
  intros Hnone. unfold main.
  rewrite (bind_ok _ _ _ _ _ (eq_refl : os_listdir_cwd w = (Ok (cwd_entries w), w))).
  assert (filter (fun f => is_sheet_name f = true) (cwd_entries w) = []) as ->.
  { induction Hnone as [|f l Hf Hl IH]; [done|].
    rewrite filter_cons_False by congruence. exact IH. }
  rewrite bind_print. unfold print, emit. cbn [files dirs trace].
  by rewrite <- app_assoc.
Qed.

End DriverClaims.

Lemma main_without_sheets_witness :
  main ascii_only true failing_optipng [lit "extract_sprites.py"] world_without_sheets
  = (Ok tt,
     mkWorld (files world_without_sheets) (dirs world_without_sheets)
       [EPrint (lit "No sprite sheets found matching pattern 'npc-sprites-*'");
        EPrint (lit "Usage: python extract_sprites.py [output_directory]")]).
Proof.
  apply (main_without_sheets ascii_only true failing_optipng
           [lit "extract_sprites.py"] world_without_sheets).
  vm_compute. repeat constructor.
Defined.

(** The sample worlds are ready for a run into the directory [out]. *)
Lemma sample_ready names_text names :
  (load_character_names page1 (world_with names_text)).1 = Ok names ->
  ready page1 (lit "out") marker_sheet names (world_with names_text).
Proof.
  intros Hnames. split.
  - destruct names_text; reflexivity.
  - reflexivity.
  - reflexivity.
  - exact Hnames.
  - by vm_compute.
  - reflexivity.
  - reflexivity.
  - reflexivity.
  - destruct names_text; reflexivity.
  - constructor.
  - intros name. apply not_elem_of_empty.
Qed.

Section RunClaims.

Variable unicode_isalnum : char -> bool.
Variable optipng_installed : bool.
Variable optipng : list str -> gmap str content -> Z * gmap str content.

Local Abbreviation extract :=
  (extract_sprites_from_sheet unicode_isalnum optipng_installed optipng).
Local Abbreviation sanitize := (sanitize_filename unicode_isalnum).

(** C1: for every sheet, the face sprite saved for row [r] (0..4) at
    sub-position [p] (0..3, raster order) is exactly the 16x16 region whose
    top-left corner is at x = 16 * (p mod 2), y = r * 32 + 16 * (p div 2);
    the portrait saved for row [r], column [c] (1..4) is exactly the 32x32
    region whose top-left corner is at (c * 32, r * 32).  This holds of
    whatever a run saves, in every world; and a run that is ready, with
    names it can use, saves every one of them. *)
Theorem extracted_regions sheet_path out sheet use w r :
  files w !! sheet_path = Some (Image sheet) -> (r < 5)%nat ->
  let outs := saved_since w (extract sheet_path out use w).2 in
  (forall p path im, (p < 4)%nat ->
     outs !! (4 * r + p)%nat = Some (path, im) ->
     is_region sheet im (16 * (p mod 2)) (r * 32 + 16 * (p / 2)) 16)
  /\ (forall c path im, (1 <= c <= 4)%nat ->
        outs !! (20 + (4 * r + (c - 1)))%nat = Some (path, im) ->
        is_region sheet im (c * 32) (r * 32) 32)
  /\ (forall names,
        ready sheet_path out sheet names w -> usable unicode_isalnum names = true ->
        (forall p, (p < 4)%nat ->
           exists path im,
             outs !! (4 * r + p)%nat = Some (path, im)
             /\ is_region sheet im (16 * (p mod 2)) (r * 32 + 16 * (p / 2)) 16)
        /\ (forall c, (1 <= c <= 4)%nat ->
              exists path im,
                outs !! (20 + (4 * r + (c - 1)))%nat = Some (path, im)
                /\ is_region sheet im (c * 32) (r * 32) 32)).
Proof.
  intros Hsheet Hr outs.
  assert (forall N o, outs !! N = Some o ->
            exists names,
              planned_outputs unicode_isalnum sheet
                (OsPath.splitext_root (OsPath.basename sheet_path)) out names !! N
              = Some o) as Hplanned.
  { intros N o HN. subst outs.
    destruct (load_character_names sheet_path w).1 as [names|e] eqn:Hload.
    - exists names. eapply prefix_lookup_Some; [exact HN|].
      by apply extract_prefix.
    - destruct (extract_load_raises unicode_isalnum optipng_installed optipng
                  sheet_path out sheet use e w Hsheet Hload) as [_ Hnone].
      by rewrite Hnone in HN. }
  split; [|split].
  - intros p path im Hp HN. apply Hplanned in HN as [names HN].
    rewrite planned_face in HN by done. injection HN as _ <-.
    apply crop_is_region.
  - intros c path im Hc HN. apply Hplanned in HN as [names HN].
    rewrite planned_portrait in HN by lia. injection HN as _ <-.
    replace (c - 1 + 1)%nat with c by lia. apply crop_is_region.
  - intros names Hready Huse. subst outs.
    rewrite (extract_outputs _ _ _ _ _ _ _ _ _ Hready Huse). split.
    + intros p Hp. do 2 eexists. split; [by apply planned_face|].
      apply crop_is_region.
    + intros c Hc. do 2 eexists. split; [apply planned_portrait; lia|].
      replace (c - 1 + 1)%nat with c by lia. apply crop_is_region.
Qed.

Lemma face_filename_named base names r p name :
  names !! (4 * r + p)%nat = Some name ->
  face_filename unicode_isalnum base (Some names) r p = sanitize name ++ lit "face.png".
Proof.
  intros H. unfold face_filename, name_of. by rewrite (Nat.mul_comm r 4), H.
Qed.

Lemma portrait_filename_named base names r p name :
  names !! (4 * r + p)%nat = Some name ->
  portrait_filename unicode_isalnum base (Some names) r (p + 1)
  = sanitize name ++ lit ".png".
Proof.
  intros H. unfold portrait_filename, name_of.
  replace (r * 4 + (p + 1 - 1))%nat with (4 * r + p)%nat by lia. by rewrite H.
Qed.

Lemma face_filename_positional base names r p :
  name_of names (4 * r + p)%nat = None ->
  face_filename unicode_isalnum base names r p
  = base ++ lit "_row" ++ str_of_nat r ++ lit "_sprite" ++ str_of_nat (p + 1) ++ lit ".png".
Proof. intros H. unfold face_filename. by rewrite (Nat.mul_comm r 4), H. Qed.

Lemma portrait_filename_positional base names r p :
  name_of names (4 * r + p)%nat = None ->
  portrait_filename unicode_isalnum base names r (p + 1)
  = base ++ lit "_row" ++ str_of_nat r ++ lit "_sprite" ++ str_of_nat (p + 1)
    ++ lit "_portrait.png".
Proof.
  intros H. unfold portrait_filename.
  replace (r * 4 + (p + 1 - 1))%nat with (4 * r + p)%nat by lia. by rewrite H.
Qed.

(** C2, as the code has it: with a list of exactly 20 names that the run
    can use, each sanitizing to a string that is not empty, name [N] (with
    [N = row * 4 + position] for faces and [N = row * 4 + (col - 1)] for
    portraits) names both face output [N], as [{sanitized}face.png], and
    portrait output [N], as [{sanitized}.png], through the same
    [sanitize_filename], in a run that is ready. *)
Theorem names_align sheet_path out sheet names use w r p :
  ready sheet_path out sheet (Some names) w ->
  usable unicode_isalnum (Some names) = true ->
  length names = 20%nat ->
  (r < 5)%nat -> (p < 4)%nat ->
  let outs := saved_since w (extract sheet_path out use w).2 in
  let N := (4 * r + p)%nat in
  exists name face portrait,
    names !! N = Some name
    /\ outs !! N = Some (OsPath.join out (sanitize name ++ lit "face.png"), face)
    /\ outs !! (20 + N)%nat = Some (OsPath.join out (sanitize name ++ lit ".png"), portrait).
Proof.
  intros Hready Huse Hlen Hr Hp outs N. subst outs N.
  rewrite (extract_outputs _ _ _ _ _ _ _ _ _ Hready Huse).
  destruct (lookup_lt_is_Some_2 names (4 * r + p)) as [name Hname]; [lia|].
  exists name. do 2 eexists. split; [done|].
  rewrite planned_face, planned_portrait by done.
  by rewrite (face_filename_named _ _ _ _ _ Hname),
             (portrait_filename_named _ _ _ _ _ Hname).
Qed.

(** C3, as the code has it: with fewer than 20 names, all of which the run
    can use, every character index at or beyond the length of the list gets
    the positional file names [{base}_row{row}_sprite{1..4}.png] and
    [{base}_row{row}_sprite{1..4}_portrait.png], and every index below the
    length gets the names derived from the list, in a run that is ready. *)
Theorem short_list_falls_back sheet_path out sheet names use w r p :
  ready sheet_path out sheet (Some names) w ->
  usable unicode_isalnum (Some names) = true ->
  (length names < 20)%nat ->
  (r < 5)%nat -> (p < 4)%nat ->
  let outs := saved_since w (extract sheet_path out use w).2 in
  let base := OsPath.splitext_root (OsPath.basename sheet_path) in
  let N := (4 * r + p)%nat in
  ((length names <= N)%nat ->
     exists face portrait,
       outs !! N
       = Some (OsPath.join out
                 (base ++ lit "_row" ++ str_of_nat r ++ lit "_sprite"
                  ++ str_of_nat (p + 1) ++ lit ".png"), face)
       /\ outs !! (20 + N)%nat
          = Some (OsPath.join out
                    (base ++ lit "_row" ++ str_of_nat r ++ lit "_sprite"
                     ++ str_of_nat (p + 1) ++ lit "_portrait.png"), portrait))
  /\ ((N < length names)%nat ->
        exists name face portrait,
          names !! N = Some name
          /\ outs !! N = Some (OsPath.join out (sanitize name ++ lit "face.png"), face)
          /\ outs !! (20 + N)%nat
             = Some (OsPath.join out (sanitize name ++ lit ".png"), portrait)).
Proof.
  intros Hready Huse Hlen Hr Hp outs base N. subst outs N.
  rewrite (extract_outputs _ _ _ _ _ _ _ _ _ Hready Huse). fold base.
  rewrite planned_face, planned_portrait by done. split.
  - intros Hge. do 2 eexists.
    assert (name_of (Some names) (4 * r + p) = None) as Hnone
      by (by apply lookup_ge_None_2).
    by rewrite (face_filename_positional _ _ _ _ Hnone),
               (portrait_filename_positional _ _ _ _ Hnone).
  - intros Hlt.
    destruct (lookup_lt_is_Some_2 names (4 * r + p)) as [name Hname]; [lia|].
    exists name. do 2 eexists. split; [done|].
    by rewrite (face_filename_named _ _ _ _ _ Hname),
               (portrait_filename_named _ _ _ _ _ Hname).
Qed.

End RunClaims.

(** ** Counting the files of a run *)

Lemma write_all_snoc outs o fs :
  write_all (outs ++ [o]) fs = <[o.1 := Image o.2]> (write_all outs fs).
Proof. unfold write_all. by rewrite foldl_app. Qed.

Lemma write_all_written outs fs p :
  p ∈ map fst outs -> exists im, write_all outs fs !! p = Some (Image im).
Proof.
  induction outs as [|o outs IH] using rev_ind; [by intros ?%elem_of_nil|].
  rewrite map_app, write_all_snoc. cbn [map].
  destruct (decide (p = o.1)) as [->|Hne].
  - intros _. exists o.2. apply lookup_insert_eq.
  - intros [Hin|Hin%list_elem_of_singleton]%elem_of_app; [|done].
    rewrite lookup_insert_ne by done. by apply IH.
Qed.

Lemma join_prefix out :
  exists pre, forall name,
    name ≠ [] -> PyStr.startswith name [OsPath.sep] = false ->
    OsPath.join out name = pre ++ name.
Proof.
  destruct (PyStr.is_empty out || PyStr.endswith out [OsPath.sep]) eqn:E.
  - exists out. intros name _ Hs. unfold OsPath.join. by rewrite Hs, E.
  - exists (out ++ [OsPath.sep]). intros name _ Hs. unfold OsPath.join.
    by rewrite Hs, E, <- app_assoc.
Qed.

Lemma positional_suffixes_NoDup : NoDup positional_suffixes.
Proof. apply (bool_decide_unpack _). by vm_compute. Qed.

Lemma positional_suffixes_start :
  Forall (fun s => s ≠ [] /\ PyStr.startswith s [OsPath.sep] = false) positional_suffixes.
Proof. apply (bool_decide_unpack _). by vm_compute. Qed.

Lemma positional_paths_NoDup base out :
  OsPath.sep ∉ base ->
  NoDup (map (fun s => OsPath.join out (base ++ s)) positional_suffixes).
Proof.
  intros Hbase. destruct (join_prefix out) as [pre Hpre].
  rewrite (map_ext_in _ (fun s => (pre ++ base) ++ s)).
  - apply (NoDup_fmap_2 _), positional_suffixes_NoDup.
  - intros s Hs%list_elem_of_In.
    pose proof (proj1 (Forall_forall _ _) positional_suffixes_start s Hs) as [H1 H2].
    destruct (startswith_sep_app base s Hbase H1 H2) as [H3 H4].
    by rewrite (Hpre _ H3 H4), app_assoc.
Qed.

Section Counting.

Variable unicode_isalnum : char -> bool.
Variable optipng_installed : bool.
Variable optipng : list str -> gmap str content -> Z * gmap str content.

Local Abbreviation extract :=
  (extract_sprites_from_sheet unicode_isalnum optipng_installed optipng).
Local Abbreviation planned := (planned_outputs unicode_isalnum).

Lemma name_of_falsy names i : truthy names = false -> name_of names i = None.
Proof. by destruct names as [[|n names]|]. Qed.

Lemma planned_falsy sheet base out names :
  truthy names = false ->
  planned sheet base out names = planned sheet base out None.
Proof.
  intros Hf. unfold planned_outputs, planned_items. do 2 f_equal.
  - apply map_ext. intros i. unfold face_item, face_filename.
    by rewrite (name_of_falsy names _ Hf).
  - apply map_ext. intros i. unfold portrait_item, portrait_filename.
    by rewrite (name_of_falsy names _ Hf).
Qed.

Lemma planned_positional_paths sheet base out :
  map fst (planned sheet base out None)
  = map (fun s => OsPath.join out (base ++ s)) positional_suffixes.
Proof.
  unfold planned_outputs, planned_items, positional_suffixes.
  rewrite !map_app, !map_map. reflexivity.
Qed.

(** C5, as the code has it: without the optimizer a run that is ready,
    with names it can use, returns after exactly 40 saves, 20 faces of 16x16
    and then 20 portraits of 32x32, and every path saved is a file
    afterwards.  They are 40 files whenever the 40 paths differ, as they do
    under positional naming; no uniqueness is enforced, so a path saved
    twice holds one file. *)
Theorem forty_saves sheet_path out sheet names w :
  ready sheet_path out sheet names w ->
  usable unicode_isalnum names = true ->
  let r := extract sheet_path out false w in
  let outs := saved_since w r.2 in
  r.1 = Ok tt
  /\ length outs = 40%nat
  /\ Forall (fun o => width o.2 = 16%nat /\ height o.2 = 16%nat) (take 20 outs)
  /\ Forall (fun o => width o.2 = 32%nat /\ height o.2 = 32%nat) (drop 20 outs)
  /\ (forall p, p ∈ map fst outs -> exists im, files r.2 !! p = Some (Image im))
  /\ (NoDup (map fst outs) -> size (output_files w r.2) = 40%nat)
  /\ (truthy names = false -> size (output_files w r.2) = 40%nat).
Proof.
  intros Hready Huse r outs. subst outs r. unfold output_files.
  destruct (extract_plain unicode_isalnum optipng_installed optipng
              sheet_path out sheet names w Hready Huse) as (Hok & Hfiles & _).
  rewrite Hok, Hfiles, (extract_outputs _ _ _ _ _ _ _ _ _ Hready Huse).
  set (base := OsPath.splitext_root (OsPath.basename sheet_path)).
  assert (NoDup (map fst (planned sheet base out names)) ->
          size (list_to_set (C := gset str) (map fst (planned sheet base out names)))
          = 40%nat) as Hsize.
  { intros Hnd. rewrite size_list_to_set by done. by rewrite length_map. }
  split; [done|]. split; [done|].
  split; [|split; [|split; [|split; [done|]]]].
  - unfold planned_outputs, planned_items.
    rewrite map_app, take_app_length' by done.
    rewrite !Forall_fmap. apply Forall_forall. intros i _.
    unfold compose, in_dir, face_item, face_box, crop. cbn [snd width height]. lia.
  - unfold planned_outputs, planned_items.
    rewrite map_app, drop_app_length' by done.
    rewrite !Forall_fmap. apply Forall_forall. intros i _.
    unfold compose, in_dir, portrait_item, portrait_box, crop. cbn [snd width height]. lia.
  - intros p Hp. by apply write_all_written.
  - intros Hfalsy. apply Hsize.
    rewrite (planned_falsy _ _ _ _ Hfalsy), planned_positional_paths.
    apply positional_paths_NoDup, base_name_no_sep.
Qed.

End Counting.

(** C5 as stated fails: two characters named alike share their file names,
    so the 40 saves of this run leave 38 files. *)
Lemma colliding_names_lose_files :
  ready page1 (lit "out") marker_sheet (Some twin_names)
        (world_with (Some (text_of twin_names)))
  /\ (sample_run (Some (text_of twin_names)) false).1 = Ok tt
  /\ size (output_files (world_with (Some (text_of twin_names)))
                        (sample_run (Some (text_of twin_names)) false).2) = 38%nat
  /\ size (output_files (world_with (Some (text_of twin_names)))
                        (sample_run (Some (text_of twin_names)) false).2) ≠ 40%nat.
Proof.
  split; [apply sample_ready; vm_compute; reflexivity|].
  split; [vm_compute; reflexivity|].
  assert (size (output_files (world_with (Some (text_of twin_names)))
                  (sample_run (Some (text_of twin_names)) false).2) = 38%nat) as ->
    by (vm_compute; reflexivity).
  split; [reflexivity|lia].
Qed.

Lemma forty_saves_witness :
  (sample_run None false).1 = Ok tt
  /\ length (sample_outputs None false) = 40%nat
  /\ size (output_files (world_with None) (sample_run None false).2) = 40%nat.
Proof.
  destruct (forty_saves ascii_only true failing_optipng page1 (lit "out")
              marker_sheet None (world_with None)
              (sample_ready None None eq_refl) eq_refl)
    as (Hok & Hlen & _ & _ & _ & _ & Hsize).
  exact (conj Hok (conj Hlen (Hsize eq_refl))).
Defined.

Lemma extracted_regions_witness :
  (forall p, (p < 4)%nat ->
     exists path im,
       sample_outputs None false !! (4 * 2 + p)%nat = Some (path, im)
       /\ is_region marker_sheet im (16 * (p mod 2)) (2 * 32 + 16 * (p / 2)) 16)
  /\ (forall c, (1 <= c <= 4)%nat ->
        exists path im,
          sample_outputs None false !! (20 + (4 * 2 + (c - 1)))%nat = Some (path, im)
          /\ is_region marker_sheet im (c * 32) (2 * 32) 32).
Proof.
  apply (proj2 (proj2 (extracted_regions ascii_only true failing_optipng page1 (lit "out")
                         marker_sheet false (world_with None) 2 eq_refl ltac:(lia)))
           None).
  - apply sample_ready. reflexivity.
  - reflexivity.
Defined.

(** On the marker sheet, pixel (5, 7) of the bottom-right face of row 2
    is the sheet's pixel (21, 87), and pixel (5, 7) of the portrait of row
    2, column 3 is the sheet's pixel (101, 71). *)
Example marker_pixels :
  (prod_map id (fun im => pixel_at im 5 7) <$> sample_outputs None false !! 11%nat)
  = Some (lit "out/npc-sprites-page-1_row2_sprite4.png", N.of_nat (160 * 87 + 21))
  /\ (prod_map id (fun im => pixel_at im 5 7) <$> sample_outputs None false !! 30%nat)
     = Some (lit "out/npc-sprites-page-1_row2_sprite3_portrait.png",
             N.of_nat (160 * 71 + 101)).
Proof. by vm_compute. Qed.

(** C2 as stated fails.  Nothing in the script catches a failure of a
    save: with 20 good names and a sheet in mode CMYK the first save raises
    and no output bears a name of the list.  And a name may itself make a
    save fail: the second of the 20 names of [nameless_twenty] is [???],
    which sanitizes to the empty string; its face is saved as [face.png],
    its portrait would be [.png], in which PIL finds no extension, and the
    run raises [ValueError] after 21 saves, so that neither that portrait
    nor any after it is written. *)
Lemma names_align_counterexample :
  length twenty_names = 20%nat
  /\ load_character_names page1 (world_named cmyk_sheet twenty_names)
     = (Ok (Some twenty_names), world_named cmyk_sheet twenty_names)
  /\ (extract_sprites_from_sheet ascii_only true failing_optipng page1 (lit "out") false
        (world_named cmyk_sheet twenty_names)).1 = Raise OSError
  /\ trace (extract_sprites_from_sheet ascii_only true failing_optipng page1 (lit "out")
              false (world_named cmyk_sheet twenty_names)).2
     = [EPrint (lit "Loaded 20 character names from npc-sprites-page-1.txt");
        EMkdir (lit "out");
        EPrint (lit "Processing npc-sprites-page-1.png...");
        EPrint (lit "Extracting 16x16 sprites from first column...")]
  /\ length nameless_twenty = 20%nat
  /\ nameless_twenty !! 1%nat = Some (lit "???")
  /\ ready page1 (lit "out") marker_sheet (Some nameless_twenty)
           (world_with (Some (text_of nameless_twenty)))
  /\ (sample_run (Some (text_of nameless_twenty)) false).1 = Raise ValueError
  /\ map fst (drop 19 (sample_outputs (Some (text_of nameless_twenty)) false))
     = [lit "out/Tessface.png"; lit "out/Ada.png"]
  /\ sample_outputs (Some (text_of nameless_twenty)) false !! 21%nat = None.
Proof.
  split; [reflexivity|]. split; [reflexivity|].
  split; [by vm_compute|]. split; [by vm_compute|].
  split; [reflexivity|]. split; [reflexivity|].
  split; [apply sample_ready; vm_compute; reflexivity|].
  by vm_compute.
Qed.

Lemma names_align_witness :
  exists name face portrait,
    twenty_names !! 1%nat = Some name
    /\ sample_outputs (Some (text_of twenty_names)) false !! 1%nat
       = Some (OsPath.join (lit "out")
                 (sanitize_filename ascii_only name ++ lit "face.png"), face)
    /\ sample_outputs (Some (text_of twenty_names)) false !! 21%nat
       = Some (OsPath.join (lit "out")
                 (sanitize_filename ascii_only name ++ lit ".png"), portrait).
Proof.
  apply (names_align ascii_only true failing_optipng page1 (lit "out") marker_sheet
           twenty_names false (world_with (Some (text_of twenty_names))) 0 1).
  - apply sample_ready. reflexivity.
  - reflexivity.
  - reflexivity.
  - lia.
  - lia.
Defined.

Example named_paths :
  fst <$> sample_outputs (Some (text_of twenty_names)) false !! 1%nat
  = Some (lit "out/Bob_OBrien_2face.png")
  /\ fst <$> sample_outputs (Some (text_of twenty_names)) false !! 21%nat
     = Some (lit "out/Bob_OBrien_2.png").
Proof. by vm_compute. Qed.

(** C3 as stated fails, in the same two ways.  With the three good names
    and a sheet in mode CMYK the first save raises and there is no output
    at all.  In [nameless_three] the second name sanitizes to the empty
    string: the run raises [ValueError] at its portrait, after 21 saves, so
    that the portrait of index 1, below the length of the list, gets no
    file of the name derived from the list, and the portraits of the indexes
    from 3 on get none of the positional names. *)
Lemma short_list_counterexample :
  (length three_names < 20)%nat
  /\ (extract_sprites_from_sheet ascii_only true failing_optipng page1 (lit "out") false
        (world_named cmyk_sheet three_names)).1 = Raise OSError
  /\ saved_since (world_named cmyk_sheet three_names)
       (extract_sprites_from_sheet ascii_only true failing_optipng page1 (lit "out") false
          (world_named cmyk_sheet three_names)).2 = []
  /\ (length nameless_three < 20)%nat
  /\ ready page1 (lit "out") marker_sheet (Some nameless_three)
           (world_with (Some (text_of nameless_three)))
  /\ (sample_run (Some (text_of nameless_three)) false).1 = Raise ValueError
  /\ length (sample_outputs (Some (text_of nameless_three)) false) = 21%nat
  /\ sample_outputs (Some (text_of nameless_three)) false !! (20 + 1)%nat = None
  /\ sample_outputs (Some (text_of nameless_three)) false !! (20 + 6)%nat = None.
Proof.
  split; [cbn; lia|]. split; [by vm_compute|]. split; [by vm_compute|].
  split; [cbn; lia|].
  split; [apply sample_ready; vm_compute; reflexivity|].
  by vm_compute.
Qed.

Lemma short_list_falls_back_witness :
  exists face portrait,
    sample_outputs (Some (text_of three_names)) false !! 6%nat
    = Some (lit "out/npc-sprites-page-1_row1_sprite3.png", face)
    /\ sample_outputs (Some (text_of three_names)) false !! 26%nat
       = Some (lit "out/npc-sprites-page-1_row1_sprite3_portrait.png", portrait).
Proof.
  apply (proj1 (short_list_falls_back ascii_only true failing_optipng page1 (lit "out")
                  marker_sheet three_names false
                  (world_with (Some (text_of three_names))) 1 2
                  (sample_ready (Some (text_of three_names)) (Some three_names) eq_refl)
                  eq_refl ltac:(cbn; lia) ltac:(lia) ltac:(lia))).
  cbn. lia.
Defined.

Example short_list_paths :
  map fst (take 4 (sample_outputs (Some (text_of three_names)) false))
  = map lit [ "out/Adaface.png"; "out/Bobface.png"; "out/Cyface.png";
              "out/npc-sprites-page-1_row0_sprite4.png" ]%string
  /\ map fst (take 4 (drop 20 (sample_outputs (Some (text_of three_names)) false)))
     = map lit [ "out/Ada.png"; "out/Bob.png"; "out/Cy.png";
                 "out/npc-sprites-page-1_row0_sprite4_portrait.png" ]%string.
Proof. by vm_compute. Qed.

Lemma read_names_blank (f : list str) :
  Forall (fun line => PyStr.strip line = []) f -> read_names f = [].
Proof.
  intros Hblank. unfold read_names. induction Hblank as [|line f Hline _ IH]; [done|].
  rewrite filter_cons_False by (by rewrite Hline). exact IH.
Qed.

Section BlankNames.

Variable unicode_isalnum : char -> bool.
Variable optipng_installed : bool.
Variable optipng : list str -> gmap str content -> Z * gmap str content.

Local Abbreviation extract :=
  (extract_sprites_from_sheet unicode_isalnum optipng_installed optipng).

(** C9: when the sidecar file exists but each of its lines is empty or
    blank, [load_character_names] returns the empty list and still prints
    the warning, which reports 0 names.  The empty list is falsy: the run
    reports that no names file was found and that it uses the default
    naming, and then saves its 40 outputs under the positional names, the
    very saves of a run in the world without the sidecar file. *)
Theorem blank_names_file sheet_path out sheet names txt use w :
  ready sheet_path out sheet names w ->
  files w !! names_file sheet_path = Some (Text txt) ->
  names_file sheet_path ∉ dirs w ->
  Forall (fun line => PyStr.strip line = []) (file_lines (universal_newlines txt)) ->
  let absent := mkWorld (delete (names_file sheet_path) (files w)) (dirs w) (trace w) in
  let base := OsPath.splitext_root (OsPath.basename sheet_path) in
  let warning :=
    [EPrint (lit "Warning: Expected 20 names in " ++ names_file sheet_path
             ++ lit ", found 0");
     EPrint (lit "Names should be provided for all 20 characters (5 rows "
             ++ [215] ++ lit " 4 sprites)")] in
  load_character_names sheet_path w
  = (Ok (Some []), mkWorld (files w) (dirs w) (trace w ++ warning))
  /\ names = Some []
  /\ load_character_names sheet_path absent = (Ok None, absent)
  /\ (exists t,
        trace (extract sheet_path out use w).2
        = trace w ++ size_warning sheet ++ warning
          ++ [EPrint (lit "No character names file found (" ++ base ++ lit ".txt)");
              EPrint (lit "Using default naming (row/sprite numbers)");
              EMkdir out] ++ t)
  /\ saved_since w (extract sheet_path out use w).2
     = saved_since absent (extract sheet_path out use absent).2
  /\ map fst (saved_since w (extract sheet_path out use w).2)
     = map (fun s => OsPath.join out (base ++ s)) positional_suffixes.
Proof.
  intros Hready Htxt Hnodir Hblank absent base warning.
  assert (load_character_names sheet_path w
          = (Ok (Some []), count_warning sheet_path 0 w)) as Hload.
  { rewrite (load_present _ _ _ Htxt). by rewrite (read_names_blank _ Hblank). }
  assert (load_character_names sheet_path absent = (Ok None, absent)) as Hload'.
  { apply load_absent; [apply lookup_delete_eq | done]. }
  assert (names = Some []) as ->.
  { pose proof (ready_names _ _ _ _ _ Hready) as Hn. rewrite Hload in Hn.
    by injection Hn. }
  assert (ready sheet_path out sheet None absent) as Hready'.
  { destruct Hready. split; try done.
    - cbn [files absent]. rewrite lookup_delete_ne; [done|]. congruence.
    - by rewrite Hload'.
    - cbn [files absent]. apply lookup_delete_None. by right.
    - cbn [files absent]. eapply Forall_impl; [eassumption|].
      intros a Ha. apply lookup_delete_None. by right. }
  split; [|split; [done|split; [done|split]]].
  - rewrite Hload. unfold count_warning, count_warning_line, emit. cbn [files dirs trace].
    by rewrite <- app_assoc.
  - destruct (extract_trace unicode_isalnum optipng_installed optipng
                sheet_path out sheet (Some []) use w Hready eq_refl)
      as (w2 & -> & Ht & _).
    destruct (finish_extends optipng_installed optipng sheet_path use
                (if use
                 then map (fun item => OsPath.join out item.1)
                       (planned_items unicode_isalnum sheet base (Some []))
                 else []) w2) as [t Hfin].
    fold base. rewrite Hfin, Ht. unfold save_events. fold base.
    assert (load_events sheet_path w = warning) as ->.
    { unfold load_events. rewrite Hload.
      unfold count_warning, count_warning_line, emit. cbn [snd trace].
      by rewrite <- app_assoc, drop_app_length. }
    eexists. rewrite <- !app_assoc. cbn [names_report truthy app]. reflexivity.
  - rewrite (extract_outputs _ _ _ _ _ _ _ _ _ Hready eq_refl),
            (extract_outputs _ _ _ _ _ _ _ _ _ Hready' eq_refl).
    rewrite (planned_falsy unicode_isalnum _ _ _ (Some []) eq_refl).
    split; [done|]. apply planned_positional_paths.
Qed.

End BlankNames.

Lemma blank_names_file_witness :
  load_character_names page1 (world_with (Some blank_text))
  = (Ok (Some []),
     mkWorld (files (world_with (Some blank_text))) ∅
       [EPrint (lit "Warning: Expected 20 names in npc-sprites-page-1.txt, found 0");
        EPrint (lit "Names should be provided for all 20 characters (5 rows "
                ++ [215] ++ lit " 4 sprites)")])
  /\ sample_outputs (Some blank_text) false = sample_outputs None false
  /\ map fst (sample_outputs (Some blank_text) false)
     = map (fun s => lit "out/npc-sprites-page-1" ++ s) positional_suffixes.
Proof.
  destruct (blank_names_file ascii_only true failing_optipng page1 (lit "out")
              marker_sheet (Some []) blank_text false (world_with (Some blank_text)))
    as (Hload & _ & _ & _ & Hsame & Hpaths).
  - apply sample_ready. reflexivity.
  - reflexivity.
  - apply not_elem_of_empty.
  - vm_compute. repeat constructor.
  - split; [exact Hload|]. split; [exact Hsame | exact Hpaths].
Defined.

(** The first lines of that run: the warning, then the report of the falsy
    branch. *)
Example blank_names_report :
  take 4 (trace (sample_run (Some blank_text) false).2)
  = [EPrint (lit "Warning: Expected 20 names in npc-sprites-page-1.txt, found 0");
     EPrint (lit "Names should be provided for all 20 characters (5 rows "
             ++ [215] ++ lit " 4 sprites)");
     EPrint (lit "No character names file found (npc-sprites-page-1.txt)");
     EPrint (lit "Using default naming (row/sprite numbers)")].
Proof. reflexivity. Qed.

Section OptimizerClaims.

Variable unicode_isalnum : char -> bool.
Variable optipng_installed : bool.
Variable optipng : list str -> gmap str content -> Z * gmap str content.

Local Abbreviation optimize := (optimize_png_with_optipng optipng_installed optipng).
Local Abbreviation extract :=
  (extract_sprites_from_sheet unicode_isalnum optipng_installed optipng).

(** C8: with [optipng] installed, a non-zero exit status is caught:
    [optimize_png_with_optipng] returns normally and does nothing to the
    file system beyond what the tool itself did, so a saved file that the
    failing tool left alone is still there; and a run with the optimizer
    that is ready, with names it can use, returns normally whatever the
    exit statuses are.  When every invocation fails and failing
    invocations leave the files as they were, the files after the run are
    those of the saves: each saved path holds an image. *)
Theorem optimizer_failure_ignored :
  optipng_installed = true ->
  (forall file_path w,
     let run := optipng (optipng_argv file_path) (files w) in
     run.1 ≠ 0%Z ->
     optimize file_path w
     = (Ok tt, mkWorld run.2 (dirs w)
                 (trace w ++ [EExec (optipng_argv file_path) run.1]))
     /\ (run.2 !! file_path = files w !! file_path ->
         files (optimize file_path w).2 !! file_path = files w !! file_path))
  /\ (forall sheet_path out sheet names w,
        ready sheet_path out sheet names w -> usable unicode_isalnum names = true ->
        (extract sheet_path out true w).1 = Ok tt)
  /\ (forall sheet_path out sheet names w,
        ready sheet_path out sheet names w -> usable unicode_isalnum names = true ->
        (forall argv fs, (optipng argv fs).1 ≠ 0%Z) ->
        (forall argv fs, (optipng argv fs).1 ≠ 0%Z -> (optipng argv fs).2 = fs) ->
        let r := extract sheet_path out true w in
        r.1 = Ok tt
        /\ files r.2 = files (extract sheet_path out false w).2
        /\ forall p, p ∈ map fst (saved_since w r.2) ->
             exists im, files r.2 !! p = Some (Image im)).
Proof.
  intros Hinst. split; [|split].
  - intros file_path w run Hfail.
    rewrite (optimize_installed optipng_installed optipng file_path w Hinst).
    fold run. split; [reflexivity|]. intros Hleft. cbn [snd]. by rewrite emit_files.
  - intros sheet_path out sheet names w Hready Huse.
    destruct (extract_saves unicode_isalnum optipng_installed optipng
                sheet_path out sheet names true w Hready Huse) as (w2 & -> & _).
    by apply finish_ok.
  - intros sheet_path out sheet names w Hready Huse Hfails Hleaves r. subst r.
    assert (forall argv fs, (optipng argv fs).2 = fs) as Hkeep
      by (intros; apply Hleaves, Hfails).
    rewrite (extract_outputs _ _ _ _ _ _ _ _ _ Hready Huse).
    destruct (extract_plain unicode_isalnum optipng_installed optipng
                sheet_path out sheet names w Hready Huse) as (_ & -> & _).
    destruct (extract_saves unicode_isalnum optipng_installed optipng
                sheet_path out sheet names true w Hready Huse) as (w2 & -> & Hf2 & _).
    rewrite (finish_ok optipng_installed optipng _ _ _ _ Hinst).
    rewrite (finish_files optipng_installed optipng _ _ _ _ Hinst Hkeep), Hf2.
    split; [done|]. split; [done|].
    intros p Hp. by apply write_all_written.
Qed.

End OptimizerClaims.

Lemma optimizer_failure_ignored_witness :
  optimize_png_with_optipng true failing_optipng (lit "out/a.png") (world_with None)
  = (Ok tt, mkWorld (files (world_with None)) ∅
              [EExec (optipng_argv (lit "out/a.png")) 1%Z])
  /\ (sample_run None true).1 = Ok tt
  /\ files (sample_run None true).2 = files (sample_run None false).2.
Proof.
  destruct (optimizer_failure_ignored ascii_only true failing_optipng eq_refl)
    as (Hone & _ & Hall).
  split.
  - apply (Hone (lit "out/a.png") (world_with None)). discriminate.
  - destruct (Hall page1 (lit "out") marker_sheet None (world_with None)
                (sample_ready None None eq_refl) eq_refl
                ltac:(discriminate) ltac:(reflexivity)) as (Hok & Hfiles & _).
    exact (conj Hok Hfiles).
Defined.

(** The trace of a run with the failing optimizer: 40 saves, then 40
    invocations, all reporting status 1. *)
Example failing_optimizer_trace :
  (sample_run None true).1 = Ok tt
  /\ length (sample_outputs None true) = 40%nat
  /\ omap (fun e => match e with EExec _ code => Some code | _ => None end)
          (trace (sample_run None true).2)
     = replicate 40 1%Z.
Proof. by vm_compute. Qed.

Lemma sanitize_filename_idempotent_witness :
  sanitize_filename ascii_only (sanitize_filename ascii_only (lit "Bob O'Brien (2)"))
  = sanitize_filename ascii_only (lit "Bob O'Brien (2)")
  /\ sanitize_filename ascii_only (lit "a_b-9") = lit "a_b-9".
Proof.
  destruct (sanitize_filename_idempotent ascii_only (lit "Bob O'Brien (2)"))
    as (Hidem & _ & Hfix).
  split; [exact Hidem|]. apply Hfix. vm_compute. repeat constructor.
Defined.

(** * Further properties of the script *)

Section SanitizerMore.

Variable unicode_isalnum : char -> bool.
Local Abbreviation sanitize := (sanitize_filename unicode_isalnum).
Local Abbreviation keep := (keep_char unicode_isalnum).

(** X1: an ASCII character of a sanitized name is a digit, a letter, an
    underscore or a hyphen; so the name holds no slash, no dot and no
    space, and cannot name a path outside the directory it is joined to. *)
Theorem sanitize_output_ascii name c :
  c ∈ sanitize name -> c < 128 ->
  (48 <= c <= 57 \/ 65 <= c <= 90 \/ 97 <= c <= 122 \/ c = 95 \/ c = 45)
  /\ c ≠ OsPath.sep /\ c ≠ OsPath.dot /\ c ≠ 32.
Proof.
  intros Hin%sanitize_chars Hascii.
  assert (48 <= c <= 57 \/ 65 <= c <= 90 \/ 97 <= c <= 122 \/ c = 95 \/ c = 45) as Hc.
  { unfold keep_char, isalnum, PyStr.ascii_isalnum in Hin.
    apply N.ltb_lt in Hascii. rewrite Hascii in Hin.
    repeat match type of Hin with
           | (_ || _) = true => apply orb_true_iff in Hin as [Hin|Hin]
           | (_ && _) = true => apply andb_true_iff in Hin as [?%N.leb_le ?%N.leb_le]
           | (_ =? _) = true => apply N.eqb_eq in Hin
           end; lia. }
  split; [exact Hc|]. unfold OsPath.sep, OsPath.dot. lia.
Qed.

(** X2: sanitizing works character by character: the sanitized form of a
    concatenation is the concatenation of the sanitized forms. *)
Theorem sanitize_app a b :
  sanitize_filename unicode_isalnum (a ++ b)
  = sanitize_filename unicode_isalnum a ++ sanitize_filename unicode_isalnum b.
Proof. rewrite !sanitize_unfold. by rewrite map_app, filter_app. Qed.

(** X3: a sanitized name is never longer than the name, and it is empty
    exactly when the name has no space and no character that is kept. *)
Theorem sanitize_empty name :
  (length (sanitize_filename unicode_isalnum name) <= length name)%nat
  /\ (sanitize_filename unicode_isalnum name = []
      <-> Forall (fun c => c ≠ 32 /\ keep_char unicode_isalnum c = false) name).
Proof.
  rewrite sanitize_unfold. split.
  - etrans; [apply length_filter|]. by rewrite length_map.
  - induction name as [|c name IH]; [done|].
    cbn [map]. rewrite Forall_cons. unfold space_to_underscore at 1.
    destruct (N.eqb_spec c 32) as [->|Hc].
    + rewrite filter_cons_True by (by vm_compute). split; [done|]. by intros [[? _] _].
    + destruct (keep c) eqn:E.
      * rewrite filter_cons_True by done. split; [done|]. by intros [[_ ?] _].
      * rewrite filter_cons_False by (by rewrite E). rewrite IH.
        split; [by intros ? | by intros [_ ?]].
Qed.

(** X4: names that differ only in what the sanitizer rewrites or drops
    collide: turning spaces into underscores beforehand, or deleting the
    characters that would be dropped, does not change the result. *)
Theorem sanitize_conflates name :
  sanitize (map space_to_underscore name) = sanitize name
  /\ sanitize (filter (fun c => keep (space_to_underscore c) = true) name) = sanitize name.
Proof.
  rewrite !sanitize_unfold. split.
  - f_equal. rewrite map_map. apply map_ext. intros c.
    unfold space_to_underscore. destruct (N.eqb_spec c 32) as [->|Hc]; [reflexivity|].
    by rewrite (proj2 (N.eqb_neq c 32) Hc).
  - induction name as [|c name IH]; [done|].
    destruct (keep (space_to_underscore c)) eqn:E.
    + rewrite (filter_cons_True _ c) by exact E. cbn [map].
      rewrite !(filter_cons_True _ (space_to_underscore c)) by exact E. by rewrite IH.
    + rewrite (filter_cons_False _ c) by (cbv beta; by rewrite E). cbn [map].
      rewrite (filter_cons_False _ (space_to_underscore c)) by (by rewrite E).
      exact IH.
Qed.

End SanitizerMore.

Lemma sanitize_output_ascii_witness :
  (48 <= 66 <= 57 \/ 65 <= 66 <= 90 \/ 97 <= 66 <= 122 \/ 66 = 95 \/ 66 = 45)
  /\ 66 ≠ OsPath.sep /\ 66 ≠ OsPath.dot /\ 66 ≠ 32.
Proof.
  apply (sanitize_output_ascii ascii_only (lit "Bob O'Brien (2)") 66).
  - vm_compute. left.
  - reflexivity.
Defined.

(** ** The names that are read *)

Lemma lstrip_head s :
  match PyStr.lstrip s with [] => True | c :: _ => PyStr.isspace c = false end.
Proof.
  induction s as [|a s IH]; [done|]. cbn [PyStr.lstrip].
  by destruct (PyStr.isspace a) eqn:E.
Qed.

Lemma lstrip_snoc (l : str) (c : N) :
  PyStr.isspace c = false -> exists x : str, PyStr.lstrip (l ++ [c]) = x ++ [c].
Proof.
  intros Hc. induction l as [|a l IH]; cbn [app PyStr.lstrip].
  - exists []. by rewrite Hc.
  - destruct (PyStr.isspace a); [exact IH|]. by exists (a :: l).
Qed.

Lemma strip_ends s :
  PyStr.strip s ≠ [] ->
  (exists c, head (PyStr.strip s) = Some c /\ PyStr.isspace c = false)
  /\ (exists c, last (PyStr.strip s) = Some c /\ PyStr.isspace c = false).
Proof.
  unfold PyStr.strip, PyStr.rstrip. intros Hne. split.
  - pose proof (lstrip_head s) as Hhd.
    destruct (PyStr.lstrip s) as [|c t]; [done|].
    cbn [rev]. destruct (lstrip_snoc (rev t) c Hhd) as [x ->].
    rewrite rev_app_distr. by exists c.
  - pose proof (lstrip_head (rev (PyStr.lstrip s))) as Hhd.
    destruct (PyStr.lstrip (rev (PyStr.lstrip s))) as [|c t]; [done|].
    exists c. split; [|done]. cbn [rev]. apply last_snoc.
Qed.

(** X5: every name the loader reads is non-empty and begins and ends with
    a character that is not white space; there are at most as many names
    as lines. *)
Theorem read_names_clean (f : list str) :
  (length (read_names f) <= length f)%nat
  /\ Forall (fun name =>
       name ≠ []
       /\ (exists c, head name = Some c /\ PyStr.isspace c = false)
       /\ (exists c, last name = Some c /\ PyStr.isspace c = false))
     (read_names f).
Proof.
  split.
  - unfold read_names. rewrite length_map. apply length_filter.
  - rewrite read_names_trimmed. apply Forall_forall.
    intros name [Hne Hin]%list_elem_of_filter.
    apply list_elem_of_fmap in Hin as (line & -> & _).
    split; [done|]. by apply strip_ends.
Qed.

(** What the loader adds to the trace are printed lines. *)
Lemma load_never_touches sheet_path w :
  exists t, trace (load_character_names sheet_path w).2 = trace w ++ t
            /\ Forall (fun e => exists line, e = EPrint line) t.
Proof.
  unfold load_character_names. fold (names_file sheet_path).
  unfold mbind, M_bind, bind, os_path_exists, open_read_lines.
  assert (exists t, trace w = trace w ++ t
                    /\ Forall (fun e => exists line, e = EPrint line) t) as Hnil
    by (exists []; by rewrite app_nil_r).
  destruct (bool_decide _); cbn [negb]; [|done].
  destruct (files w !! names_file sheet_path) as [[im|txt]|]; [done| |].
  - destruct (length _ =? 20)%nat; cbn [negb]; [done|].
    cbn. eexists. rewrite <- app_assoc. split; [reflexivity|].
    repeat constructor; by eexists.
  - by destruct (bool_decide _).
Qed.

(** X6: whatever it finds, [load_character_names] writes nothing: the
    files and directories are as before, and all it adds to the trace are
    printed lines. *)
Theorem load_never_writes sheet_path w :
  files (load_character_names sheet_path w).2 = files w
  /\ dirs (load_character_names sheet_path w).2 = dirs w
  /\ exists t, trace (load_character_names sheet_path w).2 = trace w ++ t
               /\ Forall (fun e => exists line, e = EPrint line) t.
Proof.
  destruct (load_keeps_disk sheet_path w) as (Hf & Hd & _).
  split; [exact Hf|]. split; [exact Hd|]. apply load_never_touches.
Qed.

(** ** Runs that raise *)

Section Failures.

Variable unicode_isalnum : char -> bool.
Variable optipng_installed : bool.
Variable optipng : list str -> gmap str content -> Z * gmap str content.

Local Abbreviation extract :=
  (extract_sprites_from_sheet unicode_isalnum optipng_installed optipng).
Local Abbreviation optimize := (optimize_png_with_optipng optipng_installed optipng).


(** X8: a directory at the path of the sidecar file makes the loader, and
    with it the run, raise [IsADirectoryError]: [os.path.exists] is true of
    it and [open] fails.  The run stops before [os.makedirs]: files and
    directories are as before and nothing is saved. *)
Theorem sidecar_directory_aborts sheet_path out use sheet w :
  files w !! sheet_path = Some (Image sheet) ->
  files w !! names_file sheet_path = None ->
  names_file sheet_path ∈ dirs w ->
  load_character_names sheet_path w = (Raise IsADirectoryError, w)
  /\ (extract sheet_path out use w).1 = Raise IsADirectoryError
  /\ same_disk w (extract sheet_path out use w).2
  /\ EMkdir out ∉ drop (length (trace w)) (trace (extract sheet_path out use w).2).
Proof.
  intros Hsheet Hf Hd.
  pose proof (load_directory sheet_path w Hf Hd) as Hload.
  split; [done|].
  unfold extract_sprites_from_sheet.
  rewrite (bind_ok _ _ _ _ _ (Image_open_ok _ _ _ Hsheet)).
  destruct (size_warning_step sheet w) as (w0 & Hw0 & Hwarn).
  rewrite (bind_ok _ _ _ _ _ Hwarn).
  destruct (load_result_disk sheet_path w w0 Hw0) as [Hres Hw1].
  destruct (load_never_touches sheet_path w0) as (t1 & Ht1 & Hp1).
  destruct (load_character_names sheet_path w0) as [res w1] eqn:Hl.
  cbn [fst snd] in *. rewrite Hload in Hres. cbn [fst] in Hres. subst res.
  rewrite (bind_raise _ _ _ _ _ Hl). cbn [fst snd].
  split; [done|]. split; [done|].
  assert (exists t0, trace w0 = trace w ++ t0
                     /\ Forall (fun e => exists line, e = EPrint line) t0)
    as (t0 & Ht0 & Hp0).
  { clear -Hwarn. destruct (negb _).
    - injection Hwarn as <-. eexists. split; [reflexivity|].
      repeat constructor. by eexists.
    - injection Hwarn as <-. exists []. by rewrite app_nil_r. }
  rewrite Ht1, Ht0, <- app_assoc, drop_app_length.
  intros [Hin|Hin]%elem_of_app.
  - by destruct (proj1 (Forall_forall _ _) Hp0 _ Hin).
  - by destruct (proj1 (Forall_forall _ _) Hp1 _ Hin).
Qed.

Lemma os_makedirs_raises p w :
  p = [] \/ is_Some (files w !! p) ->
  os_makedirs p w
  = (Raise (if PyStr.is_empty p then FileNotFoundError else FileExistsError),
     emit (EMkdir p) w).
Proof.
  intros Hp. unfold os_makedirs. destruct p as [|c p]; [done|].
  destruct Hp as [|Hp]; [done|]. cbn [PyStr.is_empty].
  by rewrite emit_files, bool_decide_eq_true_2.
Qed.

Lemma os_makedirs_blocked p a w :
  p ≠ [] -> files w !! p = None -> OsPath.fits p = true ->
  a ∈ OsPath.ancestors p -> is_Some (files w !! a) ->
  os_makedirs p w = (Raise NotADirectoryError, emit (EMkdir p) w).
Proof.
  intros Hp Hf Hfits Ha Hfile. unfold os_makedirs. destruct p as [|c p]; [done|].
  cbn [PyStr.is_empty]. rewrite emit_files, Hf, Hfits.
  rewrite bool_decide_eq_false_2 by (by intros [? [=]]). cbn [negb].
  replace (existsb _ _) with true; [done|].
  symmetry. apply existsb_exists. exists a. split; [by apply list_elem_of_In|].
  by apply bool_decide_eq_true_2.
Qed.

(** X9: when the output directory has the empty name, or its name is that
    of an existing file, [os.makedirs] raises ([FileNotFoundError] for the
    empty name, [FileExistsError] otherwise) and the run ends there, after
    its first messages: files and directories are as before and nothing is
    saved. *)
Theorem makedirs_failure_aborts sheet_path out use sheet names w :
  files w !! sheet_path = Some (Image sheet) ->
  (load_character_names sheet_path w).1 = Ok names ->
  out = [] \/ is_Some (files w !! out) ->
  (extract sheet_path out use w).1
  = Raise (if PyStr.is_empty out then FileNotFoundError else FileExistsError)
  /\ same_disk w (extract sheet_path out use w).2.
Proof.
  intros Hsheet Hnames Hout.
  unfold extract_sprites_from_sheet.
  rewrite (bind_ok _ _ _ _ _ (Image_open_ok _ _ _ Hsheet)).
  destruct (size_warning_step sheet w) as (w0 & Hw0 & Hwarn).
  rewrite (bind_ok _ _ _ _ _ Hwarn).
  destruct (load_result_disk sheet_path w w0 Hw0) as [Hres Hw1].
  destruct (load_character_names sheet_path w0) as [res w1] eqn:Hl.
  cbn [fst snd] in *. rewrite Hnames in Hres. subst res.
  rewrite (bind_ok _ _ _ _ _ Hl).
  destruct (names_report_step
              (OsPath.splitext_root (OsPath.basename sheet_path)) names w w1 Hw1)
    as (w3 & (Hf3 & Hd3 & Ht3) & Hmsg).
  rewrite (bind_ok _ _ _ _ _ Hmsg).
  rewrite (bind_raise _ _ _ _ _ (os_makedirs_raises out w3
             ltac:(destruct Hout; [by left | right; by rewrite Hf3]))).
  cbn [fst snd]. split; [done|]. repeat split.
  - by rewrite emit_files.
  - by rewrite emit_dirs.
  - cbn. by rewrite saves_app, app_nil_r.
Qed.

(** X18: a file at a directory above the output directory makes
    [os.makedirs] raise [NotADirectoryError]: the run ends there, after its
    first messages, with files and directories as before and nothing
    saved. *)
Theorem parent_file_aborts sheet_path out use sheet names a w :
  files w !! sheet_path = Some (Image sheet) ->
  (load_character_names sheet_path w).1 = Ok names ->
  OsPath.canonical out = true -> files w !! out = None -> OsPath.fits out = true ->
  a ∈ OsPath.ancestors out -> is_Some (files w !! a) ->
  (extract sheet_path out use w).1 = Raise NotADirectoryError
  /\ same_disk w (extract sheet_path out use w).2.
Proof.
  intros Hsheet Hnames Hout%canonical_nonempty Hfree Hfits Ha Hfile.
  unfold extract_sprites_from_sheet.
  rewrite (bind_ok _ _ _ _ _ (Image_open_ok _ _ _ Hsheet)).
  destruct (size_warning_step sheet w) as (w0 & Hw0 & Hwarn).
  rewrite (bind_ok _ _ _ _ _ Hwarn).
  destruct (load_result_disk sheet_path w w0 Hw0) as [Hres Hw1].
  destruct (load_character_names sheet_path w0) as [res w1] eqn:Hl.
  cbn [fst snd] in *. rewrite Hnames in Hres. subst res.
  rewrite (bind_ok _ _ _ _ _ Hl).
  destruct (names_report_step
              (OsPath.splitext_root (OsPath.basename sheet_path)) names w w1 Hw1)
    as (w3 & (Hf3 & Hd3 & Ht3) & Hmsg).
  rewrite (bind_ok _ _ _ _ _ Hmsg).
  rewrite (bind_raise _ _ _ _ _ (os_makedirs_blocked out a w3 Hout
             ltac:(by rewrite Hf3) Hfits Ha ltac:(by rewrite Hf3))).
  cbn [fst snd]. split; [done|]. repeat split.
  - by rewrite emit_files.
  - by rewrite emit_dirs.
  - cbn. by rewrite saves_app, app_nil_r.
Qed.

(** The first iteration of the loop over the faces decides for the loop
    when it raises. *)
Lemma face_loop_first sheet base out names use st e w w' :
  face_body unicode_isalnum sheet base out names use 0 0 (0 * 32) (0, 0, lit "1")%nat st w
  = (Raise e, w') ->
  face_loop unicode_isalnum sheet base out names use st w = (Raise e, w').
Proof.
  intros Hbody. unfold face_loop. cbn [for_each seq sprite_positions].
  by rewrite (bind_raise _ _ _ _ _ (bind_raise _ _ _ _ _ Hbody)).
Qed.

(** X19: a sheet that opens but whose pixels do not load (a file cut short
    behind its header) stops the run at its first crop, with [OSError]: by
    then the messages are printed and the output directory is made, but
    nothing is saved. *)
Theorem damaged_sheet_aborts sheet_path out use sheet names w :
  files w !! sheet_path = Some (Image sheet) -> loadable sheet = false ->
  (load_character_names sheet_path w).1 = Ok names ->
  OsPath.canonical out = true -> OsPath.fits out = true -> files w !! out = None ->
  Forall (fun a => files w !! a = None) (OsPath.ancestors out) ->
  let r := extract sheet_path out use w in
  r.1 = Raise OSError
  /\ files r.2 = files w
  /\ dirs r.2 = made_dirs out ∪ dirs w
  /\ saves (trace r.2) = saves (trace w)
  /\ EMkdir out ∈ trace r.2.
Proof.
  intros Hsheet Hbad Hnames Hcan Hfits Hfree Hup.
  unfold extract_sprites_from_sheet.
  rewrite (bind_ok _ _ _ _ _ (Image_open_ok _ _ _ Hsheet)).
  destruct (size_warning_step sheet w) as (w0 & Hw0 & Hwarn).
  rewrite (bind_ok _ _ _ _ _ Hwarn).
  destruct (load_result_disk sheet_path w w0 Hw0) as [Hres Hw1].
  destruct (load_character_names sheet_path w0) as [res w1] eqn:Hl.
  cbn [fst snd] in *. rewrite Hnames in Hres. subst res.
  rewrite (bind_ok _ _ _ _ _ Hl).
  destruct (names_report_step
              (OsPath.splitext_root (OsPath.basename sheet_path)) names w w1 Hw1)
    as (w3 & (Hf3 & Hd3 & Ht3) & Hmsg).
  rewrite (bind_ok _ _ _ _ _ Hmsg).
  rewrite (bind_ok _ _ _ _ _ (os_makedirs_ok out w3 Hcan Hfits
             ltac:(by rewrite Hf3) ltac:(by rewrite Hf3))).
  rewrite !bind_print.
  erewrite bind_raise; cycle 1.
  { apply face_loop_first. unfold face_body, Image_crop. rewrite Hbad. reflexivity. }
  cbn [fst snd]. split; [done|].
  rewrite !emit_files, !emit_dirs, !emit_print_saves. cbn [files dirs trace].
  rewrite Hf3, Hd3, saves_app, Ht3, app_nil_r.
  repeat split. unfold emit. cbn [trace].
  rewrite !elem_of_app, !list_elem_of_singleton. tauto.
Qed.

Lemma Image_save_refused im p w :
  png_writable (mode im) = false ->
  exists e w', Image_save im p w = (Raise e, w') /\ trace w' = trace w.
Proof.
  intros Hmode. destruct (Image_save_cases im p w) as [Hok|Hraise]; [|done].
  exfalso. unfold Image_save in Hok. rewrite Hmode in Hok.
  destruct (saves_as_png p); cbn [negb] in Hok; [|done].
  destruct (bool_decide _); [done|].
  by destruct (OsPath.fits p).
Qed.

Lemma face_body_refused sheet base out names use row x y pos st w :
  png_writable (mode sheet) = false ->
  exists e w',
    face_body unicode_isalnum sheet base out names use row x y pos st w = (Raise e, w')
    /\ trace w' = trace w.
Proof.
  intros Hmode. destruct pos as [[offset_x offset_y] sprite_num], st as [i opt].
  unfold face_body, Image_crop.
  destruct (loadable sheet); [|by eexists _, _].
  rewrite bind_ret.
  destruct (truthy names && (i <? len_names names)%nat) eqn:E.
  - apply name_choice_true in E as (name & _ & ->). rewrite !bind_ret.
    match goal with |- context [Image_save ?im ?p] =>
      destruct (Image_save_refused im p w Hmode) as (e & w' & Hs & Ht) end.
    exists e, w'. by rewrite (bind_raise _ _ _ _ _ Hs).
  - rewrite !bind_ret.
    match goal with |- context [Image_save ?im ?p] =>
      destruct (Image_save_refused im p w Hmode) as (e & w' & Hs & Ht) end.
    exists e, w'. by rewrite (bind_raise _ _ _ _ _ Hs).
Qed.

(** X20: a sheet in a mode that PNG cannot store (CMYK, as a JPEG may be)
    is never extracted: whatever the world, the run raises, at the latest
    when it saves the first face, and has saved nothing. *)
Theorem unstorable_mode_saves_nothing sheet_path out use sheet w :
  files w !! sheet_path = Some (Image sheet) ->
  png_writable (mode sheet) = false ->
  (exists e, (extract sheet_path out use w).1 = Raise e)
  /\ saved_since w (extract sheet_path out use w).2 = [].
Proof.
  intros Hsheet Hmode.
  destruct (load_character_names sheet_path w).1 as [names|e] eqn:Hnames.
  2: { destruct (extract_load_raises unicode_isalnum optipng_installed optipng
                   sheet_path out sheet use e w Hsheet Hnames) as [He Hnone].
       split; [by exists e|exact Hnone]. }
  unfold extract_sprites_from_sheet.
  rewrite (bind_ok _ _ _ _ _ (Image_open_ok _ _ _ Hsheet)).
  destruct (size_warning_step sheet w) as (w0 & Hw0 & Hwarn).
  rewrite (bind_ok _ _ _ _ _ Hwarn).
  destruct (load_result_disk sheet_path w w0 Hw0) as [Hres Hw1].
  destruct (load_character_names sheet_path w0) as [res w1] eqn:Hl.
  cbn [fst snd] in *. rewrite Hnames in Hres. subst res.
  rewrite (bind_ok _ _ _ _ _ Hl).
  destruct (names_report_step
              (OsPath.splitext_root (OsPath.basename sheet_path)) names w w1 Hw1)
    as (w3 & (Hf3 & Hd3 & Ht3) & Hmsg).
  rewrite (bind_ok _ _ _ _ _ Hmsg).
  unfold saved_since.
  destruct (os_makedirs_cases out w3) as [Hmk|[e Hmk]].
  - rewrite (bind_ok _ _ _ _ _ Hmk), !bind_print.
    match goal with |- context [(face_loop _ ?sh ?b ?o ?n ?u ?st ≫= _) ?wm] =>
      destruct (face_body_refused sh b o n u 0 0 (0 * 32) (0, 0, lit "1")%nat st wm Hmode)
        as (e & w' & Hbody & Ht);
      rewrite (bind_raise _ _ _ _ _ (face_loop_first sh b o n u st e wm w' Hbody))
    end.
    cbn [fst snd]. split; [by exists e|].
    rewrite Ht. unfold emit. cbn [trace].
    rewrite !saves_app, Ht3. cbn. by rewrite !app_nil_r, drop_all.
  - rewrite (bind_raise _ _ _ _ _ Hmk). cbn [fst snd]. split; [by exists e|].
    cbn. by rewrite saves_app, app_nil_r, Ht3, drop_all.
Qed.

Lemma planned_items_length sheet base names :
  length (planned_items unicode_isalnum sheet base names) = 40%nat.
Proof. reflexivity. Qed.

(** X10: only [CalledProcessError] is caught.  Without an [optipng]
    binary, [optimize_png_with_optipng] raises [FileNotFoundError] and
    leaves the world as it is; a run asked to optimise that is ready, with
    names it can use, then raises after its 40 saves, the files being those
    of the run without the optimizer. *)
Theorem missing_optipng_uncaught :
  optipng_installed = false ->
  (forall file_path w, optimize file_path w = (Raise FileNotFoundError, w))
  /\ (forall sheet_path out sheet names w,
        ready sheet_path out sheet names w -> usable unicode_isalnum names = true ->
        (extract sheet_path out true w).1 = Raise FileNotFoundError
        /\ length (saved_since w (extract sheet_path out true w).2) = 40%nat
        /\ files (extract sheet_path out true w).2
           = files (extract sheet_path out false w).2).
Proof.
  intros Hinst.
  assert (forall file_path w, optimize file_path w = (Raise FileNotFoundError, w)) as Hopt.
  { intros file_path w.
    unfold optimize_png_with_optipng, try_except, mbind, M_bind, bind,
      subprocess_run_checked.
    by rewrite Hinst. }
  split; [exact Hopt|].
  intros sheet_path out sheet names w Hready Huse.
  rewrite (extract_outputs _ _ _ _ _ _ _ _ _ Hready Huse).
  destruct (extract_plain unicode_isalnum optipng_installed optipng
              sheet_path out sheet names w Hready Huse) as (_ & -> & _).
  destruct (extract_saves unicode_isalnum optipng_installed optipng
              sheet_path out sheet names true w Hready Huse) as (w2 & -> & Hf2 & _).
  pose proof (planned_items_length sheet
                (OsPath.splitext_root (OsPath.basename sheet_path)) names) as Hlen.
  destruct (planned_items unicode_isalnum sheet _ names) as [|item items] eqn:E;
    [discriminate|].
  rewrite <- E in Hf2.
  assert (exists w3, finish optipng_installed optipng sheet_path true
                       (map (fun it => OsPath.join out it.1) (item :: items)) w2
                     = (Raise FileNotFoundError, w3) /\ files w3 = files w2)
    as (w3 & -> & Hf3).
  { unfold finish, optimize_pass. cbn [map andb negb].
    unfold mbind, M_bind, bind. unfold print at 1. cbv beta iota.
    cbn [for_each]. unfold mbind, M_bind, bind. rewrite Hopt.
    eexists. split; [reflexivity|]. by rewrite emit_files. }
  cbn [fst snd]. rewrite Hf3.
  split; [done|]. split; [reflexivity|exact Hf2].
Qed.

(** X21: whatever the world and wherever a run stops, what it has saved is
    an initial segment of its forty planned outputs: no file is written out
    of order, under another name or with other pixels; and nothing is saved
    when the sheet does not open or the name loader raises. *)
Theorem saves_follow_plan sheet_path out use w :
  (forall sheet names,
     files w !! sheet_path = Some (Image sheet) ->
     (load_character_names sheet_path w).1 = Ok names ->
     saved_since w (extract sheet_path out use w).2
     `prefix_of` planned_outputs unicode_isalnum sheet
                   (OsPath.splitext_root (OsPath.basename sheet_path)) out names)
  /\ (forall sheet e,
        files w !! sheet_path = Some (Image sheet) ->
        (load_character_names sheet_path w).1 = Raise e ->
        saved_since w (extract sheet_path out use w).2 = [])
  /\ ((forall im, files w !! sheet_path ≠ Some (Image im)) ->
      saved_since w (extract sheet_path out use w).2 = []).
Proof.
  split; [|split].
  - intros sheet names Hsheet Hnames. by apply extract_prefix.
  - intros sheet e Hsheet Hload.
    by destruct (extract_load_raises unicode_isalnum optipng_installed optipng
                   sheet_path out sheet use e w Hsheet Hload).
  - intros Hno. destruct (Image_open_fails sheet_path w Hno) as (e & He & _).
    unfold extract_sprites_from_sheet. rewrite (bind_raise _ _ _ _ _ He).
    unfold saved_since. cbn [snd]. by rewrite drop_all.
Qed.

End Failures.

(** ** Which names matter *)

Section FirstTwenty.

Variable unicode_isalnum : char -> bool.
Variable optipng_installed : bool.
Variable optipng : list str -> gmap str content -> Z * gmap str content.

Local Abbreviation extract :=
  (extract_sprites_from_sheet unicode_isalnum optipng_installed optipng).

Lemma slot_recompose i : (i / 4 * 4 + i mod 4 = i)%nat.
Proof. rewrite (Nat.div_mod_eq i 4) at 3. lia. Qed.

(** X11: the outputs of a sheet depend on the name list only through its
    first 20 entries: two runs on the same sheet, both ready, whose lists
    agree there on names the run can use, save the same files with the same
    contents.  A 21st name and those after it are never used, whatever they
    are. *)
Theorem only_first_twenty sheet_path out sheet names1 names2 use1 use2 w1 w2 :
  ready sheet_path out sheet names1 w1 ->
  ready sheet_path out sheet names2 w2 ->
  usable unicode_isalnum names1 = true ->
  (forall i, (i < 20)%nat -> name_of names1 i = name_of names2 i) ->
  usable unicode_isalnum names2 = true
  /\ saved_since w1 (extract sheet_path out use1 w1).2
     = saved_since w2 (extract sheet_path out use2 w2).2.
Proof.
  intros Hr1 Hr2 Huse1 Hagree.
  assert (usable unicode_isalnum names2 = true) as Huse2.
  { unfold usable in *.
    replace (take 20 (default [] names2)) with (take 20 (default [] names1)); [done|].
    apply list_eq. intros i. destruct (decide (i < 20)%nat) as [Hi|Hi].
    - rewrite !lookup_take_lt by done. specialize (Hagree i Hi).
      by destruct names1, names2.
    - by rewrite !lookup_take_ge by lia. }
  split; [exact Huse2|].
  rewrite (extract_outputs _ _ _ _ _ _ _ _ _ Hr1 Huse1),
          (extract_outputs _ _ _ _ _ _ _ _ _ Hr2 Huse2).
  unfold planned_outputs, planned_items. do 2 f_equal.
  - apply map_ext_in. intros i Hi%in_seq.
    unfold face_item, face_filename.
    by rewrite slot_recompose, Hagree by lia.
  - apply map_ext_in. intros i Hi%in_seq.
    unfold portrait_item, portrait_filename.
    replace (i / 4 * 4 + (i mod 4 + 1 - 1))%nat with i
      by (pose proof (slot_recompose i); lia).
    by rewrite Hagree by lia.
Qed.

End FirstTwenty.

Lemma only_first_twenty_witness :
  usable ascii_only (Some twenty_names) = true
  /\ sample_outputs (Some (text_of twentyone_names)) false
     = sample_outputs (Some (text_of twenty_names)) false.
Proof.
  apply (only_first_twenty ascii_only true failing_optipng page1 (lit "out") marker_sheet
           (Some twentyone_names) (Some twenty_names) false false
           (world_with (Some (text_of twentyone_names)))
           (world_with (Some (text_of twenty_names)))).
  - apply sample_ready. reflexivity.
  - apply sample_ready. reflexivity.
  - reflexivity.
  - intros i Hi. unfold twentyone_names. cbn [name_of].
    apply lookup_app_l. cbn. lia.
Defined.

(** ** The transcript of a run *)

Section TranscriptFacts.

Variable unicode_isalnum : char -> bool.
Variable optipng_installed : bool.
Variable optipng : list str -> gmap str content -> Z * gmap str content.

Local Abbreviation extract :=
  (extract_sprites_from_sheet unicode_isalnum optipng_installed optipng).
Local Abbreviation optimize := (optimize_png_with_optipng optipng_installed optipng).

(** X12: the whole trace of a run without the optimizer: the size warning
    if the sheet is not 160 by 160, what the loader prints, the report on
    the names, one [os.makedirs], then for each of the 20 faces and, after
    them, each of the 20 portraits a save followed by the line reporting it,
    and the closing line. *)
Theorem plain_run_transcript sheet_path out sheet names w :
  ready sheet_path out sheet names w ->
  usable unicode_isalnum names = true ->
  extract sheet_path out false w
  = (Ok tt,
     mkWorld
       (write_all (planned_outputs unicode_isalnum sheet
                     (OsPath.splitext_root (OsPath.basename sheet_path)) out names)
                  (files w))
       (made_dirs out ∪ dirs w)
       (trace w ++ save_events unicode_isalnum sheet_path out sheet names w
        ++ [EPrint (lit "Extraction complete for " ++ sheet_path ++ lit "!")])).
Proof.
  intros Hready Huse.
  destruct (extract_trace unicode_isalnum optipng_installed optipng
              sheet_path out sheet names false w Hready Huse)
    as (w2 & -> & Ht & Hf & Hd).
  rewrite finish_plain. unfold emit. rewrite Ht, Hf, Hd.
  by rewrite <- app_assoc.
Qed.

Lemma optimize_loop_trace l w :
  optipng_installed = true ->
  for_each l (fun file_path (_ : unit) => optimize file_path) tt w
  = (Ok tt, mkWorld (exec_files optipng l (files w)) (dirs w)
              (trace w ++ exec_events optipng l (files w))).
Proof.
  intros Hinst. revert w. induction l as [|p l IH]; intros w.
  - cbn. rewrite app_nil_r. by destruct w.
  - cbn [for_each]. rewrite (bind_ok _ _ _ _ _ (optimize_installed _ _ p w Hinst)).
    rewrite IH. unfold emit. cbn [files dirs trace exec_events exec_files foldl].
    by rewrite <- app_assoc.
Qed.

(** X13: the whole trace of a run with the optimizer installed: after the
    events of the 40 saves, one line announcing 40 files, then one
    [optipng -o2 -quiet path] per saved path, in the order of the saves and
    each on the files its predecessor left, then the two closing lines.  No
    invocation precedes a save, and the exit statuses change nothing. *)
Theorem optimized_run_transcript sheet_path out sheet names w :
  optipng_installed = true ->
  ready sheet_path out sheet names w ->
  usable unicode_isalnum names = true ->
  let outs := planned_outputs unicode_isalnum sheet
                (OsPath.splitext_root (OsPath.basename sheet_path)) out names in
  extract sheet_path out true w
  = (Ok tt,
     mkWorld
       (exec_files optipng (map fst outs) (write_all outs (files w)))
       (made_dirs out ∪ dirs w)
       (trace w ++ save_events unicode_isalnum sheet_path out sheet names w
        ++ [EPrint (lit "Optimizing 40 files with optipng...")]
        ++ exec_events optipng (map fst outs) (write_all outs (files w))
        ++ [EPrint (lit "Optimization complete!");
            EPrint (lit "Extraction complete for " ++ sheet_path ++ lit "!")])).
Proof.
  intros Hinst Hready Huse outs.
  destruct (extract_trace unicode_isalnum optipng_installed optipng
              sheet_path out sheet names true w Hready Huse)
    as (w2 & -> & Ht & Hf & Hd).
  set (items := planned_items unicode_isalnum sheet
                  (OsPath.splitext_root (OsPath.basename sheet_path)) names) in *.
  assert (map (fun item => OsPath.join out item.1) items = map fst outs) as ->.
  { subst outs. unfold planned_outputs. fold items. by rewrite map_map. }
  assert (length (map fst outs) = 40%nat) as Hlen
    by (by rewrite length_map).
  unfold finish, optimize_pass.
  destruct (map fst outs) as [|p ps] eqn:E; [discriminate|].
  cbn [andb negb]. rewrite Hlen.
  unfold mbind at 1, M_bind at 1, bind at 1.
  unfold mbind at 1, M_bind at 1, bind at 1.
  unfold print at 1. cbv beta iota.
  unfold mbind at 1, M_bind at 1, bind at 1.
  rewrite optimize_loop_trace by done. cbv beta iota.
  unfold print, emit. cbn [files dirs trace].
  subst outs. unfold planned_outputs. fold items. rewrite Ht, Hf, Hd.
  by rewrite <- !app_assoc.
Qed.

End TranscriptFacts.

(** ** The driver *)

Lemma insert_sorted_elem x y l : x ∈ PyStr.insert_sorted y l <-> x = y \/ x ∈ l.
Proof.
  induction l as [|z l IH]; cbn [PyStr.insert_sorted].
  - rewrite list_elem_of_singleton, elem_of_nil. tauto.
  - destruct (PyStr.leb y z).
    + by rewrite elem_of_cons.
    + rewrite !elem_of_cons, IH. tauto.
Qed.

Lemma sorted_elem x l : x ∈ PyStr.sorted l <-> x ∈ l.
Proof.
  unfold PyStr.sorted. induction l as [|y l IH]; [done|].
  cbn [foldr]. by rewrite insert_sorted_elem, elem_of_cons, IH.
Qed.

Lemma cwd_entry_no_sep w s : s ∈ cwd_entries w -> OsPath.sep ∉ s.
Proof.
  unfold cwd_entries. intros [Hs _]%list_elem_of_filter. by apply rfind_None.
Qed.

Lemma join_has_sep out name : out ≠ [] -> OsPath.sep ∈ OsPath.join out name.
Proof.
  intros Hout. unfold OsPath.join.
  destruct (PyStr.startswith name [OsPath.sep]) eqn:E.
  - by apply startswith_head.
  - destruct out as [|a out']; [done|]. cbn [PyStr.is_empty orb].
    destruct (PyStr.endswith (a :: out') [OsPath.sep]) eqn:E2.
    + apply elem_of_app. left. by apply endswith_sep.
    + rewrite !elem_of_app. right. left. apply list_elem_of_singleton. reflexivity.
Qed.

Lemma write_all_other outs fs p :
  p ∉ map fst outs -> write_all outs fs !! p = fs !! p.
Proof.
  induction outs as [|o outs IH] using rev_ind; [done|].
  rewrite map_app, write_all_snoc. cbn [map].
  intros Hnot. rewrite lookup_insert_ne.
  - apply IH. intros Hin. apply Hnot, elem_of_app. by left.
  - intros <-. apply Hnot, elem_of_app. right. by apply list_elem_of_singleton.
Qed.

Lemma load_result_local sheet_path w w' :
  files w' !! names_file sheet_path = files w !! names_file sheet_path ->
  (names_file sheet_path ∈ dirs w' <-> names_file sheet_path ∈ dirs w) ->
  (load_character_names sheet_path w').1 = (load_character_names sheet_path w).1.
Proof.
  intros Hf Hd. unfold load_character_names. fold (names_file sheet_path).
  unfold mbind, M_bind, bind, os_path_exists, open_read_lines.
  rewrite Hf.
  rewrite (bool_decide_ext (is_Some (files w !! names_file sheet_path)
                            \/ names_file sheet_path ∈ dirs w')
                           (is_Some (files w !! names_file sheet_path)
                            \/ names_file sheet_path ∈ dirs w)) by (by rewrite Hd).
  destruct (bool_decide _); cbn [negb]; [|reflexivity].
  cbv beta iota. rewrite Hf.
  destruct (files w !! names_file sheet_path) as [[im|txt]|]; [reflexivity| |].
  - destruct (negb _); reflexivity.
  - rewrite (bool_decide_ext (names_file sheet_path ∈ dirs w')
                             (names_file sheet_path ∈ dirs w)) by done.
    destruct (bool_decide _); reflexivity.
Qed.

Section Driver.

Variable unicode_isalnum : char -> bool.
Variable optipng_installed : bool.
Variable optipng : list str -> gmap str content -> Z * gmap str content.

Local Abbreviation extract :=
  (extract_sprites_from_sheet unicode_isalnum optipng_installed optipng).
Local Abbreviation planned := (planned_outputs unicode_isalnum).
Local Abbreviation run_main := (main unicode_isalnum optipng_installed optipng).

(** The output paths lie strictly below the output directory. *)
Lemma planned_paths sheet base out names p :
  OsPath.sep ∉ base -> OsPath.canonical out = true ->
  p ∈ map fst (planned sheet base out names) ->
  exists name, p = out ++ OsPath.sep :: name.
Proof.
  intros Hbase Hout Hin. unfold planned_outputs in Hin. rewrite map_map in Hin.
  apply list_elem_of_fmap in Hin as (item & -> & Hitem). cbn [in_dir fst].
  assert (PyStr.startswith item.1 [OsPath.sep] = false) as Hstart.
  { unfold planned_items in Hitem.
    apply elem_of_app in Hitem as [Hitem|Hitem];
      apply list_elem_of_fmap in Hitem as (i & -> & _); cbn [fst].
    - unfold face_item, face_filename. cbn [fst].
      destruct (name_of names _).
      + by apply named_startswith.
      + by apply startswith_sep_app.
    - unfold portrait_item, portrait_filename. cbn [fst].
      destruct (name_of names _).
      + by apply named_startswith.
      + by apply startswith_sep_app. }
  exists item.1. by apply join_canonical.
Qed.

Lemma planned_paths_apart sheet base out names p :
  OsPath.sep ∉ base -> OsPath.canonical out = true ->
  p ∈ map fst (planned sheet base out names) ->
  OsPath.sep ∈ p /\ p ≠ out /\ p ∉ OsPath.ancestors out.
Proof.
  intros Hbase Hout [name ->]%planned_paths; [|done..]. split; [|split].
  - rewrite elem_of_app, elem_of_cons. right. by left.
  - intros Heq%(f_equal length). rewrite length_app in Heq. cbn [length] in Heq. lia.
  - intros (r & _ & Hr%(f_equal length))%ancestors_prefix.
    rewrite !length_app in Hr. cbn [length] in Hr. lia.
Qed.

(** A run that returns, with the optimizer as [main] sets it. *)
Lemma extract_returns sheet_path out sheet names use w :
  ready sheet_path out sheet names w ->
  usable unicode_isalnum names = true ->
  (use = true -> optipng_installed = true /\ forall argv fs, (optipng argv fs).2 = fs) ->
  let r := extract sheet_path out use w in
  r.1 = Ok tt
  /\ files r.2
     = write_all (planned sheet (OsPath.splitext_root (OsPath.basename sheet_path)) out names)
                 (files w)
  /\ dirs r.2 = made_dirs out ∪ dirs w
  /\ saves (trace r.2)
     = saves (trace w)
       ++ planned sheet (OsPath.splitext_root (OsPath.basename sheet_path)) out names.
Proof.
  intros Hready Huse Htool.
  destruct (extract_saves unicode_isalnum optipng_installed optipng
              sheet_path out sheet names use w Hready Huse) as (w2 & Heq & Hf & Hd & Hs).
  cbv zeta. rewrite Heq.
  destruct (finish_keeps optipng_installed optipng sheet_path use
              (if use
               then map (fun item => OsPath.join out item.1)
                     (planned_items unicode_isalnum sheet
                        (OsPath.splitext_root (OsPath.basename sheet_path)) names)
               else []) w2) as [Hq Hqd].
  rewrite Hq, Hqd, Hs, Hd.
  destruct use.
  - destruct (Htool eq_refl) as [Hinst Hkeep].
    rewrite (finish_ok optipng_installed optipng _ _ _ _ Hinst).
    by rewrite (finish_files optipng_installed optipng _ _ _ _ Hinst Hkeep), Hf.
  - rewrite finish_plain. cbn [fst snd]. by rewrite emit_files, Hf.
Qed.

(** Readiness depends on the world only through the sheet, the sidecar
    path, the output directory and what lies above and below it. *)
Lemma ready_transfer sheet_path out sheet names w w' :
  ready sheet_path out sheet names w ->
  files w' !! sheet_path = files w !! sheet_path ->
  files w' !! names_file sheet_path = files w !! names_file sheet_path ->
  (names_file sheet_path ∈ dirs w' <-> names_file sheet_path ∈ dirs w) ->
  files w' !! out = None ->
  Forall (fun a => files w' !! a = None) (OsPath.ancestors out) ->
  no_subdir out w' ->
  ready sheet_path out sheet names w'.
Proof.
  intros Hready Hs Hn Hd Hfree' Hup' Hdirs'. destruct Hready.
  split; [by rewrite Hs|done|done| |done..].
  by rewrite (load_result_local sheet_path w w' Hn Hd).
Qed.

Lemma names_file_no_sep s : OsPath.sep ∉ s -> OsPath.sep ∉ names_file s.
Proof.
  intros Hs. unfold names_file. intros [Hin|Hin]%elem_of_app.
  - by apply Hs, splitext_root_chars.
  - apply list_elem_of_In in Hin. vm_compute in Hin. intuition discriminate.
Qed.

(** The loop of [main] over sheets that are all ready to begin with: every
    one is processed, since no run touches what a later one needs. *)
Lemma batch_loop out sheet_of names_of l w :
  (forall s, s ∈ l ->
     ready s out (sheet_of s) (names_of s) w
     /\ usable unicode_isalnum (names_of s) = true
     /\ (OsPath.sep ∉ s) /\ names_file s ∉ made_dirs out) ->
  (optipng_installed = true -> forall argv fs, (optipng argv fs).2 = fs) ->
  let r := for_each l
             (fun sheet_path (_ : unit) =>
                (extract sheet_path out optipng_installed;; print [])) tt w in
  r.1 = Ok tt
  /\ saves (trace r.2)
     = saves (trace w)
       ++ flat_map (fun s => planned (sheet_of s)
                               (OsPath.splitext_root (OsPath.basename s)) out (names_of s)) l.
Proof.
  intros Hall Htool. revert w Hall. induction l as [|s l IH]; intros w Hall.
  - cbn. by rewrite app_nil_r.
  - destruct (Hall s) as (Hready & Huse & Hsep & Hnf); [left|].
    destruct (extract_returns s out (sheet_of s) (names_of s) optipng_installed w
                Hready Huse) as (Hok & Hf & Hd & Hs).
    { intros Hinst. split; [exact Hinst | by apply Htool]. }
    cbn [for_each flat_map].
    destruct (extract s out optipng_installed w) as [res w1] eqn:Hrun.
    cbn [fst snd] in Hok, Hf, Hd, Hs. subst res.
    rewrite (bind_ok _ _ _ _ _
               (bind_ok _ (fun _ => print []) _ _ _ Hrun : _ = (Ok tt, emit (EPrint []) w1))).
    pose proof (ready_out _ _ _ _ _ Hready) as Hout.
    assert (forall p,
              p ∉ map fst (planned (sheet_of s)
                             (OsPath.splitext_root (OsPath.basename s)) out (names_of s)) ->
              files (emit (EPrint []) w1) !! p = files w !! p) as Hother.
    { intros p Hp. rewrite emit_files, Hf. by apply write_all_other. }
    assert (forall p, OsPath.sep ∉ p ->
              files (emit (EPrint []) w1) !! p = files w !! p) as Hsame.
    { intros p Hp. apply Hother. intros Hin.
      by apply planned_paths_apart in Hin as (? & _); [|apply base_name_no_sep|]. }
    destruct (IH (emit (EPrint []) w1)) as [Hok' Hs'].
    { intros s' Hs'in.
      destruct (Hall s') as (Hready' & Huse' & Hsep' & Hnf'); [by right|].
      split; [|done].
      apply (ready_transfer s' out (sheet_of s') (names_of s') w); [done|..].
      - by apply Hsame.
      - by apply Hsame, names_file_no_sep.
      - rewrite emit_dirs, Hd, elem_of_union. tauto.
      - rewrite Hother; [apply Hready|]. intros Hin.
        by apply planned_paths_apart in Hin as (_ & ? & _); [|apply base_name_no_sep|].
      - apply Forall_forall. intros a Ha. rewrite Hother.
        + by apply (proj1 (Forall_forall _ _) (ready_parents _ _ _ _ _ Hready)).
        + intros Hin.
          by apply planned_paths_apart in Hin as (_ & _ & ?); [|apply base_name_no_sep|].
      - apply (no_subdir_made out w); [apply Hready|]. by rewrite emit_dirs. }
    split; [exact Hok'|]. rewrite Hs', emit_print_saves, Hs. by rewrite <- app_assoc.
Qed.

(** [main] up to its loop, when there is a sheet. *)
Lemma main_start argv w :
  filter (fun f => is_sheet_name f = true) (cwd_entries w) ≠ [] ->
  exists wp,
    (files wp = files w /\ dirs wp = dirs w /\ saves (trace wp) = saves (trace w))
    /\ run_main argv w
       = (for_each (PyStr.sorted (filter (fun f => is_sheet_name f = true) (cwd_entries w)))
            (fun sheet_path (_ : unit) =>
               (extract sheet_path (main_output_dir argv) optipng_installed;; print []))
            tt;;
          print (lit "All done! Extracted sprites saved to '" ++ main_output_dir argv
                 ++ lit "/' directory")) wp.
Proof.
  intros Hsome. unfold main.
  rewrite (bind_ok _ _ _ _ _ (eq_refl : os_listdir_cwd w = (Ok (cwd_entries w), w))).
  destruct (filter (fun f => is_sheet_name f = true) (cwd_entries w)) as [|s0 rest] eqn:E;
    [done|].
  assert ((if (1 <? length argv)%nat then getitem argv 1
           else ret (lit "extracted_sprites")) = ret (main_output_dir argv)) as ->.
  { destruct argv as [|a [|b argv']]; reflexivity. }
  rewrite bind_ret.
  unfold check_optipng_available, shutil_which_optipng. rewrite !bind_ret.
  assert (exists wp : world,
            (files wp = files w /\ dirs wp = dirs w /\ saves (trace wp) = saves (trace w))
            /\ forall k : unit -> M unit,
                 ((if match (if optipng_installed then Some (lit "/usr/bin/optipng")
                             else None) with Some _ => true | None => false end
                   then print ([10003] ++ lit " optipng detected - will use for additional optimization")
                   else
                     print ([9888] ++ lit " optipng not found - using basic PNG optimization only");;
                     print (lit "  Install optipng for better compression:");;
                     print (lit "    macOS:   brew install optipng");;
                     print (lit "    Linux:   apt-get install optipng  (or yum/pacman)");;
                     print (lit "    Windows: choco install optipng  (or download from http://optipng.sourceforge.net/)"))
                  ≫= k) w = k tt wp) as (wp & Hwp & Hk).
  { destruct optipng_installed; eexists; (split; [|intros k; reflexivity]).
    - repeat split. apply emit_print_saves.
    - repeat split. by rewrite !emit_print_saves. }
  rewrite Hk, !bind_print.
  assert (match (if optipng_installed then Some (lit "/usr/bin/optipng") else None)
          with Some _ => true | None => false end = optipng_installed) as ->
    by (by destruct optipng_installed).
  eexists. split; [|reflexivity].
  destruct Hwp as (Hf & Hd & Hs). by rewrite !emit_files, !emit_dirs, !emit_print_saves.
Qed.

(** X14: [main] on a directory whose sheets are all ready, with names the
    runs can use, processes every one of them, in the sorted order of their
    names, into the directory named by [sys.argv[1]] (by default
    [extracted_sprites]): it returns, and its saves are the forty outputs of
    each sheet in turn.  A run cannot spoil a later one: the output
    directory is given by a canonical path, so that every output path lies
    below it and none is an entry of the working directory, and no sidecar
    file is looked for where the output directory is made.  The optimizer
    is used exactly when [optipng] is installed, and is taken here to leave
    the files it is given. *)
Theorem main_processes_every_sheet argv sheet_of names_of w :
  let sheets := PyStr.sorted (filter (fun f => is_sheet_name f = true) (cwd_entries w)) in
  let out := main_output_dir argv in
  sheets ≠ [] ->
  (forall s, s ∈ sheets ->
     ready s out (sheet_of s) (names_of s) w
     /\ usable unicode_isalnum (names_of s) = true
     /\ names_file s ∉ made_dirs out) ->
  (optipng_installed = true -> forall argv fs, (optipng argv fs).2 = fs) ->
  (run_main argv w).1 = Ok tt
  /\ saved_since w (run_main argv w).2
     = flat_map (fun s => planned (sheet_of s)
                            (OsPath.splitext_root (OsPath.basename s)) out (names_of s))
                sheets.
Proof.
  intros sheets out Hsome Hall Htool.
  destruct (main_start argv w) as (wp & (Hf & Hd & Hs) & ->).
  { intros Hnil. apply Hsome. subst sheets. by rewrite Hnil. }
  fold sheets. fold out.
  destruct (batch_loop out sheet_of names_of sheets wp) as [Hok Hsaves]; [|done|].
  { intros s Hin. destruct (Hall s Hin) as (Hready & Huse & Hnf).
    assert (OsPath.sep ∉ s) as Hsep.
    { apply (cwd_entry_no_sep w). unfold sheets in Hin.
      apply (proj1 (sorted_elem _ _)) in Hin.
      by apply list_elem_of_filter in Hin as [_ ?]. }
    split; [|done].
    apply (ready_transfer s out (sheet_of s) (names_of s) w); [done|..].
    - by rewrite Hf.
    - by rewrite Hf.
    - by rewrite Hd.
    - rewrite Hf. apply Hready.
    - rewrite Hf. apply Hready.
    - intros name. rewrite Hd. by apply (ready_dirs _ _ _ _ _ Hready name). }
  destruct (for_each sheets _ tt wp) as [res w1] eqn:Hloop.
  cbn [fst snd] in Hok, Hsaves. subst res.
  rewrite (bind_ok _ _ _ _ _ Hloop). cbn [print fst snd].
  split; [done|]. unfold saved_since.
  by rewrite emit_print_saves, Hsaves, Hs, drop_app_length.
Qed.

(** X15: nothing in [main] catches a failure: when the first sheet in
    sorted order is not recognised as an image by [Image.open], [main]
    raises, no later sheet is looked at, no directory is made and nothing
    is saved. *)
Theorem main_halts_on_bad_sheet argv s rest w :
  PyStr.sorted (filter (fun f => is_sheet_name f = true) (cwd_entries w)) = s :: rest ->
  (forall im, files w !! s ≠ Some (Image im)) ->
  (exists e, (run_main argv w).1 = Raise e)
  /\ files (run_main argv w).2 = files w
  /\ dirs (run_main argv w).2 = dirs w
  /\ saves (trace (run_main argv w).2) = saves (trace w).
Proof.
  intros Hsorted Hbad.
  destruct (main_start argv w) as (wp & (Hf & Hd & Hs) & ->).
  { intros Hnil. by rewrite Hnil in Hsorted. }
  rewrite Hsorted. cbn [for_each].
  destruct (Image_open_fails s wp) as (e & Hopen & _).
  { intros im. rewrite Hf. apply Hbad. }
  assert (extract s (main_output_dir argv) optipng_installed wp = (Raise e, wp)) as Hrun.
  { unfold extract_sprites_from_sheet. by rewrite (bind_raise _ _ _ _ _ Hopen). }
  rewrite (bind_raise _ _ _ _ _
            (bind_raise _ _ _ _ _ (bind_raise _ (fun _ => print []) _ _ _ Hrun))).
  cbn [fst snd]. split; [by exists e|]. by rewrite Hf, Hd, Hs.
Qed.

End Driver.

(** ** The further properties on the sample data *)


Lemma sidecar_directory_aborts_witness :
  load_character_names page1 world_sidecar_dir = (Raise IsADirectoryError, world_sidecar_dir)
  /\ (extract_sprites_from_sheet ascii_only true failing_optipng
        page1 (lit "out") false world_sidecar_dir).1 = Raise IsADirectoryError.
Proof.
  destruct (sidecar_directory_aborts ascii_only true failing_optipng page1 (lit "out")
              false marker_sheet world_sidecar_dir) as (Hload & Hrun & _).
  - reflexivity.
  - reflexivity.
  - apply (proj2 (elem_of_singleton (names_file page1) (lit "npc-sprites-page-1.txt"))).
    reflexivity.
  - exact (conj Hload Hrun).
Defined.

Lemma makedirs_failure_aborts_witness :
  (extract_sprites_from_sheet ascii_only true failing_optipng
     page1 (lit "out") false world_out_is_file).1 = Raise FileExistsError
  /\ same_disk world_out_is_file
       (extract_sprites_from_sheet ascii_only true failing_optipng
          page1 (lit "out") false world_out_is_file).2.
Proof.
  apply (makedirs_failure_aborts ascii_only true failing_optipng page1 (lit "out")
           false marker_sheet None world_out_is_file).
  - reflexivity.
  - reflexivity.
  - right. eexists. reflexivity.
Defined.

Lemma missing_optipng_uncaught_witness :
  optimize_png_with_optipng false failing_optipng (lit "out/a.png") (world_with None)
  = (Raise FileNotFoundError, world_with None)
  /\ (extract_sprites_from_sheet ascii_only false failing_optipng
        page1 (lit "out") true (world_with None)).1 = Raise FileNotFoundError.
Proof.
  destruct (missing_optipng_uncaught ascii_only false failing_optipng eq_refl)
    as [Hone Hall].
  split; [apply Hone|].
  apply (Hall page1 (lit "out") marker_sheet None (world_with None)
           (sample_ready None None eq_refl) eq_refl).
Defined.

Lemma plain_run_transcript_witness :
  sample_run None false
  = (Ok tt,
     mkWorld
       (write_all (planned_outputs ascii_only marker_sheet
                     (OsPath.splitext_root (OsPath.basename page1)) (lit "out") None)
                  (files (world_with None)))
       (made_dirs (lit "out") ∪ ∅)
       (save_events ascii_only page1 (lit "out") marker_sheet None (world_with None)
        ++ [EPrint (lit "Extraction complete for npc-sprites-page-1.png!")])).
Proof.
  apply (plain_run_transcript ascii_only true failing_optipng page1 (lit "out")
           marker_sheet None (world_with None)).
  - apply sample_ready. reflexivity.
  - reflexivity.
Defined.

(** The first events of a run on the sample sheet. *)
Example sample_transcript_head :
  take 6 (trace (sample_run None false).2)
  = [EPrint (lit "No character names file found (npc-sprites-page-1.txt)");
     EPrint (lit "Using default naming (row/sprite numbers)");
     EMkdir (lit "out");
     EPrint (lit "Processing npc-sprites-page-1.png...");
     EPrint (lit "Extracting 16x16 sprites from first column...");
     ESave (lit "out/npc-sprites-page-1_row0_sprite1.png")
           (crop marker_sheet (0, 0, 16, 16)%nat)].
Proof. reflexivity. Qed.

Lemma optimized_run_transcript_witness :
  trace (sample_run None true).2
  = save_events ascii_only page1 (lit "out") marker_sheet None (world_with None)
    ++ [EPrint (lit "Optimizing 40 files with optipng...")]
    ++ exec_events failing_optipng
         (map fst (planned_outputs ascii_only marker_sheet
                     (OsPath.splitext_root (OsPath.basename page1)) (lit "out") None))
         (write_all (planned_outputs ascii_only marker_sheet
                       (OsPath.splitext_root (OsPath.basename page1)) (lit "out") None)
                    (files (world_with None)))
    ++ [EPrint (lit "Optimization complete!");
        EPrint (lit "Extraction complete for npc-sprites-page-1.png!")].
Proof.
  unfold sample_run.
  rewrite (optimized_run_transcript ascii_only true failing_optipng page1 (lit "out")
             marker_sheet None (world_with None) eq_refl (sample_ready None None eq_refl)
             eq_refl).
  reflexivity.
Defined.

Lemma main_processes_every_sheet_witness :
  (main ascii_only true failing_optipng batch_argv world_two_sheets).1 = Ok tt
  /\ saved_since world_two_sheets
       (main ascii_only true failing_optipng batch_argv world_two_sheets).2
     = planned_outputs ascii_only marker_sheet (lit "npc-sprites-a") (lit "out") None
       ++ planned_outputs ascii_only marker_sheet (lit "npc-sprites-b") (lit "out") None.
Proof.
  destruct (main_processes_every_sheet ascii_only true failing_optipng batch_argv
              (fun _ => marker_sheet) (fun _ => None) world_two_sheets)
    as [Hok Hsaves].
  - vm_compute. discriminate.
  - intros s Hs.
    assert (s = lit "npc-sprites-a.png" \/ s = lit "npc-sprites-b.jpg") as [->| ->].
    { vm_compute in Hs. apply elem_of_cons in Hs as [->|Hs]; [by left|].
      apply list_elem_of_singleton in Hs as ->. by right. }
    + split; [|split; [reflexivity|]].
      * split; [reflexivity..|by vm_compute|reflexivity|reflexivity|reflexivity
               |reflexivity|constructor|].
        intros name. apply not_elem_of_empty.
      * unfold made_dirs. rewrite elem_of_union, elem_of_list_to_set, elem_of_singleton.
        intros [Hin|Heq]; [by apply elem_of_nil in Hin|discriminate].
    + split; [|split; [reflexivity|]].
      * split; [reflexivity..|by vm_compute|reflexivity|reflexivity|reflexivity
               |reflexivity|constructor|].
        intros name. apply not_elem_of_empty.
      * unfold made_dirs. rewrite elem_of_union, elem_of_list_to_set, elem_of_singleton.
        intros [Hin|Heq]; [by apply elem_of_nil in Hin|discriminate].
  - intros _ argv fs. reflexivity.
  - split; [exact Hok|]. rewrite Hsaves.
    assert (PyStr.sorted (filter (fun f => is_sheet_name f = true)
                            (cwd_entries world_two_sheets))
            = [lit "npc-sprites-a.png"; lit "npc-sprites-b.jpg"]) as ->
      by (vm_compute; reflexivity).
    cbn [flat_map]. by rewrite app_nil_r.
Defined.

Lemma main_halts_on_bad_sheet_witness :
  (exists e, (main ascii_only true failing_optipng batch_argv world_bad_first).1 = Raise e)
  /\ files (main ascii_only true failing_optipng batch_argv world_bad_first).2
     = files world_bad_first
  /\ dirs (main ascii_only true failing_optipng batch_argv world_bad_first).2
     = dirs world_bad_first
  /\ saves (trace (main ascii_only true failing_optipng batch_argv world_bad_first).2)
     = saves (trace world_bad_first).
Proof.
  apply (main_halts_on_bad_sheet ascii_only true failing_optipng batch_argv
           (lit "npc-sprites-a.png") [lit "npc-sprites-b.png"] world_bad_first).
  - vm_compute. reflexivity.
  - intros im. vm_compute. discriminate.
Defined.

Lemma parent_file_aborts_witness :
  (extract_sprites_from_sheet ascii_only true failing_optipng
     page1 (lit "notes.txt/out") false world_parent_is_file).1 = Raise NotADirectoryError
  /\ same_disk world_parent_is_file
       (extract_sprites_from_sheet ascii_only true failing_optipng
          page1 (lit "notes.txt/out") false world_parent_is_file).2.
Proof.
  apply (parent_file_aborts ascii_only true failing_optipng page1 (lit "notes.txt/out")
           false marker_sheet None (lit "notes.txt") world_parent_is_file).
  - reflexivity.
  - reflexivity.
  - reflexivity.
  - reflexivity.
  - reflexivity.
  - vm_compute. left.
  - eexists. reflexivity.
Defined.

Lemma damaged_sheet_aborts_witness :
  (extract_sprites_from_sheet ascii_only true failing_optipng
     page1 (lit "out") false (world_of damaged_sheet)).1 = Raise OSError
  /\ dirs (extract_sprites_from_sheet ascii_only true failing_optipng
             page1 (lit "out") false (world_of damaged_sheet)).2
     = made_dirs (lit "out") ∪ ∅
  /\ saves (trace (extract_sprites_from_sheet ascii_only true failing_optipng
                     page1 (lit "out") false (world_of damaged_sheet)).2) = [].
Proof.
  destruct (damaged_sheet_aborts ascii_only true failing_optipng page1 (lit "out") false
              damaged_sheet None (world_of damaged_sheet))
    as (Hraise & _ & Hdirs & Hsaves & _).
  - reflexivity.
  - reflexivity.
  - reflexivity.
  - reflexivity.
  - reflexivity.
  - reflexivity.
  - constructor.
  - exact (conj Hraise (conj Hdirs Hsaves)).
Defined.

(** The trace of that run: two lines, the directory, two lines, and no
    more. *)
Example damaged_sheet_trace :
  trace (extract_sprites_from_sheet ascii_only true failing_optipng
           page1 (lit "out") false (world_of damaged_sheet)).2
  = [EPrint (lit "No character names file found (npc-sprites-page-1.txt)");
     EPrint (lit "Using default naming (row/sprite numbers)");
     EMkdir (lit "out");
     EPrint (lit "Processing npc-sprites-page-1.png...");
     EPrint (lit "Extracting 16x16 sprites from first column...")].
Proof. reflexivity. Qed.

Lemma unstorable_mode_saves_nothing_witness :
  (exists e, (extract_sprites_from_sheet ascii_only true failing_optipng
                page1 (lit "out") false (world_of cmyk_sheet)).1 = Raise e)
  /\ saved_since (world_of cmyk_sheet)
       (extract_sprites_from_sheet ascii_only true failing_optipng
          page1 (lit "out") false (world_of cmyk_sheet)).2 = [].
Proof.
  apply (unstorable_mode_saves_nothing ascii_only true failing_optipng page1 (lit "out")
           false cmyk_sheet (world_of cmyk_sheet)).
  - reflexivity.
  - reflexivity.
Defined.

(** On the sample the exception is [OSError], raised by the first save,
    after the output directory is made. *)
Example cmyk_sheet_run :
  (extract_sprites_from_sheet ascii_only true failing_optipng
     page1 (lit "out") false (world_of cmyk_sheet)).1 = Raise OSError
  /\ trace (extract_sprites_from_sheet ascii_only true failing_optipng
              page1 (lit "out") false (world_of cmyk_sheet)).2
     = [EPrint (lit "No character names file found (npc-sprites-page-1.txt)");
        EPrint (lit "Using default naming (row/sprite numbers)");
        EMkdir (lit "out");
        EPrint (lit "Processing npc-sprites-page-1.png...");
        EPrint (lit "Extracting 16x16 sprites from first column...")].
Proof. by vm_compute. Qed.

Lemma saves_follow_plan_witness :
  sample_outputs (Some (text_of nameless_three)) false
  `prefix_of` planned_outputs ascii_only marker_sheet
                (OsPath.splitext_root (OsPath.basename page1)) (lit "out")
                (Some nameless_three).
Proof.
  apply (proj1 (saves_follow_plan ascii_only true failing_optipng page1 (lit "out") false
                  (world_with (Some (text_of nameless_three))))
           marker_sheet (Some nameless_three)).
  - reflexivity.
  - reflexivity.
Defined.

(** The current directory and paths through it are not canonical. *)
Example not_canonical :
  map OsPath.canonical [lit "."; lit "./out"; lit "out/"; lit "a//b"; lit "/tmp/out";
                        lit "../out"; lit ""]
  = [false; false; false; false; false; false; false]
  /\ map OsPath.canonical [lit "out"; lit "extracted_sprites"; lit "a/b.c/out"]
     = [true; true; true].
Proof. by vm_compute. Qed.

(** ** Where the sidecar file is looked for *)

Lemma splitext_stem (stem ext : str) :
  OsPath.sep ∉ stem -> OsPath.sep ∉ ext -> OsPath.dot ∉ ext ->
  (exists c, c ∈ stem /\ c ≠ OsPath.dot) ->
  OsPath.splitext_root (stem ++ OsPath.dot :: ext) = stem
  /\ OsPath.basename (stem ++ OsPath.dot :: ext) = stem ++ OsPath.dot :: ext.
Proof.
  intros Hs He Hd (c & Hc & Hcd).
  assert (PyStr.rfind (stem ++ OsPath.dot :: ext) OsPath.sep = None) as Hsep.
  { apply rfind_absent. rewrite elem_of_app, elem_of_cons.
    intros [?|[?|?]]; [done|discriminate|done]. }
  split.
  - unfold OsPath.splitext_root. unfold char in *.
    rewrite (rfind_last stem ext OsPath.dot Hd), Hsep.
    cbn [Nat.leb andb]. rewrite Nat.sub_0_r, drop_0, take_app_length.
    replace (existsb (fun c0 => negb (c0 =? OsPath.dot)) stem) with true; [done|].
    symmetry. apply existsb_exists. exists c. split; [by apply list_elem_of_In|].
    apply negb_true_iff, N.eqb_neq, Hcd.
  - unfold OsPath.basename. by rewrite Hsep.
Qed.

(** X16: for an entry of the working directory that [main] takes for a
    sheet, the sidecar file is the entry with its extension ([png], [webp]
    or [jpg]) replaced by [txt], dots elsewhere in the name being kept, and
    the base of the positional file names is the entry without its
    extension. *)
Theorem sheet_sidecar f :
  is_sheet_name f = true -> OsPath.sep ∉ f ->
  exists stem ext,
    f = stem ++ OsPath.dot :: ext
    /\ ext ∈ [lit "png"; lit "webp"; lit "jpg"]
    /\ names_file f = stem ++ lit ".txt"
    /\ OsPath.splitext_root (OsPath.basename f) = stem.
Proof.
  unfold is_sheet_name. intros [Hpre Hsuf]%andb_true_iff Hsep.
  apply startswith_split in Hpre as [rest Hrest].
  assert (exists stem ext, f = stem ++ OsPath.dot :: ext
                           /\ ext ∈ [lit "png"; lit "webp"; lit "jpg"])
    as (stem & ext & Hf & Hext).
  { apply orb_true_iff in Hsuf as [Hsuf|Hsuf];
      [apply orb_true_iff in Hsuf as [Hsuf|Hsuf]|];
      apply endswith_split in Hsuf as [stem ->]; exists stem.
    - exists (lit "png"). split; [done|]. left.
    - exists (lit "webp"). split; [done|]. right. left.
    - exists (lit "jpg"). split; [done|]. do 2 right. left. }
  exists stem, ext. split; [done|]. split; [done|].
  assert ((OsPath.dot ∉ ext) /\ (OsPath.sep ∉ ext)) as [Hd He].
  { rewrite !elem_of_cons, elem_of_nil in Hext.
    destruct Hext as [->|[->|[->|[]]]]; split;
      intros Hin%list_elem_of_In; vm_compute in Hin; intuition discriminate. }
  assert (exists c, c ∈ stem /\ c ≠ OsPath.dot) as Hc.
  { destruct stem as [|c stem]; [by rewrite Hrest in Hf|].
    exists c. split; [left|]. rewrite Hrest in Hf. injection Hf as <-. discriminate. }
  assert (OsPath.sep ∉ stem) as Hs.
  { intros Hin. apply Hsep. rewrite Hf. apply elem_of_app. by left. }
  destruct (splitext_stem stem ext Hs He Hd Hc) as [Hroot Hbase].
  rewrite Hf. unfold names_file. unfold char in *. by rewrite Hbase, Hroot.
Qed.

Lemma sheet_sidecar_witness :
  exists stem ext,
    lit "npc-sprites-v1.2.webp" = stem ++ OsPath.dot :: ext
    /\ ext ∈ [lit "png"; lit "webp"; lit "jpg"]
    /\ names_file (lit "npc-sprites-v1.2.webp") = stem ++ lit ".txt"
    /\ OsPath.splitext_root (OsPath.basename (lit "npc-sprites-v1.2.webp")) = stem.
Proof.
  apply (sheet_sidecar (lit "npc-sprites-v1.2.webp")).
  - reflexivity.
  - intros Hin%list_elem_of_In. vm_compute in Hin. intuition discriminate.
Defined.

(** ** The order of the sheets *)

Lemma leb_total (a b : str) : PyStr.leb a b = false -> PyStr.leb b a = true.
Proof.
  revert b. induction a as [|x a IH]; intros [|y b]; cbn [PyStr.leb]; try done.
  intros [Hlt [Heq|Hle]%andb_false_iff]%orb_false_iff;
    apply N.ltb_ge in Hlt; apply orb_true_iff.
  - apply N.eqb_neq in Heq. left. apply N.ltb_lt. lia.
  - destruct (N.eqb_spec y x) as [->|Hne].
    + right. by rewrite (IH b Hle).
    + left. apply N.ltb_lt. lia.
Qed.

Lemma leb_trans (a b c : str) :
  PyStr.leb a b = true -> PyStr.leb b c = true -> PyStr.leb a c = true.
Proof.
  revert b c. induction a as [|x a IH]; intros [|y b] [|z c]; cbn [PyStr.leb]; try done.
  intros [Hxy|[Hxy Hab]%andb_true_iff]%orb_true_iff
         [Hyz|[Hyz Hbc]%andb_true_iff]%orb_true_iff;
    try apply N.ltb_lt in Hxy; try apply N.ltb_lt in Hyz;
    try apply N.eqb_eq in Hxy; try apply N.eqb_eq in Hyz; apply orb_true_iff.
  - left. apply N.ltb_lt. lia.
  - left. apply N.ltb_lt. lia.
  - left. apply N.ltb_lt. lia.
  - right. subst. by rewrite N.eqb_refl, (IH b c Hab Hbc).
Qed.

Lemma insert_sorted_perm x l : PyStr.insert_sorted x l ≡ₚ x :: l.
Proof.
  induction l as [|y l IH]; cbn [PyStr.insert_sorted]; [done|].
  destruct (PyStr.leb x y); [done|]. by rewrite IH, Permutation_swap.
Qed.

Lemma insert_sorted_sorted x l :
  StronglySorted (fun a b => PyStr.leb a b = true) l ->
  StronglySorted (fun a b => PyStr.leb a b = true) (PyStr.insert_sorted x l).
Proof.
  induction 1 as [|y l Hl IH Hy]; cbn [PyStr.insert_sorted].
  - repeat constructor.
  - destruct (PyStr.leb x y) eqn:E.
    + constructor; [by constructor|]. constructor; [done|].
      eapply Forall_impl; [exact Hy|]. intros z Hz. by apply (leb_trans x y z).
    + constructor; [done|].
      rewrite (insert_sorted_perm x l). constructor; [by apply leb_total|done].
Qed.

(** X17: the list [main] loops over holds the matching entries of the
    working directory, each as often as it is listed, in ascending order of
    their code points; the order in which [os.listdir] returns them does
    not matter. *)
Theorem sheets_in_order (listing : list str) :
  let sheets := PyStr.sorted (filter (fun f => is_sheet_name f = true) listing) in
  sheets ≡ₚ filter (fun f => is_sheet_name f = true) listing
  /\ StronglySorted (fun a b => PyStr.leb a b = true) sheets
  /\ forall listing', listing' ≡ₚ listing ->
       PyStr.sorted (filter (fun f => is_sheet_name f = true) listing') = sheets.
Proof.
  assert (forall l, PyStr.sorted l ≡ₚ l) as Hperm.
  { induction l as [|x l IH]; [done|]. unfold PyStr.sorted in *. cbn [foldr].
    by rewrite insert_sorted_perm, IH. }
  assert (forall l, StronglySorted (fun a b => PyStr.leb a b = true) (PyStr.sorted l))
    as Hsorted.
  { induction l as [|x l IH]; [constructor|]. unfold PyStr.sorted in *. cbn [foldr].
    by apply insert_sorted_sorted. }
  assert (forall a b : str, PyStr.leb a b = true -> PyStr.leb b a = true -> a = b) as Hanti.
  { induction a as [|x a IH]; intros [|y b]; cbn [PyStr.leb]; try done.
    intros [Hxy|[Hxy Hab]%andb_true_iff]%orb_true_iff
           [Hyx|[Hyx Hba]%andb_true_iff]%orb_true_iff;
      try apply N.ltb_lt in Hxy; try apply N.ltb_lt in Hyx;
      try apply N.eqb_eq in Hxy; try apply N.eqb_eq in Hyx; try lia.
    subst. f_equal. by apply IH. }
  cbv zeta. split; [apply Hperm|]. split; [apply Hsorted|].
  intros listing' Hl.
  assert (forall l1 l2 : list str,
            StronglySorted (fun a b => PyStr.leb a b = true) l1 ->
            StronglySorted (fun a b => PyStr.leb a b = true) l2 ->
            l1 ≡ₚ l2 -> l1 = l2) as Huniq.
  { induction l1 as [|x l1 IH]; intros l2 H1 H2 Hp.
    - by apply Permutation_nil_l in Hp.
    - destruct l2 as [|y l2]; [by apply Permutation_nil_r in Hp|].
      apply StronglySorted_inv in H1 as [H1 Hx]. apply StronglySorted_inv in H2 as [H2 Hy].
      assert (forall a : str, PyStr.leb a a = true) as Hrefl.
      { intros a. destruct (PyStr.leb a a) eqn:E; [done|].
        pose proof (leb_total a a E). congruence. }
      assert (x = y) as ->.
      { apply Hanti.
        - assert (y ∈ x :: l1) as [Heq|Hin]%elem_of_cons by (rewrite Hp; left).
          + rewrite Heq. apply Hrefl.
          + by apply (proj1 (Forall_forall _ _) Hx).
        - assert (x ∈ y :: l2) as [Heq|Hin]%elem_of_cons by (rewrite <- Hp; left).
          + rewrite Heq. apply Hrefl.
          + by apply (proj1 (Forall_forall _ _) Hy). }
      f_equal. apply IH; [done..|]. by apply (Permutation_cons_inv Hp). }
  apply Huniq; [apply Hsorted..|].
  rewrite !Hperm. by apply filter_Permutation.
Qed.
